(** * Web API for the mode solver: a shallow embedding of
      [tidy3d/web/api/mode.py]

    The module drives a remote mode-solver task through its life: create,
    upload, submit, poll, fetch the result, delete or abort.  Everything it
    does is a call on a collaborator (the HTTP transport, the artifact
    store, the folder registry, the payload classes, the logger, the
    operating system).  The embedding keeps the control flow of the Python
    functions and turns every such call into an event of a trace:

    - a Python value is a [pyval]; an object of a collaborator class is a
      reference [PObj o], so that aliasing can be stated;
    - a function with effects is a state-and-exception monad [M] over a
      [World] (the trace of calls so far, the temporary files on disk, the
      payloads' [_cached_properties]);
    - what a collaborator answers is decided by an environment [env], a
      function of the call and of the history; the theorems hold for every
      environment;
    - the [while] loop of [run] has no bound in the source; it is a
      [Fixpoint] on the number of iterations allowed, and is [Running], in
      the world reached, when they are used up;
    - the class [WebError] is declared outside the module; what raising it
      does besides raising (its constructor writes the message with
      [log.error]) is part of the embedding, see [raise_WebError]. *)

From stdpp Require Import base option list strings gmap sets fin_maps infinite.
From Stdlib Require Import ZArith QArith.

Close Scope Q_scope.
Open Scope string_scope.
Open Scope list_scope.

(** ** Python values *)

(** A reference to an object of a collaborator class ([ModeSolver],
    [Simulation], [ModeSolverData], a monitor, a [datetime]). *)
Definition obj := nat.

Inductive pyval :=
  | PNone
  | PStr (s : string)
  | PInt (z : Z)
  | PBool (b : bool)
  | PObj (o : obj).

Global Instance pyval_eq_dec : EqDecision pyval.
Proof. solve_decision. Defined.

(** Python's [==] on these values: [bool] is a subclass of [int], objects
    compare by identity. *)
Definition py_eq (a b : pyval) : bool :=
  match a, b with
  | PNone, PNone => true
  | PStr s, PStr t => bool_decide (s = t)
  | PInt x, PInt y => bool_decide (x = y)
  | PBool x, PBool y => bool_decide (x = y)
  | PInt x, PBool y | PBool y, PInt x => bool_decide (x = Z.b2z y)
  | PObj o, PObj o' => bool_decide (o = o')
  | _, _ => false
  end.

(** An f-string, kept as its pieces: literal text and interpolated values. *)
Inductive piece :=
  | Lit (s : string)
  | Val (v : pyval).

Definition fstr := list piece.

Global Instance piece_eq_dec : EqDecision piece.
Proof. solve_decision. Defined.

(** A file name: one the caller gave, or one [tempfile.mkstemp] made (the
    number stands for the random part of the name). *)
Inductive path :=
  | UserPath (s : string)
  | TmpPath (n : nat) (suffix : string).

Global Instance path_eq_dec : EqDecision path.
Proof. solve_decision. Defined.

(** Exceptions. [ClientError code] is botocore's exception for an error
    answer of the store, of any kind; [code] is the code of the error
    (["NoSuchKey"], ["AccessDenied"], ...).  [WebErrorFrom msg cause] is a
    [WebError] with the [__cause__] that [raise ... from e] sets. *)
Inductive exn :=
  | ClientError (code : string)
  | WebError (msg : string)
  | WebErrorFrom (msg : string) (cause : exn)
  | ValidationError
  | TypeError
  | KeyError (key : string)
  | AttributeError
  | FileNotFoundError
  | OtherError (name : string).

Inductive Result (A : Type) :=
  | Ok (a : A)
  | Raise (e : exn).
Arguments Ok {A} a.
Arguments Raise {A} e.

(** ** Constants of the module *)

Definition SIMULATION_JSON := "simulation.json".
Definition SIM_FILE_HDF5_GZ := "simulation.hdf5.gz".
Definition MODESOLVER_API := "tidy3d/modesolver/py".
Definition MODESOLVER_JSON := "mode_solver.json".
Definition MODESOLVER_HDF5 := "mode_solver.hdf5".
Definition MODESOLVER_GZ := "mode_solver.hdf5.gz".
Definition MODESOLVER_LOG := "output/result.log".
Definition MODESOLVER_RESULT := "output/result.hdf5".
Definition MODESOLVER_RESULT_GZ := "output/mode_solver_data.hdf5.gz".

(** ** The Task Record *)

(** [class ModeSolverTask(ResourceLifecycle, Submittable,
    extra=pydantic.Extra.allow)]: the declared fields, and the attributes a
    server response brought beyond them.  The two bases are interfaces
    (abstract methods); they are taken to declare no field and to leave
    pydantic's configuration as it is. *)
Record ModeSolverTask := mkModeSolverTask {
  task_id : pyval;
  solver_id : pyval;
  real_flex_unit : pyval;
  created_at : pyval;
  status : pyval;
  file_type : pyval;
  mode_solver : pyval;
  extra : gmap string pyval;
}.

(** The annotation of a declared field. *)
Inductive ftype := TStr | TFloat | TOptDatetime | TModeSolver.

(** The declared fields: name, alias, annotation.  A field without an alias
    is populated under its own name. *)
Definition declared : list (string * string * ftype) :=
  [ ("task_id", "refId", TStr);
    ("solver_id", "id", TStr);
    ("real_flex_unit", "charge", TFloat);
    ("created_at", "createdAt", TOptDatetime);
    ("status", "status", TStr);
    ("file_type", "fileType", TStr);
    ("mode_solver", "mode_solver", TModeSolver) ].

Definition declared_keys : list string :=
  declared.*1.*1 ++ declared.*1.*2.

(** What pydantic does with keys outside the schema. *)
Inductive Extra := Extra_allow | Extra_ignore | Extra_forbid.

(** ** Calls on collaborators *)

(** The calls the module makes, indexed by the type of what they return. *)
Inductive Call : Type → Type :=
  (* the payload classes; [Sim...] is the method of [ms.simulation] *)
  | SceneMediums (ms : obj) : Call (list bool)
  | ReducedSimulationCopy (ms : obj) : Call obj
  | ValidatePreUpload (ms : obj) : Call unit
  | SimValidatePreUpload (ms : obj) (source_required : bool) : Call unit
  | Copy (ms : obj) : Call obj
  | ToHdf5Gz (ms : obj) (file : path) : Call unit
  | SimToHdf5Gz (ms : obj) (file : path) : Call unit
  | FromHdf5Gz (file : path) : Call obj
  | FromHdf5 (file : path) : Call obj
  | DictFromJson (file : path) : Call (gmap string pyval)
  | SimulationFromJson (file : path) : Call obj
  | ParseObj (d : gmap string pyval) : Call obj
  | ToFile (ms : obj) (file : path) : Call unit
  | ToModeSolverMonitor (ms : obj) (name : string) : Call obj
  | DataFromHdf5 (file : path) : Call obj
  | DataCopy (data : obj) (update : list (string * pyval)) : Call obj
  | DataOf (ms : obj) : Call obj
  (* the folder registry *)
  | FolderGet (folder_name : string) (create : bool) : Call pyval
  (* the transport *)
  | HttpGet (url : fstr) : Call (gmap string pyval)
  | HttpPost (url : fstr) (body : list (string * pyval)) : Call (gmap string pyval)
  | HttpPut (url : fstr) (body : list (string * pyval)) : Call (gmap string pyval)
  | HttpDelete (url : fstr) : Call (gmap string pyval)
  (* the artifact store *)
  | UploadFile (resource_id : pyval) (file : path) (remote_filename : string)
      (verbose : bool) (progress_callback : option nat) : Call unit
  | DownloadFile (resource_id : pyval) (remote_filename : string) (to_file : path)
      (verbose : bool) (progress_callback : option nat) : Call path
  | DownloadGzFile (resource_id : pyval) (remote_filename : string) (to_file : path)
      (verbose : bool) (progress_callback : option nat) : Call path
  (* the operating system, the clock and the loggers *)
  | Mkstemp (suffix : string) : Call path
  | Unlink (file : path) : Call unit
  | Sleep (seconds : Q) : Call unit
  | LogLog (level : string) (msg : fstr) : Call unit
  | LogInfo (msg : fstr) : Call unit
  | LogWarning (msg : fstr) : Call unit
  | LogError (msg : string) : Call unit
  | ConsoleLog (msg : fstr) : Call unit
  (* pydantic, and the payload's cache *)
  | Construct (kw : gmap string pyval) : Call ModeSolverTask
  | CacheSet (ms : obj) (key : string) (v : pyval) : Call unit.

(** One call and its outcome. *)
Inductive Event :=
  | Ev {T : Type} (c : Call T) (r : Result T).

(** The collaborators: what a call answers, given the calls made so far. *)
Definition Env := ∀ T : Type, list Event → Call T → Result T.

(** ** The world and the monad *)

(** What the module can see of the world: the calls made so far, oldest
    first; the temporary files it made with [mkstemp] that are still on
    disk (by the number in their name); and what it stored in the
    [_cached_properties] of payloads.  The collaborators are taken not to
    make or remove files in the temporary directory behind the module's
    back, and not to write ["data_raw"] themselves. *)
Record World := mkWorld {
  trace : list Event;
  tmpfiles : gset nat;
  cached : gmap (obj * string) pyval;
}.

Definition M (A : Type) : Type := World → Result A * World.

Definition ret {A} (a : A) : M A := λ w, (Ok a, w).

Definition raise {A} (e : exn) : M A := λ w, (Raise e, w).

Definition bind {A B} (k : A → M B) (m : M A) : M B :=
  λ w, match m w with
       | (Ok a, w') => k a w'
       | (Raise e, w') => (Raise e, w')
       end.

Global Instance M_ret : MRet M := @ret.
Global Instance M_bind : MBind M := @bind.

(** [try: body finally: fin]. *)
Definition try_finally {A} (body : M A) (fin : M unit) : M A :=
  λ w, match body w with
       | (r, w') =>
           match fin w' with
           | (Ok _, w'') => (r, w'')
           | (Raise e, w'') => (Raise e, w'')
           end
       end.

(** [try: body except <class>: handler], the class given by a test on the
    exception. *)
Definition try_except {A} (body : M A) (catches : exn → bool) (handler : exn → M A) : M A :=
  λ w, match body w with
       | (Ok a, w') => (Ok a, w')
       | (Raise e, w') => if catches e then handler e w' else (Raise e, w')
       end.

(** A computation with a loop: done, with a result, or still running when
    the iterations allowed are used up. *)
Inductive Outcome (A : Type) :=
  | Done (r : Result A) (w : World)
  | Running (w : World).
Arguments Done {A} r w.
Arguments Running {A} w.

Definition P (A : Type) : Type := World → Outcome A.

Definition lift {A} (m : M A) : P A := λ w, let (r, w') := m w in Done r w'.

Definition P_bind {A B} (k : A → P B) (m : P A) : P B :=
  λ w, match m w with
       | Done (Ok a) w' => k a w'
       | Done (Raise e) w' => Done (Raise e) w'
       | Running w' => Running w'
       end.

Global Instance P_ret : MRet P := λ A a, lift (ret a).
Global Instance P_bind_inst : MBind P := @P_bind.

Definition world_of {A} (o : Outcome A) : World :=
  match o with Done _ w | Running w => w end.

Definition result_of {A} (o : Outcome A) : option (Result A) :=
  match o with Done r _ => Some r | Running _ => None end.

Definition when (b : bool) (m : M unit) : M unit :=
  if b then m else ret tt.

Definition log_event {T} (c : Call T) (r : Result T) (w : World) : World :=
  mkWorld (trace w ++ [Ev c r]) (tmpfiles w) (cached w).

(** A call the module answers itself (logging, sleeping). *)
Definition emit (c : Call unit) : M unit :=
  λ w, (Ok tt, log_event c (Ok tt) w).

(** [tempfile.mkstemp(suffix)] followed by [os.close(file)] (taken not to
    fail on the descriptor just opened): a new file, of a name not in
    use. *)
Definition mkstemp (suffix : string) : M path :=
  λ w, let n := fresh (tmpfiles w) in
       let p := TmpPath n suffix in
       (Ok p, mkWorld (trace w ++ [Ev (Mkstemp suffix) (Ok p)])
                      ({[ n ]} ∪ tmpfiles w) (cached w)).

(** [os.unlink(file)]; the module unlinks no file but those it made with
    [mkstemp], the files of the caller are not kept track of. *)
Definition unlink (file : path) : M unit :=
  λ w, match file with
       | TmpPath n _ =>
           if bool_decide (n ∈ tmpfiles w) then
             (Ok tt, mkWorld (trace w ++ [Ev (Unlink file) (Ok tt)])
                             (tmpfiles w ∖ {[ n ]}) (cached w))
           else (Raise FileNotFoundError,
                 log_event (Unlink file) (Raise FileNotFoundError) w)
       | UserPath _ =>
           (Raise FileNotFoundError,
            log_event (Unlink file) (Raise FileNotFoundError) w)
       end.

(** [ms._cached_properties[key] = v]. *)
Definition cache_set (ms : obj) (key : string) (v : pyval) : M unit :=
  λ w, (Ok tt, mkWorld (trace w ++ [Ev (CacheSet ms key v) (Ok tt)])
                       (tmpfiles w) (<[(ms, key) := v]> (cached w))).

(** An attribute or method of a payload is looked up on an object; on
    [None] (or a number, a string) Python raises [AttributeError]. *)
Definition as_obj (v : pyval) : M obj :=
  match v with
  | PObj o => ret o
  | _ => raise AttributeError
  end.

(** [d[key]]. *)
Definition getitem (d : gmap string pyval) (key : string) : M pyval :=
  match d !! key with
  | Some v => ret v
  | None => raise (KeyError key)
  end.

Definition is_ClientError (e : exn) : bool :=
  match e with ClientError _ => true | _ => false end.

(** Modelled from the spec: the class [WebError] of [tidy3d/exceptions.py],
    which the module imports and raises.  Constructing the exception writes
    its message, once, with [log.error] (a terminal failure gives "a single
    clear message before raising"); [cause] is the [e] of
    [raise WebError(msg) from e]. *)
Definition raise_WebError {A} (msg : string) (cause : option exn) : M A :=
  emit (LogError msg);;
  raise (match cause with
         | Some e => WebErrorFrom msg e
         | None => WebError msg
         end).

Definition terminal : list string := ["success"; "error"; "diverged"; "deleted"].

(** [status in ("success", "error", "diverged", "deleted")]. *)
Definition is_terminal (st : pyval) : bool :=
  match st with
  | PStr s => bool_decide (s ∈ terminal)
  | _ => false
  end.

(** ** Reading a trace *)

(** The events a computation added to the trace. *)
Definition since (w w' : World) : list Event :=
  drop (length (trace w)) (trace w').

Definition on_call (f : ∀ T, Call T → bool) (e : Event) : bool :=
  match e with Ev c _ => f _ c end.

(** The calls that go over the network: registry, transport, artifact
    store. *)
Definition is_remote {T} (c : Call T) : bool :=
  match c with
  | FolderGet _ _ | HttpGet _ | HttpPost _ _ | HttpPut _ _ | HttpDelete _
  | UploadFile _ _ _ _ _ | DownloadFile _ _ _ _ _ | DownloadGzFile _ _ _ _ _ => true
  | _ => false
  end.

Definition is_HttpPost {T} (c : Call T) : bool :=
  match c with HttpPost _ _ => true | _ => false end.

Definition is_Sleep {T} (c : Call T) : bool :=
  match c with Sleep _ => true | _ => false end.

(** A download of an artifact: compressed or not, of which resource, under
    which remote name, to which file, and how it ended. *)
Inductive download :=
  | Download (compressed : bool) (resource_id : pyval) (remote_filename : string)
      (to_file : path) (outcome : Result path).

Definition download_of (e : Event) : option download :=
  match e with
  | @Ev T c r =>
      match c in Call T return Result T → option download with
      | DownloadFile rid rf tf _ _ => λ r, Some (Download false rid rf tf r)
      | DownloadGzFile rid rf tf _ _ => λ r, Some (Download true rid rf tf r)
      | _ => λ _, None
      end r
  end.

Definition downloads (t : list Event) : list download := omap download_of t.

(** The answers to the [GET] requests. *)
Definition poll_of (e : Event) : option (Result (gmap string pyval)) :=
  match e with
  | @Ev T c r =>
      match c in Call T return Result T → option (Result (gmap string pyval)) with
      | HttpGet _ => λ r, Some r
      | _ => λ _, None
      end r
  end.

Definition polls (t : list Event) : list (Result (gmap string pyval)) :=
  omap poll_of t.

(** The Task Records built. *)
Definition built_of (e : Event) : option ModeSolverTask :=
  match e with
  | @Ev T c r =>
      match c in Call T return Result T → option ModeSolverTask with
      | Construct _ => λ r, match r with Ok t => Some t | Raise _ => None end
      | _ => λ _, None
      end r
  end.

Definition built (t : list Event) : list ModeSolverTask := omap built_of t.

(** The lines written with [log.log], and those written on the console. *)
Definition log_line_of (e : Event) : option (string * fstr) :=
  match e with
  | Ev (LogLog level msg) _ => Some (level, msg)
  | _ => None
  end.

Definition log_lines (t : list Event) : list (string * fstr) := omap log_line_of t.

Definition console_line_of (e : Event) : option fstr :=
  match e with
  | Ev (ConsoleLog msg) _ => Some msg
  | _ => None
  end.

Definition console_lines (t : list Event) : list fstr := omap console_line_of t.

(** The messages written with [log.error]. *)
Definition error_line_of (e : Event) : option string :=
  match e with
  | Ev (LogError msg) _ => Some msg
  | _ => None
  end.

Definition error_lines (t : list Event) : list string := omap error_line_of t.

(** The temporary files made. *)
Definition mkstemp_of (e : Event) : option path :=
  match e with
  | @Ev T c r =>
      match c in Call T return Result T → option path with
      | Mkstemp _ => λ r, match r with Ok p => Some p | Raise _ => None end
      | _ => λ _, None
      end r
  end.

Definition made_tmp (t : list Event) : list path := omap mkstemp_of t.

Definition on_disk (p : path) (w : World) : Prop :=
  match p with
  | TmpPath n _ => n ∈ tmpfiles w
  | UserPath _ => False
  end.

Inductive reduce_mode := Auto | Force (b : bool).

Section Mode.

(** The collaborators. *)
Variable env : Env.

(** pydantic's validators of the annotations ([str], [float],
    [Optional[datetime]], [ModeSolver]); [None] is a validation error. *)
Variable validate : ftype → pyval → option pyval.

(** [tidy3d.version.__version__]. *)
Variable version : string.

(** [Env.current.enable_caching]. *)
Variable enable_caching : pyval.

(** [tidy3d.plugins.mode.mode_solver.MODE_MONITOR_NAME]. *)
Variable MODE_MONITOR_NAME : string.

(** A call on a collaborator. *)
Definition call {T} (c : Call T) : M T :=
  λ w, let r := env T (trace w) c in (r, log_event c r w).

(** *** Construction of a Task Record *)

(** Validation of one field: every declared field has [None] as default or
    an [Optional] annotation, so [None] passes as it is. *)
Definition validate_field (ty : ftype) (v : pyval) : option pyval :=
  match v with
  | PNone => Some PNone
  | _ => validate ty v
  end.

(** The value a field gets from the input under its alias: validated, or
    the default [None] when the alias is absent. *)
Definition field_input (ty : ftype) (alias : string)
    (kw : gmap string pyval) : option pyval :=
  match kw !! alias with
  | Some x => validate_field ty x
  | None => Some PNone
  end.

(** A key that is the name of a field populated under another alias is
    outside the schema; [Extra.allow] stores it as the attribute of that
    name, over the validated value. *)
Definition with_extra (name alias : string) (kw : gmap string pyval)
    (v : pyval) : pyval :=
  if bool_decide (name = alias) then v else default v (kw !! name).

Definition aliases : list string := declared.*1.*2.

(** The keys of the input that no field consumed. *)
Definition extra_keys (kw : gmap string pyval) : gmap string pyval :=
  filter (λ kv, kv.1 ∉ aliases) kw.

(** pydantic's model construction under a given [extra] policy; [None] is a
    validation error. *)
Definition construct_with (policy : Extra) (kw : gmap string pyval)
    : option ModeSolverTask :=
  t ← field_input TStr "refId" kw;
  s ← field_input TStr "id" kw;
  r ← field_input TFloat "charge" kw;
  c ← field_input TOptDatetime "createdAt" kw;
  st ← field_input TStr "status" kw;
  ft ← field_input TStr "fileType" kw;
  ms ← field_input TModeSolver "mode_solver" kw;
  match policy with
  | Extra_allow =>
      Some (mkModeSolverTask
              (with_extra "task_id" "refId" kw t)
              (with_extra "solver_id" "id" kw s)
              (with_extra "real_flex_unit" "charge" kw r)
              (with_extra "created_at" "createdAt" kw c)
              (with_extra "status" "status" kw st)
              (with_extra "file_type" "fileType" kw ft)
              (with_extra "mode_solver" "mode_solver" kw ms)
              (filter (λ kv, kv.1 ∉ declared_keys) kw))
  | Extra_ignore => Some (mkModeSolverTask t s r c st ft ms ∅)
  | Extra_forbid =>
      if bool_decide (extra_keys kw = ∅)
      then Some (mkModeSolverTask t s r c st ft ms ∅)
      else None
  end.

(** [ModeSolverTask] called with the keywords [kw]: the class is declared
    with [Extra.allow]. *)
Definition construct (kw : gmap string pyval) : M ModeSolverTask :=
  λ w, let r := match construct_with Extra_allow kw with
                | Some t => Ok t
                | None => Raise ValidationError
                end in
       (r, log_event (Construct kw) r w).

(** [ModeSolverTask] called with the keywords of [resp] and
    [mode_solver=ms]: a keyword given twice is a [TypeError]. *)
Definition construct_from (resp : gmap string pyval) (ms : pyval) : M ModeSolverTask :=
  match resp !! "mode_solver" with
  | Some _ => raise TypeError
  | None => construct (<["mode_solver" := ms]> resp)
  end.

(** [f"{MODESOLVER_API}/{self.task_id}/{self.solver_id}"]. *)
Definition task_url (self : ModeSolverTask) : fstr :=
  [Lit MODESOLVER_API; Lit "/"; Val (task_id self); Lit "/"; Val (solver_id self)].

(** *** [ModeSolverTask.get_info] *)
Definition get_info (self : ModeSolverTask) : M ModeSolverTask :=
  resp ← call (HttpGet (task_url self));
  construct_from resp (mode_solver self).

(** *** [ModeSolverTask.abort] *)
Definition abort (self : ModeSolverTask) : M (gmap string pyval) :=
  call (HttpPut [Lit "tidy3d/tasks/abort"]
          [("taskType", PStr "MODE_SOLVER"); ("taskId", solver_id self)]).

(** *** [ModeSolverTask.create] *)
Definition create (mode_solver : obj) (task_name mode_solver_name folder_name : string)
    : M ModeSolverTask :=
  folder_id ← call (FolderGet folder_name true);
  call (ValidatePreUpload mode_solver);;
  call (SimValidatePreUpload mode_solver false);;
  resp ← call (HttpPost [Lit MODESOLVER_API]
                 [("projectId", folder_id);
                  ("taskName", PStr task_name);
                  ("protocolVersion", PStr version);
                  ("modeSolverName", PStr mode_solver_name);
                  ("fileType", PStr "Gz");
                  ("source", PStr "Python")]);
  ref_id ← getitem resp "refId";
  id ← getitem resp "id";
  emit (LogInfo [Lit "Mode solver created with task_id='"; Val ref_id;
                 Lit "', solver_id='"; Val id; Lit "'."]);;
  construct_from resp (PObj mode_solver).

(** *** [ModeSolverTask.upload] *)
Definition upload (self : ModeSolverTask) (verbose : bool)
    (progress_callback : option nat) : M unit :=
  ms ← as_obj (mode_solver self);
  mode_solver ← call (Copy ms);
  (* Upload simulation.hdf5.gz for GUI display *)
  file_name ← mkstemp ".hdf5.gz";
  try_finally
    (call (SimToHdf5Gz mode_solver file_name);;
     call (UploadFile (task_id self) file_name SIM_FILE_HDF5_GZ
             verbose progress_callback))
    (unlink file_name);;
  (* Upload a single HDF5 file with the full data *)
  file_name ← mkstemp ".hdf5.gz";
  try_finally
    (call (ToHdf5Gz mode_solver file_name);;
     call (UploadFile (solver_id self) file_name MODESOLVER_GZ
             verbose progress_callback))
    (unlink file_name).

(** *** [ModeSolverTask.submit] *)
Definition submit (self : ModeSolverTask) : M unit :=
  call (HttpPost (task_url self ++ [Lit "/run"])
          [("enableCaching", enable_caching)]);;
  mret tt.

(** *** [ModeSolverTask.delete] *)
Definition delete (self : ModeSolverTask) : M unit :=
  (* Delete mode solver *)
  call (HttpDelete (task_url self));;
  (* Delete parent task *)
  call (HttpDelete [Lit "tidy3d/tasks/"; Val (task_id self)]);;
  mret tt.

(** *** [ModeSolverTask.get_modesolver] *)
Definition get_modesolver (self : ModeSolverTask) (to_file sim_file : string)
    (verbose : bool) (progress_callback : option nat) : M obj :=
  mode_solver ←
    (if py_eq (file_type self) (PStr "Gz") then
       file_path ← mkstemp ".hdf5.gz";
       try_finally
         (call (DownloadFile (solver_id self) MODESOLVER_GZ file_path
                  verbose progress_callback);;
          call (FromHdf5Gz file_path))
         (unlink file_path)
     else if py_eq (file_type self) (PStr "Hdf5") then
       file_path ← mkstemp ".hdf5";
       try_finally
         (call (DownloadFile (solver_id self) MODESOLVER_HDF5 file_path
                  verbose progress_callback);;
          call (FromHdf5 file_path))
         (unlink file_path)
     else
       file_path ← mkstemp ".json";
       mode_solver_dict ←
         try_finally
           (call (DownloadFile (solver_id self) MODESOLVER_JSON file_path
                    verbose progress_callback);;
            call (DictFromJson file_path))
           (unlink file_path);
       call (DownloadFile (task_id self) SIMULATION_JSON (UserPath sim_file)
               verbose progress_callback);;
       simulation ← call (SimulationFromJson (UserPath sim_file));
       call (ParseObj (<["simulation" := PObj simulation]> mode_solver_dict)));
  (* Store requested mode solver file *)
  call (ToFile mode_solver (UserPath to_file));;
  mret mode_solver.

(** *** [ModeSolverTask.get] *)
Definition get (task_id' solver_id' : pyval) (to_file sim_file : string)
    (verbose : bool) (progress_callback : option nat) : M ModeSolverTask :=
  resp ← call (HttpGet [Lit MODESOLVER_API; Lit "/"; Val task_id'; Lit "/"; Val solver_id']);
  task ← construct resp;
  mode_solver ← get_modesolver task to_file sim_file verbose progress_callback;
  (* task.copy(update={"mode_solver": mode_solver}) *)
  mret (mkModeSolverTask (task_id task) (solver_id task)
          (real_flex_unit task) (created_at task) (status task) (file_type task)
          (PObj mode_solver) (extra task)).

(** *** [ModeSolverTask.get_result] *)
Definition get_result (self : ModeSolverTask) (to_file : string) (verbose : bool)
    (progress_callback : option nat) : M obj :=
  file ←
    try_except
      (p ← call (DownloadGzFile (solver_id self) MODESOLVER_RESULT_GZ
                   (UserPath to_file) verbose progress_callback);
       mret (Some p))
      is_ClientError
      (λ _, when verbose
              (emit (ConsoleLog [Lit "Unable to download '";
                                 Lit MODESOLVER_RESULT_GZ; Lit "'."]));;
            mret None);
  (* a [pathlib.Path] is true, whatever its text: [not file] is
     [file is None] *)
  match file with
  | None =>
      try_except
        (call (DownloadFile (solver_id self) MODESOLVER_RESULT
                 (UserPath to_file) verbose progress_callback);;
         mret tt)
        (λ _, true)
        (λ e, raise_WebError
                ("Failed to download the simulation data file from the server. "
                 +:+ "Please confirm that the task was successfully run.") (Some e))
  | Some _ => mret tt
  end;;
  data ← call (DataFromHdf5 (UserPath to_file));
  ms ← as_obj (mode_solver self);
  monitor ← call (ToModeSolverMonitor ms MODE_MONITOR_NAME);
  data ← call (DataCopy data [("monitor", PObj monitor)]);
  ms ← as_obj (mode_solver self);
  cache_set ms "data_raw" (PObj data);;
  (* Perform symmetry expansion *)
  ms ← as_obj (mode_solver self);
  call (DataOf ms).

(** *** [ModeSolverTask.get_log] *)
Definition get_log (self : ModeSolverTask) (to_file : string) (verbose : bool)
    (progress_callback : option nat) : M path :=
  call (DownloadFile (solver_id self) MODESOLVER_LOG (UserPath to_file)
          verbose progress_callback).

(** *** [run] *)

(** The loop of [run] that waits for the task to finish; [fuel] bounds the
    number of iterations, [status'] is the local variable [status]. *)
Fixpoint run_wait (fuel : nat) (log_level : string) (verbose : bool)
    (task : ModeSolverTask) (prev_status status' : pyval) : P pyval :=
  if is_terminal status' then mret status'
  else
    match fuel with
    | O => Running
    | S fuel =>
        prev_status ←
          lift (if negb (py_eq status' prev_status) then
                  emit (LogLog log_level [Lit "Mode solver status: "; Val status']);;
                  when verbose
                    (emit (ConsoleLog [Lit "Mode solver status: "; Val status']));;
                  mret status'
                else mret prev_status);
        lift (emit (Sleep (1 # 2)%Q));;
        info ← lift (get_info task);
        run_wait fuel log_level verbose task prev_status (status info)
    end.

(** [run], up to the loop: the payload is reduced if asked for, the task is
    created, uploaded and submitted. *)
Definition run_submit (mode_solver : obj)
    (task_name mode_solver_name folder_name : string)
    (verbose : bool) (progress_callback_upload : option nat)
    (reduce_simulation : reduce_mode) : M ModeSolverTask :=
  reduce_simulation ←
    match reduce_simulation with
    | Auto =>
        sim_mediums ← call (SceneMediums mode_solver);
        let contains_custom := existsb id sim_mediums in
        when contains_custom
          (emit (LogWarning
             [Lit ("The associated 'Simulation' object contains custom mediums. It will be "
                +:+ "automatically restricted to the mode solver plane to reduce data for uploading. "
                +:+ "To force uploading the original 'Simulation' object use 'reduce_simulation=False'."
                +:+ " Setting 'reduce_simulation=True' will force simulation reduction in all cases and"
                +:+ " silence this warning.")]));;
        mret contains_custom
    | Force b => mret b
    end;
  mode_solver ←
    (if reduce_simulation : bool
     then call (ReducedSimulationCopy mode_solver)
     else mret mode_solver);
  task ← create mode_solver task_name mode_solver_name folder_name;
  when verbose
    (emit (ConsoleLog [Lit "Mode solver created with task_id='"; Val (task_id task);
                       Lit "', solver_id='"; Val (solver_id task); Lit "'."]));;
  upload task verbose progress_callback_upload;;
  submit task;;
  mret task.

(** [run]: [run_submit], the loop, and what follows it. *)
Definition run (fuel : nat) (mode_solver : obj)
    (task_name mode_solver_name folder_name results_file : string)
    (verbose : bool) (progress_callback_upload progress_callback_download : option nat)
    (reduce_simulation : reduce_mode) : P pyval :=
  let log_level := if verbose then "DEBUG" else "INFO" in
  task ← lift (run_submit mode_solver task_name mode_solver_name folder_name
                 verbose progress_callback_upload reduce_simulation);
  (* Wait for task to finish *)
  status ← run_wait fuel log_level verbose task (PStr "draft") task.(status);
  if py_eq status (PStr "error") then
    lift (raise_WebError "Error running mode solver." None)
  else
    lift (emit (LogLog log_level [Lit "Mode solver status: "; Val status]));;
    lift (when verbose (emit (ConsoleLog [Lit "Mode solver status: "; Val status])));;
    if negb (py_eq status (PStr "success")) then
      (* Our cache discards None, so the user is able to re-run *)
      mret PNone
    else
      data ← lift (get_result task results_file verbose progress_callback_download);
      mret (PObj data).

End Mode.

(** ** Invariants of a computation *)

(** Every run of [m] takes a world to one related to it by [R]. *)
Definition steps (R : relation World) {A} (m : M A) : Prop :=
  ∀ w r w', m w = (r, w') → R w w'.

(** The trace grows by events that satisfy [Q], and no payload has its
    [_cached_properties] written. *)
Definition quiet (Q : Event → Prop) : relation World :=
  λ w w', (∃ t, trace w' = trace w ++ t ∧ Forall Q t) ∧ cached w' = cached w.

(** The temporary files on disk are the same as before, and none of those
    made in between is among them. *)
Definition scoped : relation World :=
  λ w w', tmpfiles w' = tmpfiles w
          ∧ ∃ t, trace w' = trace w ++ t
                 ∧ Forall (λ p, ¬ on_disk p w') (made_tmp t).

(** The statuses at which the status changes: those of [l] that differ
    from the one before, [prev] being before the first. *)
Fixpoint changes (prev : pyval) (l : list pyval) : list pyval :=
  match l with
  | [] => []
  | s :: l => if py_eq s prev then changes prev l else s :: changes s l
  end.

(** [f"Mode solver status: {status}"]. *)
Definition status_msg (st : pyval) : fstr := [Lit "Mode solver status: "; Val st].

Definition is_error (st : pyval) : bool := py_eq st (PStr "error").

(** The status lines among the lines of the console. *)
Definition status_of_msg (msg : fstr) : option pyval :=
  match msg with
  | [Lit "Mode solver status: "; Val st] => Some st
  | _ => None
  end.

(** The status a line of the log tells: a status line tells the status in
    it, the message of the [WebError] that [run] raises after the loop tells
    the status ["error"]; any other line tells none. *)
Definition told_by (e : Event) : option pyval :=
  match e with
  | Ev (LogLog _ msg) _ => status_of_msg msg
  | Ev (LogError msg) _ =>
      if bool_decide (msg = "Error running mode solver.")
      then Some (PStr "error") else None
  | _ => None
  end.

(** ** The loop of [run], seen from the trace *)

Definition nonterminal (st : pyval) : Prop := is_terminal st = false.

(** What one iteration writes before it sleeps, at status [st], the
    previous status being [prev_status]. *)
Definition announce (log_level : string) (verbose : bool)
    (prev_status st : pyval) : list Event :=
  if negb (py_eq st prev_status) then
    Ev (LogLog log_level (status_msg st)) (Ok tt)
    :: (if verbose then [Ev (ConsoleLog (status_msg st)) (Ok tt)] else [])
  else [].

(** No request and no sleep follow the observation of a terminal status:
    not the status [st] the task had to begin with, and not the status of a
    record built later. *)
Definition stops_at_terminal (st : pyval) (t : list Event) : Prop :=
  (is_terminal st = true →
   polls t = [] ∧ filter (on_call (@is_Sleep)) t = [])
  ∧ ∀ t1 e t2 info,
      t = t1 ++ e :: t2 → built_of e = Some info →
      is_terminal (status info) = true →
      polls t2 = [] ∧ filter (on_call (@is_Sleep)) t2 = [].

(** What the loop leaves behind, started at status [st] with [prev] as
    previous status; [r] is its result, or [None] while it is running.  The
    statuses announced are those that differ from the one before, among the
    statuses that are not terminal; while the loop is running, the last
    status observed has not been looked at yet. *)
Definition wait_post (log_level : string) (verbose : bool) (prev st : pyval)
    (w w' : World) (r : option (Result pyval)) : Prop :=
  ∃ t, trace w' = trace w ++ t
       ∧ tmpfiles w' = tmpfiles w ∧ cached w' = cached w
       ∧ downloads t = []
       ∧ stops_at_terminal st t
       ∧ let observed := st :: map status (built t) in
         let announced :=
           changes prev
             match r with
             | Some _ => filter nonterminal observed
             | None => removelast observed
             end in
         log_lines t = map (λ s, (log_level, status_msg s)) announced
         ∧ console_lines t = (if verbose then map status_msg announced else [])
         ∧ length (filter (on_call (@is_Sleep)) t) = length (polls t)
         ∧ match r with
           | Some (Ok s) =>
               (∃ sts, observed = sts ++ [s] ∧ Forall nonterminal sts)
               ∧ is_terminal s = true
               ∧ length (polls t) = length (built t)
           | Some (Raise _) =>
               Forall nonterminal observed
               ∧ length (polls t) = S (length (built t))
           | None =>
               Forall nonterminal observed
               ∧ length (polls t) = length (built t)
           end.

(** The trace only grows. *)
Definition grows : relation World := λ w w', ∃ t, trace w' = trace w ++ t.

Definition no_download (e : Event) : Prop := download_of e = None.

(** The exceptions the two validations of [create] raised. *)
Definition validation_error_of (e : Event) : option exn :=
  match e with
  | Ev (ValidatePreUpload _) (Raise x) => Some x
  | Ev (SimValidatePreUpload _ _) (Raise x) => Some x
  | _ => None
  end.

Definition validation_errors (t : list Event) : list exn :=
  omap validation_error_of t.

(** ** A scripted server *)

(** Concrete collaborators, to run the functions on: the payload passes
    validation or not, the compressed result is there or not, and the task
    goes through the given statuses, one per [GET]; past the end of the
    script the connection fails. *)
Module Scenario.

Definition created : gmap string pyval :=
  {[ "refId" := PStr "t1"; "id" := PStr "s1"; "status" := PStr "draft";
     "fileType" := PStr "Gz" ]}.

Definition info (st : string) : gmap string pyval :=
  <["status" := PStr st]> created.

Definition server (valid compressed : bool) (statuses : list string) : Env :=
  λ T h c,
  match c in Call T return Result T with
  | SceneMediums _ => Ok []
  | ReducedSimulationCopy ms => Ok (S ms)
  | ValidatePreUpload _ => if valid then Ok tt else Raise (OtherError "SetupError")
  | SimValidatePreUpload _ _ => Ok tt
  | Copy ms => Ok (S ms)
  | ToHdf5Gz _ _ => Ok tt
  | SimToHdf5Gz _ _ => Ok tt
  | FromHdf5Gz _ => Ok 40
  | FromHdf5 _ => Ok 41
  | DictFromJson _ => Ok {[ "plane" := PInt 3 ]}
  | SimulationFromJson _ => Ok 42
  | ParseObj _ => Ok 43
  | ToFile _ _ => Ok tt
  | ToModeSolverMonitor _ _ => Ok 50
  | DataFromHdf5 _ => Ok 51
  | DataCopy _ _ => Ok 52
  | DataOf _ => Ok 53
  | FolderGet _ _ => Ok (PStr "folder-1")
  | HttpGet _ =>
      match statuses !! length (polls h) with
      | Some st => Ok (info st)
      | None => Raise (OtherError "ConnectionError")
      end
  | HttpPost _ _ => Ok created
  | HttpPut _ _ => Ok ∅
  | HttpDelete _ => Ok ∅
  | UploadFile _ _ _ _ _ => Ok tt
  | DownloadFile _ _ f _ _ => Ok f
  | DownloadGzFile _ _ f _ _ =>
      if compressed then Ok f else Raise (ClientError "NoSuchKey")
  | Mkstemp _ => Raise (OtherError "unused")
  | Unlink _ => Ok tt
  | Sleep _ => Ok tt
  | LogLog _ _ => Ok tt
  | LogInfo _ => Ok tt
  | LogWarning _ => Ok tt
  | LogError _ => Ok tt
  | ConsoleLog _ => Ok tt
  | Construct _ => Raise (OtherError "unused")
  | CacheSet _ _ _ => Ok tt
  end.

(** Validators that take a string for [str], a number for [float] and an
    object for the payload, as they are. *)
Definition accept (ty : ftype) (v : pyval) : option pyval :=
  match ty, v with
  | TStr, PStr _ | TStr, PInt _ | TFloat, PInt _ | TModeSolver, PObj _ => Some v
  | _, _ => None
  end.

Definition w0 : World := mkWorld [] ∅ ∅.

(** A record as [create] returns it, holding the payload [7]. *)
Definition task7 : ModeSolverTask :=
  mkModeSolverTask (PStr "t1") (PStr "s1") PNone PNone (PStr "draft")
    (PStr "Gz") (PObj 7) ∅.

(** [run] on the payload [7], silent, with 10 iterations allowed, on a
    server without compressed result: up to the loop, the loop, and the
    whole of it. *)
Definition start (statuses : list string) : Result ModeSolverTask * World :=
  run_submit (server true false statuses) accept "2.6.0" (PBool true) 7
    "Untitled" "mode_solver" "Mode Solver" false None Auto w0.

Definition wait (statuses : list string) : Outcome pyval :=
  run_wait (server true false statuses) accept 10 "INFO" false task7
    (PStr "draft") (PStr "draft") (start statuses).2.

Definition whole (statuses : list string) : Outcome pyval :=
  run (server true false statuses) accept "2.6.0" (PBool true)
    "mode_solver_data" 10 7 "Untitled" "mode_solver" "Mode Solver"
    "mode_solver.hdf5" false None None Auto w0.

(** [create] on a payload that fails validation. *)
Definition created_invalid : Result ModeSolverTask * World :=
  create (server false true []) accept "2.6.0" 7 "Untitled" "mode_solver"
    "Mode Solver" w0.

(** A task that is seen running five times in a row. *)
Definition five_running : list string :=
  ["queued"; "running"; "running"; "running"; "running"; "running"; "success"].

End Scenario.

(** ** More to read in a trace *)

(** The requests posted: where, with which body, and the answer. *)
Definition post_of (e : Event)
    : option (fstr * list (string * pyval) * Result (gmap string pyval)) :=
  match e with
  | @Ev T c r =>
      match c in Call T
            return Result T
                   → option (fstr * list (string * pyval) * Result (gmap string pyval))
      with
      | HttpPost url body => λ r, Some (url, body, r)
      | _ => λ _, None
      end r
  end.

Definition posts (t : list Event)
    : list (fstr * list (string * pyval) * Result (gmap string pyval)) :=
  omap post_of t.

(** The files put into the artifact store: for which resource, from which
    local file, under which remote name, and how it ended. *)
Inductive upload_record :=
  | Upload (resource_id : pyval) (file : path) (remote_filename : string)
      (outcome : Result unit).

Definition upload_of (e : Event) : option upload_record :=
  match e with
  | @Ev T c r =>
      match c in Call T return Result T → option upload_record with
      | UploadFile rid f rf _ _ => λ r, Some (Upload rid f rf r)
      | _ => λ _, None
      end r
  end.

Definition uploads (t : list Event) : list upload_record := omap upload_of t.

(** The resource a download was asked for. *)
Definition download_resource (d : download) : pyval :=
  match d with Download _ rid _ _ _ => rid end.

Definition download_failed (d : download) : bool :=
  match d with Download _ _ _ _ (Raise _) => true | _ => false end.

Definition download_compressed (d : download) : bool :=
  match d with Download compressed _ _ _ _ => compressed end.

(** The errors that the spec calls of the "object not found" class: a
    [ClientError] of the store whose code says that the object is not
    there.  [get_result] itself never looks at the code of the error, it
    catches the class [ClientError]; this definition follows the words of
    the spec, to state what it asks for. *)
Definition is_not_found (e : exn) : bool :=
  match e with
  | ClientError code => bool_decide (code ∈ ["404"; "NoSuchKey"; "NotFound"])
  | _ => false
  end.

(** The fallback as the spec words it, read off what one call of
    [get_result] did: the uncompressed result is asked for only after a
    first attempt that failed with an error of the "object not found"
    class. *)
Definition fallback_only_when_not_found (t : list Event) : Prop :=
  ∀ d, d ∈ downloads t → download_compressed d = false →
    ∃ rid name file e,
      head (downloads t) = Some (Download true rid name file (Raise e))
      ∧ is_not_found e = true.

(** Whether a transfer to or from the store was asked to show its
    progress. *)
Definition verbose_of (e : Event) : option bool :=
  match e with
  | Ev (UploadFile _ _ _ verbose _) _
  | Ev (DownloadFile _ _ _ verbose _) _
  | Ev (DownloadGzFile _ _ _ verbose _) _ => Some verbose
  | _ => None
  end.

(** What [verbose=False] takes away: the event is no call of
    [console.log], no transfer asked to show its progress, and no line
    written with [log.log] at another level than ["INFO"].  The lines given
    to the logger ([log.log], [log.info], [log.warning], [log.error]) are
    events like the others: whether the logger shows them is not decided by
    [verbose]. *)
Definition not_verbose (e : Event) : Prop :=
  console_line_of e = None ∧ verbose_of e ≠ Some true
  ∧ ∀ level msg, log_line_of e = Some (level, msg) → level = "INFO".

(** Where the [GET] requests went. *)
Definition get_url_of (e : Event) : option fstr :=
  match e with
  | Ev (HttpGet url) _ => Some url
  | _ => None
  end.

(** How long the sleeps were. *)
Definition sleep_of (e : Event) : option Q :=
  match e with
  | Ev (Sleep seconds) _ => Some seconds
  | _ => None
  end.

(** The lines written with [log.info] and with [log.warning]. *)
Definition info_of (e : Event) : option fstr :=
  match e with
  | Ev (LogInfo msg) _ => Some msg
  | _ => None
  end.

Definition warning_of (e : Event) : option fstr :=
  match e with
  | Ev (LogWarning msg) _ => Some msg
  | _ => None
  end.

(** The payloads whose mediums were looked at (and which of them are
    custom), those a reduced copy was asked of (and the answer), those
    validated. *)
Definition mediums_of (e : Event) : option (obj * Result (list bool)) :=
  match e with
  | @Ev T c r =>
      match c in Call T return Result T → option (obj * Result (list bool)) with
      | SceneMediums ms => λ r, Some (ms, r)
      | _ => λ _, None
      end r
  end.

Definition reduction_of (e : Event) : option (obj * Result obj) :=
  match e with
  | @Ev T c r =>
      match c in Call T return Result T → option (obj * Result obj) with
      | ReducedSimulationCopy ms => λ r, Some (ms, r)
      | _ => λ _, None
      end r
  end.

Definition validated_of (e : Event) : option obj :=
  match e with
  | Ev (ValidatePreUpload ms) _ => Some ms
  | _ => None
  end.

(** The writes to [_cached_properties]. *)
Definition cache_write_of (e : Event) : option (obj * string * pyval) :=
  match e with
  | Ev (CacheSet ms key v) _ => Some (ms, key, v)
  | _ => None
  end.

(** The requests that take something away on the server: [PUT] (the
    module's only one is the abort) and [DELETE]. *)
Definition is_abort_or_delete {T} (c : Call T) : bool :=
  match c with
  | HttpPut _ _ | HttpDelete _ => true
  | _ => false
  end.

(** The calls of [get_modesolver] that read a payload back from the
    store. *)
Definition is_read_back {T} (c : Call T) : bool :=
  match c with
  | FromHdf5Gz _ | FromHdf5 _ | DictFromJson _ | SimulationFromJson _
  | ParseObj _ | ToFile _ _ => true
  | _ => false
  end.

(** The trace grows by events that satisfy [Q]. *)
Definition emits (Q : Event → Prop) : relation World :=
  λ w w', ∃ t, trace w' = trace w ++ t ∧ Forall Q t.

(** The record [task.copy(update={"mode_solver": ms})]. *)
Definition with_mode_solver (task : ModeSolverTask) (ms : pyval) : ModeSolverTask :=
  mkModeSolverTask (task_id task) (solver_id task) (real_flex_unit task)
    (created_at task) (status task) (file_type task) ms (extra task).

(** ** Scripted collaborators, changed in one place *)
Module Script.

(** [base], but every [POST] is answered with [reply]. *)
Definition answering_post (reply : Result (gmap string pyval)) (base : Env) : Env :=
  λ T h c,
  match c in Call T return Result T → Result T with
  | HttpPost _ _ => λ _, reply
  | _ => λ r, r
  end (base T h c).

(** [base], but every [GET] is answered with [reply]. *)
Definition answering_get (reply : Result (gmap string pyval)) (base : Env) : Env :=
  λ T h c,
  match c in Call T return Result T → Result T with
  | HttpGet _ => λ _, reply
  | _ => λ r, r
  end (base T h c).

(** [base], but the store refuses the uploads under the remote name
    [name]. *)
Definition refusing_upload (name : string) (base : Env) : Env :=
  λ T h c,
  match c in Call T return Result T → Result T with
  | UploadFile _ _ rf _ _ =>
      λ r, if bool_decide (rf = name) then Raise (OtherError "UploadError") else r
  | _ => λ r, r
  end (base T h c).

(** [base], but the payload has a custom medium. *)
Definition with_custom_medium (base : Env) : Env :=
  λ T h c,
  match c in Call T return Result T → Result T with
  | SceneMediums _ => λ _, Ok [false; true]
  | _ => λ r, r
  end (base T h c).

(** [base], but the first [DELETE] fails. *)
Definition failing_delete (base : Env) : Env :=
  λ T h c,
  match c in Call T return Result T → Result T with
  | HttpDelete _ => λ _, Raise (OtherError "ConnectionError")
  | _ => λ r, r
  end (base T h c).

(** [base], but the store denies access to the compressed result: a
    [ClientError] that does not say that the object is missing. *)
Definition denying_compressed (base : Env) : Env :=
  λ T h c,
  match c in Call T return Result T → Result T with
  | DownloadGzFile _ _ _ _ _ => λ _, Raise (ClientError "AccessDenied")
  | _ => λ r, r
  end (base T h c).

(** A record built from a bare response: it holds no payload. *)
Definition bare : ModeSolverTask :=
  mkModeSolverTask (PStr "t1") (PStr "s1") PNone PNone (PStr "success")
    (PStr "Gz") PNone ∅.

End Script.

(** ** The calls of [run], phase by phase *)

(** Before the loop: the reduction, [create], [upload], [submit]. *)
Definition submit_event (e : Event) : Prop :=
  match e with
  | Ev (SceneMediums _) _ | Ev (LogWarning _) _ | Ev (ReducedSimulationCopy _) _
  | Ev (FolderGet _ _) _ | Ev (ValidatePreUpload _) _
  | Ev (SimValidatePreUpload _ _) _ | Ev (HttpPost _ _) _ | Ev (LogInfo _) _
  | Ev (Construct _) _ | Ev (ConsoleLog _) _ | Ev (Copy _) _ | Ev (Mkstemp _) _
  | Ev (SimToHdf5Gz _ _) _ | Ev (ToHdf5Gz _ _) _ | Ev (UploadFile _ _ _ _ _) _
  | Ev (Unlink _) _ => True
  | _ => False
  end.

(** In the loop, and right after it: status lines, sleeps of half a
    second, requests for the record [task], records built, the message of
    the [WebError]. *)
Definition wait_event (task : ModeSolverTask) (e : Event) : Prop :=
  match e with
  | Ev (LogLog _ _) _ | Ev (ConsoleLog _) _ | Ev (Construct _) _
  | Ev (LogError _) _ => True
  | Ev (Sleep seconds) _ => seconds = (1 # 2)%Q
  | Ev (HttpGet url) _ => url = task_url task
  | _ => False
  end.

(** In [get_result]. *)
Definition result_event (e : Event) : Prop :=
  match e with
  | Ev (DownloadGzFile _ _ _ _ _) _ | Ev (DownloadFile _ _ _ _ _) _
  | Ev (ConsoleLog _) _ | Ev (LogError _) _ | Ev (DataFromHdf5 _) _
  | Ev (ToModeSolverMonitor _ _) _
  | Ev (DataCopy _ _) _ | Ev (CacheSet _ _ _) _ | Ev (DataOf _) _ => True
  | _ => False
  end.

(** What [run] leaves to the caller: it does not abort or delete the task,
    and it does not read the payload back from the store. *)
Definition left_alone (e : Event) : Prop :=
  on_call (@is_abort_or_delete) e = false ∧ on_call (@is_read_back) e = false.

(** A [GET] goes to the record [task], a sleep lasts half a second. *)
Definition polls_task (task : ModeSolverTask) (e : Event) : Prop :=
  match e with
  | Ev (HttpGet url) _ => url = task_url task
  | Ev (Sleep seconds) _ => seconds = (1 # 2)%Q
  | _ => True
  end.

(** The status line that [run] writes after the loop. *)
Definition final_lines (verbose : bool) (st : pyval) : list Event :=
  Ev (LogLog (if verbose then "DEBUG" else "INFO") (status_msg st)) (Ok tt)
  :: (if verbose then [Ev (ConsoleLog (status_msg st)) (Ok tt)] else []).

(** What went wrong at the last poll of the record [task], when the loop
    of [run] raises [e]: [t] is what the loop did, [reply] the answer to
    its last request. *)
Definition poll_failure (validate : ftype → pyval → option pyval)
    (task : ModeSolverTask) (e : exn) (t : list Event)
    (reply : Result (gmap string pyval)) : Prop :=
  match reply with
  | Raise e' =>
      e = e' ∧ last t = Some (Ev (HttpGet (task_url task)) (Raise e'))
  | Ok resp =>
      match resp !! "mode_solver" with
      | Some _ =>
          e = TypeError ∧ last t = Some (Ev (HttpGet (task_url task)) (Ok resp))
      | None =>
          e = ValidationError
          ∧ construct_with validate Extra_allow
              (<["mode_solver" := mode_solver task]> resp) = None
          ∧ last t = Some (Ev (Construct (<["mode_solver" := mode_solver task]> resp))
                             (Raise ValidationError))
      end
  end.

(** The server keeps answering the polls of the record [task] with a
    record whose status is not terminal. *)
Definition never_terminal (env : Env) (validate : ftype → pyval → option pyval)
    (task : ModeSolverTask) : Prop :=
  ∀ h, ∃ resp info,
    env _ h (HttpGet (task_url task)) = Ok resp
    ∧ resp !! "mode_solver" = None
    ∧ construct_with validate Extra_allow
        (<["mode_solver" := mode_solver task]> resp) = Some info
    ∧ is_terminal (status info) = false.

(** Once [run] has decided on the reduction, for the payload [ms]: the
    mediums are not looked at, no warning is written, no reduced copy is
    asked for, and the payload validated is [ms]. *)
Definition after_reduction (ms : obj) (e : Event) : Prop :=
  mediums_of e = None ∧ warning_of e = None ∧ reduction_of e = None
  ∧ ∀ x, validated_of e = Some x → x = ms.

(** A request other than the creation of the task was posted only as the
    last act, for the record built, after its two files went into the
    store; [r] is what [run] has in hand then. *)
Definition posted_after_uploads (enable_caching : pyval)
    (r : Result ModeSolverTask) (t : list Event) : Prop :=
  ∀ url body reply,
    (url, body, reply) ∈ posts t → url ≠ [Lit MODESOLVER_API] →
    ∃ task p1 p2,
      built t = [task]
      ∧ url = task_url task ++ [Lit "/run"]
      ∧ body = [("enableCaching", enable_caching)]
      ∧ uploads t = [Upload (task_id task) p1 SIM_FILE_HDF5_GZ (Ok tt);
                     Upload (solver_id task) p2 MODESOLVER_GZ (Ok tt)]
      ∧ last t = Some (Ev (HttpPost url body) reply)
      ∧ r = match reply with Ok _ => Ok task | Raise e => Raise e end.

(** The payloads written to a file with [to_file]. *)
Definition stored_of (e : Event) : option (obj * path) :=
  match e with
  | Ev (ToFile ms file) _ => Some (ms, file)
  | _ => None
  end.

(** The local file a download was written to. *)
Definition download_target (d : download) : path :=
  match d with Download _ _ _ file _ => file end.

(** ** More scripted runs *)
Module Runs.

(** The answer to the creation has no ["id"]. *)
Definition created_without_id : Result ModeSolverTask * World :=
  create (Script.answering_post (Ok {[ "refId" := PStr "t1" ]})
            (Scenario.server true true []))
    Scenario.accept "2.6.0" 7 "Untitled" "mode_solver" "Mode Solver" Scenario.w0.

(** The record ["t1"], ["s1"] fetched from a server where the task has
    ended. *)
Definition got : Result ModeSolverTask * World :=
  get (Scenario.server true true ["success"]) Scenario.accept (PStr "t1")
    (PStr "s1") "mode_solver.hdf5" "simulation.hdf5" false None Scenario.w0.

(** The record that the answer to that request gives. *)
Definition answered : ModeSolverTask :=
  mkModeSolverTask (PStr "t1") (PStr "s1") PNone PNone (PStr "success")
    (PStr "Gz") PNone ∅.

(** A server on which the task is running, whenever it is asked. *)
Definition forever : Env :=
  Script.answering_get (Ok (Scenario.info "running")) (Scenario.server true false []).

Definition start_forever : Result ModeSolverTask * World :=
  run_submit forever Scenario.accept "2.6.0" (PBool true) 7
    "Untitled" "mode_solver" "Mode Solver" false None Auto Scenario.w0.

(** [run] with three iterations allowed, on a task that needs seven
    polls. *)
Definition short_of_fuel : Outcome pyval :=
  run (Scenario.server true false Scenario.five_running) Scenario.accept
    "2.6.0" (PBool true) "mode_solver_data" 3 7 "Untitled" "mode_solver"
    "Mode Solver" "mode_solver.hdf5" false None None Auto Scenario.w0.

(** [run] on a payload with a custom medium: the reduced copy of the
    payload [7] is the payload [8]. *)
Definition reduced_run : Outcome pyval :=
  run (Script.with_custom_medium (Scenario.server true false Scenario.five_running))
    Scenario.accept "2.6.0" (PBool true) "mode_solver_data" 10 7 "Untitled"
    "mode_solver" "Mode Solver" "mode_solver.hdf5" false None None Auto
    Scenario.w0.

(** [get_result] on a store that has both results and denies access to the
    compressed one. *)
Definition denied : Result obj * World :=
  get_result (Script.denying_compressed (Scenario.server true true []))
    "mode_solver_data" Scenario.task7 "data.hdf5" false None Scenario.w0.

End Runs.

Module Failing.

(** [run] on a payload that fails validation. *)
Definition invalid_run : Outcome pyval :=
  run (Scenario.server false false ["success"]) Scenario.accept "2.6.0"
    (PBool true) "mode_solver_data" 10 7 "Untitled" "mode_solver" "Mode Solver"
    "mode_solver.hdf5" false None None Auto Scenario.w0.

Definition invalid_start : Result ModeSolverTask * World :=
  run_submit (Scenario.server false false ["success"]) Scenario.accept "2.6.0"
    (PBool true) 7 "Untitled" "mode_solver" "Mode Solver" false None Auto
    Scenario.w0.

End Failing.

(** * Properties *)

(** ** Traces *)

Lemma since_app (w w' : World) (t : list Event) :
  trace w' = trace w ++ t → since w w' = t.
Proof. unfold since. intros ->. apply drop_app_length. Qed.

Lemma since_refl (w : World) : since w w = [].
Proof. apply since_app. by rewrite app_nil_r. Qed.

Lemma since_log_event {T} (c : Call T) (r : Result T) (w : World) :
  since w (log_event c r w) = [Ev c r].
Proof. by apply since_app. Qed.

(** ** [abort] *)

Section Abort.
Variable env : Env.

(** C8. [abort] makes one request, a [PUT] on ["tidy3d/tasks/abort"], with
    [taskType] ["MODE_SOLVER"] and with the record's [solver_id] (not its
    [task_id]) as [taskId]; what the transport answers or raises is what
    [abort] returns or raises. *)
Theorem abort_one_put (self : ModeSolverTask) (w : World) :
  match abort env self w with
  | (r, w') =>
      since w w' =
        [Ev (HttpPut [Lit "tidy3d/tasks/abort"]
               [("taskType", PStr "MODE_SOLVER"); ("taskId", solver_id self)]) r]
      ∧ length (filter (on_call (@is_remote)) (since w w')) = 1
  end.
Proof. unfold abort, call. rewrite since_log_event. by split. Qed.

End Abort.

(** ** Construction of a Task Record *)

Section Construct.
Variable validate : ftype → pyval → option pyval.

Lemma field_input_insert_ne ty alias k v (kw : gmap string pyval) :
  alias ≠ k →
  field_input validate ty alias (<[k:=v]> kw) = field_input validate ty alias kw.
Proof. intros. unfold field_input. by rewrite lookup_insert_ne. Qed.

Lemma with_extra_insert_ne name alias k v (kw : gmap string pyval) x :
  name ≠ k → with_extra name alias (<[k:=v]> kw) x = with_extra name alias kw x.
Proof. intros. unfold with_extra. by rewrite lookup_insert_ne. Qed.

Lemma not_declared (k : string) :
  k ∉ declared_keys →
  k ≠ "task_id" ∧ k ≠ "solver_id" ∧ k ≠ "real_flex_unit" ∧ k ≠ "created_at"
  ∧ k ≠ "status" ∧ k ≠ "file_type" ∧ k ≠ "mode_solver"
  ∧ k ≠ "refId" ∧ k ≠ "id" ∧ k ≠ "charge" ∧ k ≠ "createdAt" ∧ k ≠ "fileType".
Proof.
  unfold declared_keys. simpl. rewrite !not_elem_of_cons. tauto.
Qed.

(** A key outside the schema changes neither the fate of the construction
    nor the declared fields; it is added to the extra attributes. *)
Lemma construct_with_allow_insert (kw : gmap string pyval) k v :
  k ∉ declared_keys →
  construct_with validate Extra_allow (<[k:=v]> kw) =
    (λ t, mkModeSolverTask (task_id t) (solver_id t) (real_flex_unit t)
            (created_at t) (status t) (file_type t) (mode_solver t)
            (<[k:=v]> (extra t)))
    <$> construct_with validate Extra_allow kw.
Proof.
  intros Hk. pose proof (not_declared k Hk) as (?&?&?&?&?&?&?&?&?&?&?&?).
  unfold construct_with.
  rewrite !field_input_insert_ne by done.
  repeat match goal with
         | |- context [field_input validate ?ty ?a kw] =>
             destruct (field_input validate ty a kw);
             [cbn [mbind option_bind]|reflexivity]
         end.
  rewrite !with_extra_insert_ne by done.
  rewrite map_filter_insert_True by exact Hk.
  reflexivity.
Qed.

(** The same key makes a class declared with [Extra.forbid] reject the
    response. *)
Lemma construct_with_forbid_insert (kw : gmap string pyval) k v :
  k ∉ declared_keys → construct_with validate Extra_forbid (<[k:=v]> kw) = None.
Proof.
  intros Hk. pose proof (not_declared k Hk) as (?&?&?&?&?&?&?&?&?&?&?&?).
  unfold construct_with.
  repeat match goal with
         | |- context [field_input validate ?ty ?a ?m] =>
             destruct (field_input validate ty a m);
             [cbn [mbind option_bind]|reflexivity]
         end.
  rewrite bool_decide_eq_false_2; [done|].
  intros Hempty.
  assert (extra_keys (<[k:=v]> kw) !! k = Some v) as Hl.
  { unfold extra_keys. apply map_lookup_filter_Some. split.
    - apply lookup_insert_eq.
    - unfold aliases. simpl. rewrite !not_elem_of_cons.
      repeat split; try assumption. apply not_elem_of_nil. }
  rewrite Hempty in Hl. by rewrite lookup_empty in Hl.
Qed.

(** C10. A response with a field beyond the declared schema builds a Task
    Record whenever the response without it does (it is no
    [ValidationError]); the record has the same declared fields, and the
    extra field is an attribute of it. *)
Theorem construct_retains_extra (kw : gmap string pyval) (k : string) (v : pyval)
    (t : ModeSolverTask) (w : World) :
  k ∉ declared_keys →
  (construct validate kw w).1 = Ok t →
  ∃ t', (construct validate (<[k:=v]> kw) w).1 = Ok t'
        ∧ extra t' !! k = Some v
        ∧ t' = mkModeSolverTask (task_id t) (solver_id t) (real_flex_unit t)
                 (created_at t) (status t) (file_type t) (mode_solver t)
                 (<[k:=v]> (extra t)).
Proof.
  intros Hk. unfold construct. simpl.
  rewrite construct_with_allow_insert by done.
  destruct (construct_with validate Extra_allow kw) as [t0|]; [|done].
  intros [= ->]. eexists. split; [done|]. split; [|done].
  simpl. apply lookup_insert_eq.
Qed.

End Construct.

(** The response of the scripted server with a [queuePosition] added: the
    record is built, and [queuePosition] is an attribute of it. *)
Lemma construct_retains_extra_witness :
  ("queuePosition" ∉ declared_keys)
  ∧ (∃ t', (construct Scenario.accept
              (<["queuePosition" := PInt 3]> Scenario.created) Scenario.w0).1 = Ok t'
           ∧ extra t' !! "queuePosition" = Some (PInt 3)).
Proof.
  assert ("queuePosition" ∉ declared_keys) as Hk.
  { unfold declared_keys. simpl. rewrite !not_elem_of_cons.
    repeat split; try discriminate. apply not_elem_of_nil. }
  split; [exact Hk|].
  destruct (construct_retains_extra Scenario.accept Scenario.created
              "queuePosition" (PInt 3)
              (mkModeSolverTask (PStr "t1") (PStr "s1") PNone PNone
                 (PStr "draft") (PStr "Gz") PNone ∅) Scenario.w0 Hk)
    as (t' & H1 & H2 & _).
  - vm_compute. reflexivity.
  - exists t'. split; assumption.
Defined.

(** ** Running a computation by hand *)

Ltac unfold_M :=
  unfold raise_WebError in *;
  unfold mbind, M_bind, bind, mret, M_ret, ret, raise, call, emit, when,
    try_finally, try_except, as_obj, getitem, construct_from, construct,
    cache_set in *.

Lemma py_eq_PStr (v : pyval) (s : string) : py_eq v (PStr s) = true ↔ v = PStr s.
Proof.
  destruct v; simpl; try (split; [discriminate|congruence]).
  rewrite bool_decide_eq_true. split; congruence.
Qed.

Lemma py_eq_PStr_false (v : pyval) (s : string) :
  py_eq v (PStr s) = false ↔ v ≠ PStr s.
Proof. rewrite <- py_eq_PStr. destruct (py_eq v (PStr s)); naive_solver. Qed.

(** ** [get_info] *)

Section GetInfo.
Variable env : Env.
Variable validate : ftype → pyval → option pyval.

Lemma mode_solver_declared : "mode_solver" ∈ declared_keys.
Proof. unfold declared_keys. simpl. rewrite !elem_of_cons. tauto. Qed.

(** The keyword [mode_solver] fills the field of that name and nothing
    else. *)
Lemma construct_with_payload (resp : gmap string pyval) (ms : pyval) :
  resp !! "mode_solver" = None →
  validate_field validate TModeSolver ms = Some ms →
  construct_with validate Extra_allow (<["mode_solver" := ms]> resp) =
    (λ t, mkModeSolverTask (task_id t) (solver_id t) (real_flex_unit t)
            (created_at t) (status t) (file_type t) ms (extra t))
    <$> construct_with validate Extra_allow resp.
Proof.
  intros Hnone Hms. unfold construct_with.
  rewrite !(field_input_insert_ne validate TStr) by done.
  rewrite (field_input_insert_ne validate TFloat) by done.
  rewrite (field_input_insert_ne validate TOptDatetime) by done.
  repeat match goal with
         | |- context [field_input validate ?ty ?a resp ≫= _] =>
             destruct (field_input validate ty a resp);
             [cbn [mbind option_bind fmap option_fmap option_map]|reflexivity]
         end.
  unfold field_input at 1. rewrite lookup_insert_eq, Hms.
  cbn [mbind option_bind].
  rewrite !with_extra_insert_ne by done.
  rewrite map_filter_insert_not
    by (intros y Hy; apply Hy; exact mode_solver_declared).
  unfold field_input. rewrite Hnone. reflexivity.
Qed.

(** C9. [get_info] makes one [GET] and builds a new record from the
    response: the fields are those the response gives, the payload is the
    one the record held (the same reference); no payload has its cache
    written and no file is made.  The payload is assumed to pass the
    validation of its field unchanged, as it did when the record was
    built. *)
Theorem get_info_keeps_payload (self : ModeSolverTask) (w : World) :
  validate_field validate TModeSolver (mode_solver self) = Some (mode_solver self) →
  match get_info env validate self w with
  | (r, w') =>
      cached w' = cached w ∧ tmpfiles w' = tmpfiles w
      ∧ (∀ t, r = Ok t → mode_solver t = mode_solver self)
      ∧ ∃ reply,
          polls (since w w') = [reply]
          ∧ filter (on_call (@is_remote)) (since w w') =
              [Ev (HttpGet (task_url self)) reply]
          ∧ match reply with
            | Raise e => r = Raise e
            | Ok resp =>
                match resp !! "mode_solver" with
                | Some _ => r = Raise TypeError
                | None =>
                    match construct_with validate Extra_allow resp with
                    | Some t =>
                        r = Ok (mkModeSolverTask (task_id t) (solver_id t)
                                  (real_flex_unit t) (created_at t) (status t)
                                  (file_type t) (mode_solver self) (extra t))
                    | None => r = Raise ValidationError
                    end
                end
            end
  end.
Proof.
  intros Hms. unfold get_info. unfold_M.
  destruct (env _ (trace w) (HttpGet (task_url self))) as [resp|e] eqn:Hget.
  - destruct (resp !! "mode_solver") eqn:Hdup.
    + simpl. rewrite since_log_event.
      split; [done|]. split; [done|]. split; [done|].
      exists (Ok resp). rewrite Hdup. by repeat split.
    + rewrite construct_with_payload by done.
      destruct (construct_with validate Extra_allow resp) as [t|] eqn:Hc;
        simpl;
        (erewrite since_app by (simpl; rewrite <- app_assoc; reflexivity));
        (split; [done|]); (split; [done|]);
        (split; [by intros ? [= <-]|]);
        exists (Ok resp); rewrite Hdup, Hc; by repeat split.
  - simpl. rewrite since_log_event.
    split; [done|]. split; [done|]. split; [done|].
    exists (Raise e). by repeat split.
Qed.

End GetInfo.

(** The record of the scripted scenario, polled once while the task is
    running: the new record holds the payload [7] as before. *)
Lemma get_info_keeps_payload_witness :
  validate_field Scenario.accept TModeSolver (mode_solver Scenario.task7)
    = Some (mode_solver Scenario.task7)
  ∧ (∀ t, (get_info (Scenario.server true true ["running"]) Scenario.accept
             Scenario.task7 Scenario.w0).1 = Ok t →
          mode_solver t = PObj 7).
Proof.
  split; [reflexivity|].
  pose proof (get_info_keeps_payload (Scenario.server true true ["running"])
                Scenario.accept Scenario.task7 Scenario.w0 eq_refl) as H.
  destruct (get_info _ _ _ _) as [r w']. simpl.
  destruct H as (_ & _ & H & _). exact H.
Defined.

(** ** Rules for invariants *)

Section Steps.
Context (R : relation World) `{!PreOrder R}.

Lemma steps_ret {A} (a : A) : steps R (mret a).
Proof. intros w r w' [= _ <-]. reflexivity. Qed.

Lemma steps_raise {A} (e : exn) : steps R (raise (A := A) e).
Proof. intros w r w' [= _ <-]. reflexivity. Qed.

Lemma steps_bind {A B} (m : M A) (k : A → M B) :
  steps R m → (∀ a, steps R (k a)) → steps R (m ≫= k).
Proof.
  intros Hm Hk w r w'. unfold mbind, M_bind, bind.
  destruct (m w) as [[a|e] w1] eqn:Hw.
  - intros Hka. etrans; [exact (Hm _ _ _ Hw)|exact (Hk _ _ _ _ Hka)].
  - intros [= _ <-]. exact (Hm _ _ _ Hw).
Qed.

Lemma steps_try_finally {A} (body : M A) (fin : M unit) :
  steps R body → steps R fin → steps R (try_finally body fin).
Proof.
  intros Hb Hf w r w'. unfold try_finally.
  destruct (body w) as [rb w1] eqn:Hw.
  destruct (fin w1) as [[[]|e] w2] eqn:Hw2; intros [= _ <-];
    (etrans; [exact (Hb _ _ _ Hw)|exact (Hf _ _ _ Hw2)]).
Qed.

Lemma steps_try_except {A} (body : M A) (catches : exn → bool) (handler : exn → M A) :
  steps R body → (∀ e, steps R (handler e)) → steps R (try_except body catches handler).
Proof.
  intros Hb Hh w r w'. unfold try_except.
  destruct (body w) as [[a|e] w1] eqn:Hw.
  - intros [= _ <-]. exact (Hb _ _ _ Hw).
  - destruct (catches e).
    + intros He. etrans; [exact (Hb _ _ _ Hw)|exact (Hh _ _ _ _ He)].
    + intros [= _ <-]. exact (Hb _ _ _ Hw).
Qed.

Lemma steps_when (b : bool) (m : M unit) : steps R m → steps R (when b m).
Proof. destruct b; [done|]. intros _. apply steps_ret. Qed.

Lemma steps_as_obj (v : pyval) : steps R (as_obj v).
Proof. destruct v; first [apply steps_ret | apply steps_raise]. Qed.

Lemma steps_getitem (d : gmap string pyval) (key : string) : steps R (getitem d key).
Proof. unfold getitem. destruct (d !! key); [apply steps_ret | apply steps_raise]. Qed.

End Steps.

(** *** The trace grows, the caches stay *)

Section Quiet.
Variable env : Env.
Variable Q : Event → Prop.

Global Instance quiet_preorder : PreOrder (quiet Q).
Proof.
  split.
  - intros w. split; [|done]. exists []. by rewrite app_nil_r.
  - intros w1 w2 w3 [(t1 & E1 & F1) C1] [(t2 & E2 & F2) C2]. split.
    + exists (t1 ++ t2). rewrite E2, E1, app_assoc. split; [done|].
      by apply Forall_app.
    + congruence.
Qed.

Lemma quiet_log_event {T} (c : Call T) (r : Result T) (w : World) :
  Q (Ev c r) → quiet Q w (log_event c r w).
Proof. intros H. split; [|done]. exists [Ev c r]. split; [done|]. by constructor. Qed.

Lemma quiet_call {T} (c : Call T) : (∀ r, Q (Ev c r)) → steps (quiet Q) (call env c).
Proof. intros H w r w' [= _ <-]. by apply quiet_log_event. Qed.

Lemma quiet_emit (c : Call unit) : Q (Ev c (Ok tt)) → steps (quiet Q) (emit c).
Proof. intros H w r w' [= _ <-]. by apply quiet_log_event. Qed.

Lemma quiet_construct validate (kw : gmap string pyval) :
  (∀ r, Q (Ev (Construct kw) r)) → steps (quiet Q) (construct validate kw).
Proof. intros H w r w' [= _ <-]. by apply quiet_log_event. Qed.

Lemma quiet_construct_from validate (resp : gmap string pyval) (ms : pyval) :
  (∀ kw r, Q (Ev (Construct kw) r)) → steps (quiet Q) (construct_from validate resp ms).
Proof.
  intros H. unfold construct_from. destruct (resp !! "mode_solver").
  - apply steps_raise, _.
  - by apply quiet_construct.
Qed.

Lemma quiet_mkstemp (suffix : string) :
  (∀ p, Q (Ev (Mkstemp suffix) (Ok p))) → steps (quiet Q) (mkstemp suffix).
Proof.
  intros H w r w' [= _ <-]. split; [|done].
  eexists [_]. split; [done|]. by constructor.
Qed.

Lemma quiet_unlink (file : path) :
  (∀ r, Q (Ev (Unlink file) r)) → steps (quiet Q) (unlink file).
Proof.
  intros H w r w'. unfold unlink. destruct file as [s|n sfx].
  - intros [= _ <-]. by apply quiet_log_event.
  - case_bool_decide; intros [= _ <-].
    + split; [|done]. eexists [_]. split; [done|]. by constructor.
    + by apply quiet_log_event.
Qed.

End Quiet.

(** *** Temporary files are released *)

Lemma tmp_added (X : gset nat) (n : nat) : n ∈ {[n]} ∪ X.
Proof. apply elem_of_union_l, elem_of_singleton. reflexivity. Qed.

Lemma tmp_removed (X : gset nat) (n : nat) : n ∉ X → ({[n]} ∪ X) ∖ {[n]} = X.
Proof.
  intros Hn. apply set_eq. intros x.
  rewrite elem_of_difference, elem_of_union, elem_of_singleton.
  split; [intros [[?|?] ?]; done|].
  intros Hx. split; [by right|]. by intros ->.
Qed.

Section Scoped.
Variable env : Env.

Global Instance scoped_preorder : PreOrder scoped.
Proof.
  split.
  - intros w. split; [done|]. exists []. rewrite app_nil_r. split; [done|].
    constructor.
  - intros w1 w2 w3 [T1 (t1 & E1 & F1)] [T2 (t2 & E2 & F2)]. split; [congruence|].
    exists (t1 ++ t2). rewrite E2, E1, app_assoc. split; [done|].
    unfold made_tmp. rewrite omap_app. apply Forall_app. split; [|done].
    eapply Forall_impl; [exact F1|]. intros [s|n sfx]; simpl; [done|].
    by rewrite T2.
Qed.

Lemma scoped_log_event {T} (c : Call T) (r : Result T) (w : World) :
  mkstemp_of (Ev c r) = None → scoped w (log_event c r w).
Proof.
  intros H. split; [done|]. exists [Ev c r]. split; [done|].
  unfold made_tmp. cbn [omap list_omap]. rewrite H. constructor.
Qed.

Lemma scoped_call {T} (c : Call T) :
  (∀ r, mkstemp_of (Ev c r) = None) → steps scoped (call env c).
Proof. intros H w r w' [= _ <-]. by apply scoped_log_event. Qed.

Lemma scoped_emit (c : Call unit) :
  mkstemp_of (Ev c (Ok tt)) = None → steps scoped (emit c).
Proof. intros H w r w' [= _ <-]. by apply scoped_log_event. Qed.

(** A file made by [mkstemp] and unlinked in the [finally] of the block
    that uses it is gone afterwards, however the block ends. *)
Lemma scoped_tmp {A} (suffix : string) (body : path → M A) :
  (∀ p, steps scoped (body p)) →
  steps scoped (mkstemp suffix ≫= λ p, try_finally (body p) (unlink p)).
Proof.
  intros Hbody w r w'. unfold mbind, M_bind, bind, mkstemp, try_finally.
  pose proof (is_fresh (tmpfiles w)) as Hfresh.
  set (n := fresh (tmpfiles w)) in *. clearbody n.
  set (w1 := mkWorld _ _ _).
  destruct (body (TmpPath n suffix) w1) as [rb w2] eqn:Hb.
  destruct (Hbody _ _ _ _ Hb) as [T2 (t2 & E2 & F2)].
  unfold unlink. rewrite T2. subst w1. simpl.
  rewrite bool_decide_eq_true_2 by apply tmp_added.
  intros [= _ <-]. simpl in *. split; simpl.
  - by apply tmp_removed.
  - exists (Ev (Mkstemp suffix) (Ok (TmpPath n suffix)) :: t2
            ++ [Ev (Unlink (TmpPath n suffix)) (Ok tt)]).
    split.
    + rewrite E2. simpl. by rewrite <- !app_assoc.
    + unfold made_tmp. cbn [omap list_omap mkstemp_of].
      rewrite omap_app. cbn [omap list_omap mkstemp_of]. rewrite app_nil_r.
      constructor.
      * simpl. by rewrite tmp_removed.
      * eapply Forall_impl; [exact F2|]. intros [s|m sfx]; simpl; [done|].
        rewrite T2, elem_of_difference. tauto.
Qed.

Lemma scoped_tmp_bind {A B} (suffix : string) (body : path → M A)
    (k : path → A → M B) :
  (∀ p, steps scoped (body p)) →
  (∀ p a, steps scoped (k p a)) →
  steps scoped (mkstemp suffix ≫= λ p, try_finally (body p) (unlink p) ≫= k p).
Proof.
  intros Hbody Hk w r w' Hrun.
  pose proof (scoped_tmp suffix body Hbody w) as Htmp.
  unfold mbind, M_bind, bind, mkstemp in Hrun, Htmp. cbv zeta in Hrun, Htmp.
  destruct (try_finally _ _ _) as [[a|e] w2].
  - etrans; [exact (Htmp _ _ eq_refl)|exact (Hk _ _ _ _ _ Hrun)].
  - injection Hrun as _ <-. exact (Htmp _ _ eq_refl).
Qed.

(** [upload] releases its temporary files. *)
Lemma upload_scoped (self : ModeSolverTask) (verbose : bool)
    (progress_callback : option nat) :
  steps scoped (upload env self verbose progress_callback).
Proof.
  unfold upload.
  apply steps_bind; [apply _|apply steps_as_obj, _|intros ms].
  apply steps_bind; [apply _|by apply scoped_call|intros mode_solver].
  apply scoped_tmp_bind.
  - intros p. apply steps_bind; [apply _|by apply scoped_call|intros _].
    by apply scoped_call.
  - intros _ _. apply scoped_tmp.
    intros p. apply steps_bind; [apply _|by apply scoped_call|intros _].
    by apply scoped_call.
Qed.

(** [get_modesolver] releases its temporary file. *)
Lemma get_modesolver_scoped (self : ModeSolverTask) (to_file sim_file : string)
    (verbose : bool) (progress_callback : option nat) :
  steps scoped (get_modesolver env self to_file sim_file verbose progress_callback).
Proof.
  unfold get_modesolver.
  apply steps_bind; [apply _| |intros mode_solver].
  - destruct (py_eq (file_type self) (PStr "Gz"));
      [|destruct (py_eq (file_type self) (PStr "Hdf5"))].
    + apply scoped_tmp. intros p.
      apply steps_bind; [apply _|by apply scoped_call|intros _].
      by apply scoped_call.
    + apply scoped_tmp. intros p.
      apply steps_bind; [apply _|by apply scoped_call|intros _].
      by apply scoped_call.
    + apply scoped_tmp_bind.
      * intros p. apply steps_bind; [apply _|by apply scoped_call|intros _].
        by apply scoped_call.
      * intros _ d.
        apply steps_bind; [apply _|by apply scoped_call|intros _].
        apply steps_bind; [apply _|by apply scoped_call|intros sim].
        by apply scoped_call.
  - apply steps_bind; [apply _|by apply scoped_call|intros _].
    apply steps_ret, _.
Qed.

(** C7. Whatever the collaborators do, and whether the call returns or
    raises, after [upload] and after [get_modesolver] the temporary files
    on disk are those that were there before the call, and none of the
    files the call made with [mkstemp] is among them. *)
Theorem temporary_files_released (self : ModeSolverTask) (to_file sim_file : string)
    (verbose : bool) (progress_callback : option nat) (w : World) :
  match upload env self verbose progress_callback w with
  | (_, w') =>
      tmpfiles w' = tmpfiles w
      ∧ Forall (λ p, ¬ on_disk p w') (made_tmp (since w w'))
  end
  ∧ match get_modesolver env self to_file sim_file verbose progress_callback w with
    | (_, w') =>
        tmpfiles w' = tmpfiles w
        ∧ Forall (λ p, ¬ on_disk p w') (made_tmp (since w w'))
    end.
Proof.
  split.
  - destruct (upload _ _ _ _ _) as [r w'] eqn:H.
    destruct (upload_scoped _ _ _ _ _ _ H) as [Ht (t & E & F)].
    by rewrite (since_app _ _ _ E).
  - destruct (get_modesolver _ _ _ _ _ _ _) as [r w'] eqn:H.
    destruct (get_modesolver_scoped _ _ _ _ _ _ _ _ H) as [Ht (t & E & F)].
    by rewrite (since_app _ _ _ E).
Qed.

End Scoped.

(** ** [create] *)

Ltac step_env env :=
  match goal with
  | |- context [env ?T ?h ?c] => destruct (env T h c) as [?|?] eqn:?
  | |- context [match ?m !! ?k with _ => _ end] => destruct (m !! k) eqn:?
  | |- context [construct_with ?v ?p ?kw] => destruct (construct_with v p kw) eqn:?
  end; simpl.

Ltac norm_since :=
  erewrite since_app by (simpl; rewrite <- ?app_assoc; simpl; reflexivity).

Section Create.
Variable env : Env.
Variable validate : ftype → pyval → option pyval.
Variable version : string.

(** C2, as the code has it. [create] resolves the folder first; when one of
    the two validations of the payload then raises, [create] raises that
    exception, the folder resolution is the only call that went over the
    network, and no create request is posted. *)
Theorem create_invalid_payload (mode_solver : obj)
    (task_name mode_solver_name folder_name : string) (w : World) (e : exn) :
  match create env validate version mode_solver task_name mode_solver_name
          folder_name w with
  | (r, w') =>
      e ∈ validation_errors (since w w') →
      r = Raise e
      ∧ filter (on_call (@is_HttpPost)) (since w w') = []
      ∧ ∃ folder_id,
          filter (on_call (@is_remote)) (since w w') =
            [Ev (FolderGet folder_name true) (Ok folder_id)]
  end.
Proof.
  unfold create. unfold_M.
  repeat step_env env.
  all: norm_since; simpl.
  all: rewrite ?elem_of_cons, ?elem_of_nil.
  all: try (intros []; fail).
  all: intros [->|[]]; split; [reflexivity|]; split; [reflexivity|].
  all: eexists; reflexivity.
Qed.

End Create.

(** A payload that fails validation, on the scripted server: [create]
    raises the error of the validation, after the folder was resolved. *)
Lemma create_invalid_payload_witness :
  OtherError "SetupError"
    ∈ validation_errors (since Scenario.w0 Scenario.created_invalid.2)
  ∧ Scenario.created_invalid.1 = Raise (OtherError "SetupError")
  ∧ filter (on_call (@is_HttpPost)) (since Scenario.w0 Scenario.created_invalid.2)
    = [].
Proof.
  assert (OtherError "SetupError"
            ∈ validation_errors (since Scenario.w0 Scenario.created_invalid.2))
    as Hin by (vm_compute; left).
  split; [exact Hin|].
  pose proof (create_invalid_payload (Scenario.server false true [])
                Scenario.accept "2.6.0" 7 "Untitled" "mode_solver" "Mode Solver"
                Scenario.w0 (OtherError "SetupError")) as H.
  fold Scenario.created_invalid in H.
  destruct Scenario.created_invalid as [r w']. simpl in *.
  destruct (H Hin) as (H1 & H2 & _). split; assumption.
Defined.

(** C2 as it is stated fails: here the payload fails validation, and a
    request has gone to the folder registry all the same. *)
Lemma create_resolves_folder_before_validation :
  ¬ (let t := since Scenario.w0
                (create (Scenario.server false true []) Scenario.accept "2.6.0" 7
                   "Untitled" "mode_solver" "Mode Solver" Scenario.w0).2 in
     validation_errors t ≠ [] → filter (on_call (@is_remote)) t = []).
Proof.
  vm_compute. intros H. discriminate H. intros H'. discriminate H'.
Qed.

(** ** [get_result] *)

Section GetResult.
Variable env : Env.
Variable MODE_MONITOR_NAME : string.

Ltac step_result :=
  match goal with
  | |- context [env ?T ?h ?c] => destruct (env T h c) as [?|?] eqn:?
  | |- context [is_ClientError ?e] => destruct (is_ClientError e) eqn:?
  end; simpl.

(** Whatever the world is, [get_result] starts with the download of the
    compressed result: nothing is looked up before. *)
Lemma get_result_starts_with_download (self : ModeSolverTask) (to_file : string)
    (verbose : bool) (progress_callback : option nat) (w : World) :
  ∃ r1, head (since w (get_result env MODE_MONITOR_NAME self to_file verbose
                         progress_callback w).2)
        = Some (Ev (DownloadGzFile (solver_id self) MODESOLVER_RESULT_GZ
                      (UserPath to_file) verbose progress_callback) r1).
Proof.
  unfold get_result. unfold_M.
  destruct verbose, (mode_solver self); simpl; repeat step_result.
  all: norm_since; simpl; eexists; reflexivity.
Qed.

(** The downloads of [get_result], by what the first one does. *)
Lemma get_result_attempts (self : ModeSolverTask) (to_file : string)
    (verbose : bool) (progress_callback : option nat) (w : World) :
  let run := get_result env MODE_MONITOR_NAME self to_file verbose
               progress_callback w in
  let compressed :=
    Download true (solver_id self) MODESOLVER_RESULT_GZ (UserPath to_file) in
  let uncompressed :=
    Download false (solver_id self) MODESOLVER_RESULT (UserPath to_file) in
  (∃ p, downloads (since w run.2) = [compressed (Ok p)])
  ∨ (∃ e, is_ClientError e = false
          ∧ downloads (since w run.2) = [compressed (Raise e)]
          ∧ run.1 = Raise e)
  ∨ (∃ e p, is_ClientError e = true
            ∧ downloads (since w run.2) =
                [compressed (Raise e); uncompressed (Ok p)])
  ∨ (∃ e e', is_ClientError e = true
             ∧ downloads (since w run.2) =
                 [compressed (Raise e); uncompressed (Raise e')]
             ∧ run.1 = Raise (WebErrorFrom
                      ("Failed to download the simulation data file from the server. "
                       +:+ "Please confirm that the task was successfully run.") e')).
Proof.
  unfold get_result. unfold_M.
  destruct verbose, (mode_solver self); simpl; repeat step_result.
  all: norm_since; simpl.
  all: solve [ left; eauto | right; left; eauto
             | right; right; left; eauto 6 | right; right; right; eauto 8 ].
Qed.

(** C3, as the code has it.  The first thing [get_result] does is to ask
    for the compressed result.  If that download returns, the uncompressed
    result is not asked for.  If it raises anything but a [ClientError],
    that exception goes to the caller and the uncompressed result is not
    asked for.  If it raises a [ClientError], whatever the error says (that
    the object is not there, or anything else the store answers), the
    uncompressed result is asked for; if that download raises too,
    [get_result] raises a [WebError] whose cause is that exception. *)
Theorem get_result_fallback (self : ModeSolverTask) (to_file : string)
    (verbose : bool) (progress_callback : option nat) (w : World) :
  match get_result env MODE_MONITOR_NAME self to_file verbose progress_callback w with
  | (r, w') =>
      let compressed :=
        Download true (solver_id self) MODESOLVER_RESULT_GZ (UserPath to_file) in
      let uncompressed :=
        Download false (solver_id self) MODESOLVER_RESULT (UserPath to_file) in
      (∃ r1, head (since w w')
             = Some (Ev (DownloadGzFile (solver_id self) MODESOLVER_RESULT_GZ
                           (UserPath to_file) verbose progress_callback) r1))
      ∧ ((∃ p, downloads (since w w') = [compressed (Ok p)])
         ∨ (∃ e, is_ClientError e = false
                 ∧ downloads (since w w') = [compressed (Raise e)]
                 ∧ r = Raise e)
         ∨ (∃ e p, is_ClientError e = true
                   ∧ downloads (since w w') =
                       [compressed (Raise e); uncompressed (Ok p)])
         ∨ (∃ e e', is_ClientError e = true
                    ∧ downloads (since w w') =
                        [compressed (Raise e); uncompressed (Raise e')]
                    ∧ r = Raise (WebErrorFrom
                             ("Failed to download the simulation data file from the server. "
                              +:+ "Please confirm that the task was successfully run.") e')))
  end.
Proof.
  pose proof (get_result_starts_with_download self to_file verbose
                progress_callback w) as Hfirst.
  pose proof (get_result_attempts self to_file verbose progress_callback w)
    as Hcases.
  cbv zeta in Hcases.
  destruct (get_result _ _ _ _ _ _ _) as [r w']. split; [exact Hfirst|exact Hcases].
Qed.

End GetResult.

(** ** [get_modesolver] *)

Section GetModeSolver.
Variable env : Env.

Ltac step_modesolver :=
  first
    [ rewrite bool_decide_eq_true_2 by apply tmp_added
    | match goal with
      | |- context [env ?T ?h ?c] => destruct (env T h c) as [?|?] eqn:?
      end ]; simpl.

(** C6. When [get_modesolver] returns a payload, what it did is, by
    [file_type]: for ["Gz"], one download of the compressed archive to a
    temporary file, read by [from_hdf5_gz]; for ["Hdf5"], one download of
    the uncompressed archive, read by [from_hdf5]; for anything else, the
    download of the solver's description, read as a dictionary, the
    download of the task's simulation to [sim_file], and the payload parsed
    from the dictionary with the simulation put in.  In the three cases the
    last thing done is to write the payload to [to_file]. *)
Theorem get_modesolver_branches (self : ModeSolverTask) (to_file sim_file : string)
    (verbose : bool) (progress_callback : option nat) (w : World) :
  match get_modesolver env self to_file sim_file verbose progress_callback w with
  | (r, w') =>
      ∀ mode_solver, r = Ok mode_solver →
      let tmp := TmpPath (fresh (tmpfiles w)) in
      (file_type self = PStr "Gz" →
       ∃ p, since w w' =
         [Ev (Mkstemp ".hdf5.gz") (Ok (tmp ".hdf5.gz"));
          Ev (DownloadFile (solver_id self) MODESOLVER_GZ (tmp ".hdf5.gz")
                verbose progress_callback) (Ok p);
          Ev (FromHdf5Gz (tmp ".hdf5.gz")) (Ok mode_solver);
          Ev (Unlink (tmp ".hdf5.gz")) (Ok tt);
          Ev (ToFile mode_solver (UserPath to_file)) (Ok tt)])
      ∧ (file_type self = PStr "Hdf5" →
         ∃ p, since w w' =
           [Ev (Mkstemp ".hdf5") (Ok (tmp ".hdf5"));
            Ev (DownloadFile (solver_id self) MODESOLVER_HDF5 (tmp ".hdf5")
                  verbose progress_callback) (Ok p);
            Ev (FromHdf5 (tmp ".hdf5")) (Ok mode_solver);
            Ev (Unlink (tmp ".hdf5")) (Ok tt);
            Ev (ToFile mode_solver (UserPath to_file)) (Ok tt)])
      ∧ (file_type self ≠ PStr "Gz" → file_type self ≠ PStr "Hdf5" →
         ∃ p mode_solver_dict p' simulation, since w w' =
           [Ev (Mkstemp ".json") (Ok (tmp ".json"));
            Ev (DownloadFile (solver_id self) MODESOLVER_JSON (tmp ".json")
                  verbose progress_callback) (Ok p);
            Ev (DictFromJson (tmp ".json")) (Ok mode_solver_dict);
            Ev (Unlink (tmp ".json")) (Ok tt);
            Ev (DownloadFile (task_id self) SIMULATION_JSON (UserPath sim_file)
                  verbose progress_callback) (Ok p');
            Ev (SimulationFromJson (UserPath sim_file)) (Ok simulation);
            Ev (ParseObj (<["simulation" := PObj simulation]> mode_solver_dict))
               (Ok mode_solver);
            Ev (ToFile mode_solver (UserPath to_file)) (Ok tt)])
  end.
Proof.
  unfold get_modesolver.
  destruct (py_eq (file_type self) (PStr "Gz")) eqn:Hgz;
    [|destruct (py_eq (file_type self) (PStr "Hdf5")) eqn:Hhdf5].
  all: unfold mkstemp, unlink; unfold_M; simpl.
  all: repeat step_modesolver.
  all: intros ms [= <-] || (intros ms; discriminate).
  all: norm_since; simpl.
  all: rewrite ?py_eq_PStr, ?py_eq_PStr_false in *.
  all: repeat match goal with x : unit |- _ => destruct x end.
  - split; [intros _; by eexists|]. split; [congruence|by intros ?].
  - split; [congruence|]. split; [intros _; by eexists|by intros _ ?].
  - split; [by intros ?|]. split; [by intros ?|]. intros _ _. by do 4 eexists.
Qed.

End GetModeSolver.

(** ** The loop of [run] *)

Section Wait.
Variable env : Env.
Variable validate : ftype → pyval → option pyval.
Variable log_level : string.
Variable verbose : bool.
Variable task : ModeSolverTask.

(** At a terminal status the loop is over, whatever the fuel. *)
Lemma run_wait_terminal fuel prev st w :
  is_terminal st = true →
  run_wait env validate fuel log_level verbose task prev st w = Done (Ok st) w.
Proof. intros H. destruct fuel; simpl; by rewrite H. Qed.

(** One iteration: the status is announced if it changed, the loop
    sleeps, asks for the record, and goes on with the status of the
    record built. *)
Lemma run_wait_unfold fuel prev st w :
  is_terminal st = false →
  run_wait env validate (S fuel) log_level verbose task prev st w =
    let h := trace w ++ announce log_level verbose prev st
             ++ [Ev (Sleep (1 # 2)%Q) (Ok tt)] in
    let reply := env _ h (HttpGet (task_url task)) in
    let w_get := mkWorld (h ++ [Ev (HttpGet (task_url task)) reply])
                   (tmpfiles w) (cached w) in
    match reply with
    | Raise e => Done (Raise e) w_get
    | Ok resp =>
        match resp !! "mode_solver" with
        | Some _ => Done (Raise TypeError) w_get
        | None =>
            let kw := <["mode_solver" := mode_solver task]> resp in
            match construct_with validate Extra_allow kw with
            | None =>
                Done (Raise ValidationError)
                  (log_event (Construct kw) (Raise ValidationError) w_get)
            | Some info =>
                run_wait env validate fuel log_level verbose task
                  (if negb (py_eq st prev) then st else prev) (status info)
                  (log_event (Construct kw) (Ok info) w_get)
            end
        end
    end.
Proof.
  intros Hnt. simpl. rewrite Hnt.
  unfold mbind, P_bind_inst, P_bind, lift, get_info, announce, log_event.
  unfold_M. unfold log_event.
  destruct (negb (py_eq st prev)), verbose; simpl.
  all: rewrite <- ?app_assoc; simpl.
  all: destruct (env _ _ (HttpGet (task_url task))) as [resp|e]; simpl;
    [|by rewrite <- ?app_assoc].
  all: destruct (resp !! "mode_solver"); simpl; [by rewrite <- ?app_assoc|].
  all: destruct (construct_with validate Extra_allow _); simpl;
    by rewrite <- ?app_assoc.
Qed.

Lemma announce_quiet prev st :
  downloads (announce log_level verbose prev st) = []
  ∧ built (announce log_level verbose prev st) = []
  ∧ polls (announce log_level verbose prev st) = []
  ∧ filter (on_call (@is_Sleep)) (announce log_level verbose prev st) = []
  ∧ log_lines (announce log_level verbose prev st) =
      (if py_eq st prev then [] else [(log_level, status_msg st)])
  ∧ console_lines (announce log_level verbose prev st) =
      (if py_eq st prev then [] else if verbose then [status_msg st] else []).
Proof. unfold announce. by destruct (py_eq st prev), verbose. Qed.

Lemma stops_nil st : stops_at_terminal st [].
Proof. split; [done|]. by intros [|??] ???? ?. Qed.

Lemma built_split t1 e t2 info :
  built_of e = Some info → built (t1 ++ e :: t2) ≠ [].
Proof.
  intros He. unfold built. rewrite omap_app. simpl. rewrite He.
  by destruct (omap built_of t1).
Qed.

Lemma stops_no_built st t :
  nonterminal st → built t = [] → stops_at_terminal st t.
Proof.
  intros Hst Hb. split; [unfold nonterminal in Hst; congruence|].
  intros t1 e t2 info -> He _. by apply built_split with (t1 := t1) (t2 := t2) in He.
Qed.

Lemma stops_step st pre c info t :
  nonterminal st → built pre = [] → built_of c = Some info →
  stops_at_terminal (status info) t →
  stops_at_terminal st (pre ++ c :: t).
Proof.
  intros Hst Hpre Hc [Hnow Hlater].
  split; [unfold nonterminal in Hst; congruence|].
  intros t1 e t2 info' Heq He Hterm.
  apply app_eq_inv in Heq as [(k & -> & Hk)|(k & -> & Hk)].
  - destruct k as [|x k]; simplify_eq/=.
    + apply Hnow. congruence.
    + by apply built_split with (t1 := t1) (t2 := k) in He.
  - destruct k as [|x k]; simplify_eq/=.
    + apply Hnow. congruence.
    + by eapply Hlater.
Qed.

Lemma stops_app st t tail :
  stops_at_terminal st t →
  polls tail = [] → filter (on_call (@is_Sleep)) tail = [] → built tail = [] →
  stops_at_terminal st (t ++ tail).
Proof.
  intros [Hnow Hlater] Hp Hs Hb.
  assert (∀ k, polls k = [] ∧ filter (on_call (@is_Sleep)) k = [] →
               polls (k ++ tail) = []
               ∧ filter (on_call (@is_Sleep)) (k ++ tail) = []) as Htail.
  { intros k [H1 H2]. unfold polls in *.
    by rewrite omap_app, filter_app, H1, H2, Hp, Hs. }
  split.
  - intros Hst. by apply Htail, Hnow.
  - intros t1 e t2 info Heq He Hterm.
    apply app_eq_inv in Heq as [(k & -> & Hk)|(k & -> & Hk)].
    + destruct k as [|x k]; simplify_eq/=.
      * exfalso. exact (built_split [] _ _ _ He Hb).
      * by eapply Htail, Hlater.
    + exfalso. rewrite Hk in Hb. exact (built_split _ _ _ _ He Hb).
Qed.

(** The loop at a terminal status. *)
Lemma wait_post_terminal prev st w :
  is_terminal st = true →
  wait_post log_level verbose prev st w w (Some (Ok st)).
Proof.
  intros Hst. exists []. rewrite app_nil_r.
  split; [done|]. split; [done|]. split; [done|]. split; [done|].
  split; [apply stops_nil|]. simpl.
  rewrite (filter_cons_False nonterminal st) by (unfold nonterminal; congruence).
  simpl. split; [done|]. split; [by destruct verbose|]. split; [done|].
  split; [|done]. by exists [].
Qed.

(** The loop out of fuel before it did anything. *)
Lemma wait_post_running prev st w :
  nonterminal st → wait_post log_level verbose prev st w w None.
Proof.
  intros Hst. exists []. rewrite app_nil_r.
  split; [done|]. split; [done|]. split; [done|]. split; [done|].
  split; [apply stops_nil|]. simpl.
  split; [done|]. split; [by destruct verbose|]. split; [done|].
  split; [|done]. by repeat constructor.
Qed.

(** The last iteration, when the request or the construction of the record
    fails. *)
Lemma wait_post_fail prev st w w' mid e :
  nonterminal st →
  trace w' = trace w ++ announce log_level verbose prev st ++ mid →
  tmpfiles w' = tmpfiles w → cached w' = cached w →
  downloads mid = [] → built mid = [] → length (polls mid) = 1 →
  log_lines mid = [] → console_lines mid = [] →
  length (filter (on_call (@is_Sleep)) mid) = 1 →
  wait_post log_level verbose prev st w w' (Some (Raise e)).
Proof.
  intros Hst Ht Htmp Hc Md Mb Mp Ml Mc Ms.
  destruct (announce_quiet prev st) as (Ad & Ab & Ap & As & Al & Ac).
  exists (announce log_level verbose prev st ++ mid).
  split; [done|]. split; [done|]. split; [done|].
  unfold downloads, built, polls, log_lines, console_lines in *.
  split; [by rewrite omap_app, Ad, Md|].
  split; [apply stops_no_built; [done|]; unfold built; by rewrite omap_app, Ab, Mb|].
  rewrite !omap_app, filter_app, !length_app.
  rewrite Ab, Ap, As, Al, Ac, Mb, Mp, Ml, Mc, Ms. simpl.
  rewrite (filter_cons_True nonterminal st) by exact Hst. simpl.
  split; [by destruct (py_eq st prev)|].
  split; [by destruct (py_eq st prev), verbose|].
  split; [done|]. split; [|done]. by repeat constructor.
Qed.

(** An iteration that builds a record and goes on. *)
Lemma wait_post_step prev st w w1 w' mid c info r :
  nonterminal st →
  trace w1 = trace w ++ announce log_level verbose prev st ++ mid ++ [c] →
  tmpfiles w1 = tmpfiles w → cached w1 = cached w →
  downloads (mid ++ [c]) = [] → built mid = [] → built_of c = Some info →
  length (polls (mid ++ [c])) = 1 →
  log_lines (mid ++ [c]) = [] → console_lines (mid ++ [c]) = [] →
  length (filter (on_call (@is_Sleep)) (mid ++ [c])) = 1 →
  wait_post log_level verbose (if negb (py_eq st prev) then st else prev)
    (status info) w1 w' r →
  wait_post log_level verbose prev st w w' r.
Proof.
  intros Hst Ht Htmp Hc Md Mb Mbc Mp Ml Mc Ms
    (t & Et & Etmp & Ec & Td & Tstop & Tl & Tc & Ts & Tr).
  destruct (announce_quiet prev st) as (Ad & Ab & Ap & As & Al & Ac).
  exists (announce log_level verbose prev st ++ (mid ++ [c]) ++ t).
  split; [by rewrite Et, Ht, <- !app_assoc|].
  split; [congruence|]. split; [congruence|].
  unfold downloads, built, polls, log_lines, console_lines in *.
  split; [by rewrite !omap_app, Ad, Td, <- omap_app, Md|].
  split.
  { rewrite <- (app_assoc mid), app_assoc. simpl. eapply stops_step; try done.
    unfold built. by rewrite omap_app, Ab, Mb. }
  assert (omap built_of (mid ++ [c]) = [info]) as Mb'.
  { rewrite omap_app, Mb. simpl. by rewrite Mbc. }
  rewrite !(omap_app _ (announce log_level verbose prev st)),
    !(omap_app _ (mid ++ [c])).
  rewrite !(filter_app _ (announce log_level verbose prev st)),
    !(filter_app _ (mid ++ [c])).
  rewrite !length_app.
  rewrite Ab, Ap, As, Al, Ac, Mb', Mp, Ml, Mc, Ms, Tl, Tc, Ts.
  cbn [app map length].
  set (observed := status info :: map status (omap built_of t)) in *.
  set (entered := match r with
                  | Some _ => filter nonterminal observed
                  | None => removelast observed
                  end) in *.
  assert (match r with
          | Some _ => filter nonterminal (st :: observed)
          | None => removelast (st :: observed)
          end = st :: entered) as ->.
  { unfold entered. destruct r; [|done].
    by rewrite (filter_cons_True nonterminal st). }
  simpl.
  split; [by destruct (py_eq st prev)|].
  split; [by destruct (py_eq st prev), verbose|].
  split; [done|].
  destruct r as [[s|e]|].
  - destruct Tr as ((sts & Eobs & Fsts) & Hs & Hlen).
    split; [|split; [done|congruence]].
    exists (st :: sts). split; [by rewrite Eobs|by constructor].
  - destruct Tr as (Fobs & Hlen).
    split; [by constructor|congruence].
  - destruct Tr as (Fobs & Hlen).
    split; [by constructor|congruence].
Qed.

(** The contract of the loop, for every fuel. *)
Lemma run_wait_spec fuel : ∀ prev st w,
  wait_post log_level verbose prev st w
    (world_of (run_wait env validate fuel log_level verbose task prev st w))
    (result_of (run_wait env validate fuel log_level verbose task prev st w)).
Proof.
  induction fuel as [|fuel IH]; intros prev st w.
  all: destruct (is_terminal st) eqn:Hst.
  1, 3: rewrite run_wait_terminal by done; by apply wait_post_terminal.
  { simpl. rewrite Hst. by apply wait_post_running. }
  rewrite run_wait_unfold by done. cbv zeta.
  destruct (env _ _ (HttpGet (task_url task))) as [resp|e] eqn:Hget.
  - destruct (resp !! "mode_solver") eqn:Hdup.
    + eapply (wait_post_fail _ _ _ _ [_; _]);
        [exact Hst|unfold log_event; simpl; by rewrite <- ?app_assoc|done..].
    + destruct (construct_with validate Extra_allow _) as [info|] eqn:Hc.
      * refine (wait_post_step _ _ _ _ _ [_; _] _ _ _ Hst _ _ _ _ _ _ _ _ _ _
                  (IH _ _ _));
          [unfold log_event; simpl; by rewrite <- ?app_assoc|done..].
      * eapply (wait_post_fail _ _ _ _ [_; _; _]);
          [exact Hst|unfold log_event; simpl; by rewrite <- ?app_assoc|done..].
  - eapply (wait_post_fail _ _ _ _ [_; _]);
      [exact Hst|unfold log_event; simpl; by rewrite <- ?app_assoc|done..].
Qed.

(** More fuel does not change the result of a loop that is done. *)
Lemma run_wait_fuel_mono (fuel : nat) : ∀ (fuel' : nat) prev st w r w',
  run_wait env validate fuel log_level verbose task prev st w = Done r w' →
  (fuel ≤ fuel')%nat →
  run_wait env validate fuel' log_level verbose task prev st w = Done r w'.
Proof.
  induction fuel as [|fuel IH]; intros fuel' prev st w r w' Hrun Hle.
  all: destruct (is_terminal st) eqn:Hst.
  1, 3: rewrite run_wait_terminal in * by done; done.
  { simpl in Hrun. by rewrite Hst in Hrun. }
  destruct fuel' as [|fuel']; [lia|].
  rewrite run_wait_unfold in * by done. cbv zeta in *.
  destruct (env _ _ (HttpGet (task_url task))) as [resp|e]; [|done].
  destruct (resp !! "mode_solver"); [done|].
  destruct (construct_with validate Extra_allow _); [|done].
  apply IH; [done|lia].
Qed.

(** The loop is still running after [fuel] iterations only if it made
    [fuel] requests, and each was answered with a record. *)
Lemma run_wait_running (fuel : nat) : ∀ prev st w w',
  run_wait env validate fuel log_level verbose task prev st w = Running w' →
  ∃ t, trace w' = trace w ++ t
       ∧ length (polls t) = fuel ∧ length (built t) = fuel.
Proof.
  induction fuel as [|fuel IH]; intros prev st w w' Hrun.
  all: destruct (is_terminal st) eqn:Hst.
  1, 3: by rewrite run_wait_terminal in Hrun.
  { simpl in Hrun. rewrite Hst in Hrun. injection Hrun as <-.
    exists []. by rewrite app_nil_r. }
  rewrite run_wait_unfold in Hrun by done. cbv zeta in Hrun.
  destruct (env _ _ (HttpGet (task_url task))) as [resp|e] eqn:Hget; [|done].
  destruct (resp !! "mode_solver"); [done|].
  destruct (construct_with validate Extra_allow _) as [info|] eqn:Hc; [|done].
  apply IH in Hrun as (t & Et & Hp & Hb).
  destruct (announce_quiet prev st) as (_ & Ab & Ap & _).
  eexists (announce log_level verbose prev st ++ [_; _; _] ++ t).
  split; [rewrite Et; unfold log_event; simpl; by rewrite <- !app_assoc|].
  unfold polls, built in *. rewrite !omap_app, !length_app, Ab, Ap. simpl.
  by rewrite Hp, Hb.
Qed.

Lemma announce_no_error_line prev st :
  error_lines (announce log_level verbose prev st) = [].
Proof. unfold announce. by destruct (py_eq st prev), verbose. Qed.

(** The loop writes nothing with [log.error]. *)
Lemma run_wait_no_error_line (fuel : nat) : ∀ prev st w,
  ∃ t, trace (world_of (run_wait env validate fuel log_level verbose task prev st w))
       = trace w ++ t
       ∧ error_lines t = [].
Proof.
  induction fuel as [|fuel IH]; intros prev st w.
  all: destruct (is_terminal st) eqn:Hst.
  1, 3: rewrite run_wait_terminal by done; exists []; by rewrite app_nil_r.
  { simpl. rewrite Hst. exists []. by rewrite app_nil_r. }
  rewrite run_wait_unfold by done. cbv zeta.
  pose proof (announce_no_error_line prev st) as Ha.
  destruct (env _ _ (HttpGet (task_url task))) as [resp|e] eqn:Hget.
  - destruct (resp !! "mode_solver") eqn:Hdup.
    + eexists (announce log_level verbose prev st ++ [_; _]).
      split; [simpl; by rewrite <- ?app_assoc|].
      unfold error_lines in *. by rewrite omap_app, Ha.
    + destruct (construct_with validate Extra_allow _) as [info|] eqn:Hc.
      * destruct (IH (if negb (py_eq st prev) then st else prev) (status info)
                    (log_event
                       (Construct (<["mode_solver" := mode_solver task]> resp))
                       (Ok info)
                       (mkWorld
                          ((trace w ++ announce log_level verbose prev st
                            ++ [Ev (Sleep (1 # 2)%Q) (Ok tt)])
                           ++ [Ev (HttpGet (task_url task)) (Ok resp)])
                          (tmpfiles w) (cached w))))
          as (t & Et & Ht).
        eexists (announce log_level verbose prev st ++ [_; _; _] ++ t).
        split; [rewrite Et; unfold log_event; simpl; by rewrite <- ?app_assoc|].
        unfold error_lines in *. by rewrite !omap_app, Ha, Ht.
      * eexists (announce log_level verbose prev st ++ [_; _; _]).
        split; [unfold log_event; simpl; by rewrite <- ?app_assoc|].
        unfold error_lines in *. by rewrite omap_app, Ha.
  - eexists (announce log_level verbose prev st ++ [_; _]).
    split; [simpl; by rewrite <- ?app_assoc|].
    unfold error_lines in *. by rewrite omap_app, Ha.
Qed.

End Wait.

(** ** [run] *)

Section Run.
Variable env : Env.
Variable validate : ftype → pyval → option pyval.
Variable version : string.
Variable enable_caching : pyval.
Variable MODE_MONITOR_NAME : string.

(** *** Before the loop: nothing is downloaded, no cache is written *)

Ltac quiet_step :=
  first
    [ apply steps_bind; [apply _| |intros ?]
    | apply steps_ret, _
    | apply steps_raise, _
    | apply steps_when; [apply _|]
    | apply steps_as_obj, _
    | apply steps_getitem, _
    | apply steps_try_finally; [apply _| |]
    | apply quiet_call; intros; reflexivity
    | apply quiet_emit; reflexivity
    | apply quiet_mkstemp; intros; reflexivity
    | apply quiet_unlink; intros; reflexivity
    | apply quiet_construct_from; intros; reflexivity ].

Lemma create_quiet mode_solver task_name mode_solver_name folder_name :
  steps (quiet no_download)
    (create env validate version mode_solver task_name mode_solver_name folder_name).
Proof. unfold create. repeat quiet_step. Qed.

Lemma upload_quiet self verbose progress_callback :
  steps (quiet no_download) (upload env self verbose progress_callback).
Proof. unfold upload. repeat quiet_step. Qed.

Lemma run_submit_quiet mode_solver task_name mode_solver_name folder_name verbose
    progress_callback_upload reduce_simulation :
  steps (quiet no_download)
    (run_submit env validate version enable_caching mode_solver task_name
       mode_solver_name folder_name verbose progress_callback_upload
       reduce_simulation).
Proof.
  unfold run_submit, submit.
  apply steps_bind; [apply _| |intros reduce].
  { destruct reduce_simulation; repeat quiet_step. }
  apply steps_bind; [apply _| |intros ms].
  { destruct reduce; repeat quiet_step. }
  apply steps_bind; [apply _|apply create_quiet|intros task].
  apply steps_bind; [apply _| |intros _].
  { repeat quiet_step. }
  apply steps_bind; [apply _|apply upload_quiet|intros _].
  repeat quiet_step.
Qed.

Lemma omap_none {A B} (f : A → option B) (t : list A) :
  Forall (λ e, f e = None) t → omap f t = [].
Proof. induction 1 as [|e t He _ IH]; simpl; [done|]. by rewrite He. Qed.

(** *** After the loop: [get_result] polls no more *)

Global Instance grows_preorder : PreOrder grows.
Proof.
  split.
  - intros w. exists []. by rewrite app_nil_r.
  - intros w1 w2 w3 [t1 E1] [t2 E2]. exists (t1 ++ t2).
    by rewrite E2, E1, app_assoc.
Qed.

Lemma grows_call {T} (c : Call T) : steps grows (call env c).
Proof. intros w r w' [= _ <-]. by eexists. Qed.

Lemma grows_emit (c : Call unit) : steps grows (emit c).
Proof. intros w r w' [= _ <-]. by eexists. Qed.

Lemma grows_cache_set ms key v : steps grows (cache_set ms key v).
Proof. intros w r w' [= _ <-]. by eexists. Qed.

Ltac grows_step :=
  first
    [ apply steps_bind; [apply _| |intros ?]
    | apply steps_ret, _
    | apply steps_raise, _
    | apply steps_when; [apply _|]
    | apply steps_as_obj, _
    | apply steps_try_except; [apply _| |intros ?]
    | apply grows_call
    | apply grows_emit
    | apply grows_cache_set ].

Lemma get_result_grows self to_file verbose progress_callback :
  steps grows (get_result env MODE_MONITOR_NAME self to_file verbose progress_callback).
Proof.
  unfold get_result. repeat grows_step.
  destruct a; repeat grows_step.
Qed.

Ltac step_result :=
  match goal with
  | |- context [env ?T ?h ?c] => destruct (env T h c) as [?|?] eqn:?
  | |- context [is_ClientError ?e] => destruct (is_ClientError e) eqn:?
  end; simpl.

(** [get_result] polls no more, builds no record and writes no status
    line. *)
Lemma get_result_no_polling (self : ModeSolverTask) (to_file : string)
    (verbose : bool) (progress_callback : option nat) (w : World) :
  let t := since w (get_result env MODE_MONITOR_NAME self to_file verbose
                      progress_callback w).2 in
  polls t = [] ∧ filter (on_call (@is_Sleep)) t = [] ∧ built t = []
  ∧ log_lines t = [] ∧ omap status_of_msg (console_lines t) = [].
Proof.
  unfold get_result. unfold_M.
  destruct verbose, (mode_solver self); simpl; repeat step_result.
  all: norm_since; done.
Qed.

(** No line that [get_result] writes tells a status: the message of its
    [WebError] is about the download. *)
Lemma get_result_tells_no_status (self : ModeSolverTask) (to_file : string)
    (verbose : bool) (progress_callback : option nat) (w : World) :
  omap told_by (since w (get_result env MODE_MONITOR_NAME self to_file verbose
                           progress_callback w).2) = [].
Proof.
  unfold get_result. unfold_M.
  destruct verbose, (mode_solver self); simpl; repeat step_result.
  all: norm_since; done.
Qed.

(** *** Statuses *)

Lemma terminal_not_nonterminal (s p : pyval) :
  is_terminal s = true → nonterminal p → py_eq s p = false.
Proof.
  intros Hs Hp. destruct (py_eq s p) eqn:Heq; [|done].
  destruct s as [|x| | |]; try done. destruct p as [|y| | |]; try done.
  simpl in Heq. apply bool_decide_eq_true in Heq as ->.
  unfold nonterminal in Hp. congruence.
Qed.

Lemma nonterminal_not_error (s : pyval) : nonterminal s → is_error s = false.
Proof.
  intros Hs. unfold is_error. destruct (py_eq s (PStr "error")) eqn:Heq; [|done].
  apply py_eq_PStr in Heq as ->. done.
Qed.

Lemma filter_nonterminal_all (l : list pyval) :
  Forall nonterminal l →
  filter nonterminal l = l ∧ filter (λ s, is_error s = false) l = l.
Proof.
  induction 1 as [|s l Hs _ [IH1 IH2]]; [done|].
  rewrite (filter_cons_True nonterminal s) by done.
  rewrite (filter_cons_True (λ s, is_error s = false) s)
    by by apply nonterminal_not_error.
  by rewrite IH1, IH2.
Qed.

(** The terminal status that ends the loop is a change of status. *)
Lemma changes_snoc_terminal (prev : pyval) (sts : list pyval) (s : pyval) :
  nonterminal prev → Forall nonterminal sts → is_terminal s = true →
  changes prev (sts ++ [s]) = changes prev sts ++ [s].
Proof.
  intros Hprev Hsts Hs. revert prev Hprev.
  induction Hsts as [|a sts Ha _ IH]; intros prev Hprev; simpl.
  - by rewrite terminal_not_nonterminal.
  - destruct (py_eq a prev); [by apply IH|]. simpl. f_equal. by apply IH.
Qed.

Lemma omap_status_msg (l : list pyval) : omap status_of_msg (map status_msg l) = l.
Proof. induction l as [|s l IH]; simpl; [done|]. by f_equal. Qed.

(** Where nothing is written with [log.error], the statuses told are those
    of the status lines. *)
Lemma told_by_status_lines (t : list Event) (level : string) (l : list pyval) :
  error_lines t = [] →
  log_lines t = map (λ s, (level, status_msg s)) l →
  omap told_by t = l.
Proof.
  revert l. induction t as [|e t IH]; intros l He Hl.
  - by destruct l.
  - destruct e as [T c r].
    destruct c; try (by apply IH); [|discriminate He].
    destruct l as [|s l]; [discriminate Hl|].
    simpl in Hl. injection Hl as -> -> Hl. simpl. f_equal. by apply IH.
Qed.

(** *** The three ends of [run] *)

Section Orchestration.
Variables (fuel : nat) (mode_solver : obj).
Variables (task_name mode_solver_name folder_name results_file : string).
Variables (verbose : bool).
Variables (progress_callback_upload progress_callback_download : option nat).
Variables (reduce_simulation : reduce_mode).

Ltac unfold_run Hsubmit Hwait :=
  unfold run, mbind, P_bind_inst, P_bind, lift; rewrite Hsubmit; simpl;
  rewrite Hwait; simpl.

(** From the call of [run] to the end of the loop. *)
Lemma submit_wait_quiet (w w1 w2 : World) (task : ModeSolverTask)
    (r : option (Result pyval)) (log_level : string) :
  run_submit env validate version enable_caching mode_solver task_name
    mode_solver_name folder_name verbose progress_callback_upload
    reduce_simulation w = (Ok task, w1) →
  wait_post log_level verbose (PStr "draft") (status task) w1 w2 r →
  ∃ t1 t2, trace w1 = trace w ++ t1 ∧ trace w2 = trace w1 ++ t2
           ∧ downloads (t1 ++ t2) = [] ∧ cached w2 = cached w.
Proof.
  intros Hsubmit (t2 & E2 & _ & C2 & D2 & _).
  destruct (run_submit_quiet _ _ _ _ _ _ _ _ _ _ Hsubmit) as [(t1 & E1 & F1) C1].
  exists t1, t2. split; [done|]. split; [done|]. split; [|congruence].
  unfold downloads in *. rewrite omap_app, D2, app_nil_r. by apply omap_none.
Qed.

(** C4. When the task was created, uploaded and submitted, and the loop
    ends at the status ["error"], [run] raises
    [WebError("Error running mode solver.")] right after the loop, and the
    message of the exception, written with [log.error], is all that follows
    the loop: from the call of [run] on, no artifact was downloaded
    ([get_result] was not called), and no payload had its cache written. *)
Theorem run_error_no_download (w w1 w2 : World) (task : ModeSolverTask) :
  run_submit env validate version enable_caching mode_solver task_name
    mode_solver_name folder_name verbose progress_callback_upload
    reduce_simulation w = (Ok task, w1) →
  run_wait env validate fuel (if verbose then "DEBUG" else "INFO") verbose task
    (PStr "draft") (status task) w1 = Done (Ok (PStr "error")) w2 →
  ∃ w',
    run env validate version enable_caching MODE_MONITOR_NAME fuel mode_solver
      task_name mode_solver_name folder_name results_file verbose
      progress_callback_upload progress_callback_download reduce_simulation w
    = Done (Raise (WebError "Error running mode solver.")) w'
    ∧ since w2 w' = [Ev (LogError "Error running mode solver.") (Ok tt)]
    ∧ downloads (since w w') = []
    ∧ cached w' = cached w.
Proof.
  intros Hsubmit Hwait.
  pose proof (run_wait_spec env validate (if verbose then "DEBUG" else "INFO")
                verbose task fuel (PStr "draft") (status task) w1) as Hpost.
  rewrite Hwait in Hpost. simpl in Hpost.
  destruct (submit_wait_quiet _ _ _ _ _ _ Hsubmit Hpost)
    as (t1 & t2 & E1 & E2 & D & C).
  exists (log_event (LogError "Error running mode solver.") (Ok tt) w2).
  split; [by unfold_run Hsubmit Hwait|].
  split; [apply since_log_event|].
  split; [|done].
  erewrite since_app.
  2: { simpl; rewrite E2, E1, <- ?app_assoc; reflexivity. }
  unfold downloads in *. rewrite !omap_app in *.
  by apply app_eq_nil in D as [-> ->].
Qed.

(** C5. When the task was created, uploaded and submitted, and the loop
    ends at the status ["diverged"] or ["deleted"], [run] writes the status
    line and returns [None]: from the call of [run] on, no artifact was
    downloaded ([get_result] was not called) and no payload had its cache
    written.  A call of [get_result] on the record, then, starts with the
    download of the compressed result: nothing stands in the way of a new
    attempt. *)
Theorem run_no_result (w w1 w2 : World) (task : ModeSolverTask) (st : pyval) :
  run_submit env validate version enable_caching mode_solver task_name
    mode_solver_name folder_name verbose progress_callback_upload
    reduce_simulation w = (Ok task, w1) →
  run_wait env validate fuel (if verbose then "DEBUG" else "INFO") verbose task
    (PStr "draft") (status task) w1 = Done (Ok st) w2 →
  st = PStr "diverged" ∨ st = PStr "deleted" →
  ∃ w',
    run env validate version enable_caching MODE_MONITOR_NAME fuel mode_solver
      task_name mode_solver_name folder_name results_file verbose
      progress_callback_upload progress_callback_download reduce_simulation w
    = Done (Ok PNone) w'
    ∧ since w2 w' =
        Ev (LogLog (if verbose then "DEBUG" else "INFO") (status_msg st)) (Ok tt)
        :: (if verbose then [Ev (ConsoleLog (status_msg st)) (Ok tt)] else [])
    ∧ downloads (since w w') = []
    ∧ cached w' = cached w
    ∧ ∀ to_file verbose' progress_callback, ∃ r1,
        head (since w' (get_result env MODE_MONITOR_NAME task to_file verbose'
                          progress_callback w').2)
        = Some (Ev (DownloadGzFile (solver_id task) MODESOLVER_RESULT_GZ
                      (UserPath to_file) verbose' progress_callback) r1).
Proof.
  intros Hsubmit Hwait Hst.
  pose proof (run_wait_spec env validate (if verbose then "DEBUG" else "INFO")
                verbose task fuel (PStr "draft") (status task) w1) as Hpost.
  rewrite Hwait in Hpost. simpl in Hpost.
  destruct (submit_wait_quiet _ _ _ _ _ _ Hsubmit Hpost)
    as (t1 & t2 & E1 & E2 & D & C).
  exists (mkWorld
            (trace w2 ++
             Ev (LogLog (if verbose then "DEBUG" else "INFO") (status_msg st)) (Ok tt)
             :: (if verbose then [Ev (ConsoleLog (status_msg st)) (Ok tt)] else []))
            (tmpfiles w2) (cached w2)).
  split.
  { unfold_run Hsubmit Hwait. unfold_M. unfold log_event.
    destruct Hst as [-> | ->]; simpl; destruct verbose; simpl;
      by rewrite <- ?app_assoc. }
  split; [by apply since_app|].
  split; [|split; [done|]].
  - erewrite since_app.
    2: { simpl; rewrite E2, E1, <- ?app_assoc; reflexivity. }
    unfold downloads in *. rewrite !omap_app in *.
    apply app_eq_nil in D as [-> ->]. by destruct verbose.
  - intros. apply get_result_starts_with_download.
Qed.

(** After a loop that ended at the terminal status [s], with [tail] the
    events that follow it. *)
Lemma polling_finish (w1 w' : World) (task : ModeSolverTask) (tw tail : list Event)
    (sts : list pyval) (s : pyval) :
  trace w' = trace w1 ++ tw ++ tail →
  stops_at_terminal (status task) tw →
  log_lines tw =
    map (λ s, (if verbose then "DEBUG" else "INFO", status_msg s))
      (changes (PStr "draft") sts) →
  console_lines tw =
    (if verbose then map status_msg (changes (PStr "draft") sts) else []) →
  error_lines tw = [] →
  length (filter (on_call (@is_Sleep)) tw) = length (polls tw) →
  length (polls tw) = length (built tw) →
  status task :: map status (built tw) = sts ++ [s] →
  Forall nonterminal sts → is_terminal s = true →
  polls tail = [] → filter (on_call (@is_Sleep)) tail = [] → built tail = [] →
  log_lines tail =
    (if is_error s then []
     else [(if verbose then "DEBUG" else "INFO", status_msg s)]) →
  omap status_of_msg (console_lines tail) =
    (if is_error s then [] else if verbose then [s] else []) →
  omap told_by tail = [s] →
  let t := since w1 w' in
  let observed := status task :: map status (built t) in
  let announced :=
    changes (PStr "draft") (filter (λ s, is_error s = false) observed) in
  (∃ sts s, observed = sts ++ [s] ∧ Forall nonterminal sts
            ∧ is_terminal s = true ∧ length (polls t) = length sts)
  ∧ length (filter (on_call (@is_Sleep)) t) = length (polls t)
  ∧ stops_at_terminal (status task) t
  ∧ omap told_by t = changes (PStr "draft") observed
  ∧ log_lines t =
      map (λ s, (if verbose then "DEBUG" else "INFO", status_msg s)) announced
  ∧ omap status_of_msg (console_lines t) = (if verbose then announced else []).
Proof.
  intros Et Hstop Hlog Hcon Herr Hsl Hpb Hobs Hsts Hs Tp Ts Tb Tl Tc Tt.
  rewrite (since_app _ _ _ Et). cbv zeta.
  assert (length (polls (tw ++ tail)) = length sts) as Hlen.
  { unfold polls in *. rewrite omap_app, Tp, app_nil_r, Hpb.
    apply (f_equal length) in Hobs. rewrite length_app in Hobs. simpl in Hobs.
    rewrite length_map in Hobs. lia. }
  assert (omap told_by (tw ++ tail) = changes (PStr "draft") (sts ++ [s])) as Htold.
  { rewrite omap_app, Tt, (told_by_status_lines _ _ _ Herr Hlog).
    by rewrite changes_snoc_terminal. }
  unfold built in *. rewrite omap_app, Tb, app_nil_r, Hobs.
  split; [by exists sts, s|].
  split.
  { unfold polls in *. by rewrite filter_app, Ts, omap_app, Tp, !app_nil_r. }
  split; [apply stops_app; try done; by unfold built|].
  split; [exact Htold|].
  unfold log_lines, console_lines in *.
  rewrite !omap_app, Hlog, Hcon, Tl, Tc, filter_app.
  rewrite (proj2 (filter_nonterminal_all _ Hsts)).
  destruct (is_error s) eqn:Heq.
  - rewrite (filter_cons_False _ s) by congruence.
    rewrite filter_nil, !app_nil_r.
    split; [done|]. destruct verbose; [apply omap_status_msg|done].
  - rewrite (filter_cons_True _ s) by done. rewrite filter_nil.
    rewrite changes_snoc_terminal by done.
    split; [by rewrite map_app|].
    destruct verbose; [|done]. by rewrite omap_status_msg.
Qed.

(** C1. When the task was created, uploaded and submitted, and [run] is
    done (it returned or raised), then from the submission on:

    - polling lasts until a terminal status is seen: the statuses observed
      (that of the record created, then that of each record built from a
      poll) are statuses that are not terminal followed by one that is,
      with one poll for each of the former; or else a poll failed, [run]
      raised, and every status observed was not terminal and was followed
      by a poll;
    - there are as many sleeps as polls, and no request and no sleep
      follow the observation of a terminal status;
    - the statuses that the lines of the log tell, in order, are the
      statuses observed that differ from the one before (["draft"] to begin
      with): one line for each change of status, none for a status seen
      again;
    - the line for a change is a status line written with [log.log], but
      for the change to ["error"], which is told by the message of the
      [WebError] that [run] raises, written with [log.error]; with
      [verbose], the status lines go to the console too. *)
Theorem run_polling (w w1 w' : World) (task : ModeSolverTask) (r : Result pyval) :
  run_submit env validate version enable_caching mode_solver task_name
    mode_solver_name folder_name verbose progress_callback_upload
    reduce_simulation w = (Ok task, w1) →
  run env validate version enable_caching MODE_MONITOR_NAME fuel mode_solver
    task_name mode_solver_name folder_name results_file verbose
    progress_callback_upload progress_callback_download reduce_simulation w
  = Done r w' →
  let t := since w1 w' in
  let observed := status task :: map status (built t) in
  let announced :=
    changes (PStr "draft") (filter (λ s, is_error s = false) observed) in
  ((∃ sts s, observed = sts ++ [s] ∧ Forall nonterminal sts
             ∧ is_terminal s = true ∧ length (polls t) = length sts)
   ∨ (Forall nonterminal observed ∧ length (polls t) = length observed
      ∧ ∃ e, r = Raise e))
  ∧ length (filter (on_call (@is_Sleep)) t) = length (polls t)
  ∧ stops_at_terminal (status task) t
  ∧ omap told_by t = changes (PStr "draft") observed
  ∧ log_lines t =
      map (λ s, (if verbose then "DEBUG" else "INFO", status_msg s)) announced
  ∧ omap status_of_msg (console_lines t) = (if verbose then announced else []).
Proof.
  intros Hsubmit Hrun.
  unfold run, mbind, P_bind_inst, P_bind, lift in Hrun.
  rewrite Hsubmit in Hrun. simpl in Hrun.
  pose proof (run_wait_spec env validate (if verbose then "DEBUG" else "INFO")
                verbose task fuel (PStr "draft") (status task) w1) as Hpost.
  pose proof (run_wait_no_error_line env validate
                (if verbose then "DEBUG" else "INFO") verbose task fuel
                (PStr "draft") (status task) w1) as (te & Ee & Herr).
  destruct (run_wait _ _ _ _ _ _ _ _ _) as [[s|e] w2|w2] eqn:Hwait; [| |done].
  all: destruct Hpost as (tw & Ew & _ & _ & _ & Hstop & Hlog & Hcon & Hsl & Hend).
  all: cbv zeta in Hlog, Hcon, Hsl; simpl in Hlog, Hcon, Hend, Ew, Ee.
  all: assert (te = tw) as -> by (rewrite Ew in Ee; by apply app_inv_head in Ee).
  - destruct Hend as ((sts & Hobs & Hsts) & Hs & Hpb).
    rewrite Hobs in Hlog, Hcon.
    rewrite filter_app, (proj1 (filter_nonterminal_all _ Hsts)) in Hlog, Hcon.
    rewrite (filter_cons_False nonterminal s) in Hlog, Hcon
      by (unfold nonterminal; congruence).
    rewrite filter_nil, app_nil_r in Hlog, Hcon.
    fold (is_error s) in Hrun.
    destruct (is_error s) eqn:Heq.
    { assert (s = PStr "error") as Hs' by by apply py_eq_PStr.
      unfold_M. unfold log_event in Hrun. injection Hrun as <- <-.
      split; [left|];
        eapply (polling_finish _ _ _ tw
                  [Ev (LogError "Error running mode solver.") (Ok tt)]);
        rewrite ?Heq; try done.
      all: try (simpl; by rewrite Ew, <- ?app_assoc).
      all: by rewrite Hs'. }
    set (final := Ev (LogLog (if verbose then "DEBUG" else "INFO") (status_msg s))
                    (Ok tt)
                  :: (if verbose then [Ev (ConsoleLog (status_msg s)) (Ok tt)]
                      else [])).
    set (w3 := mkWorld (trace w2 ++ final) (tmpfiles w2) (cached w2)).
    assert (when verbose (emit (ConsoleLog [Lit "Mode solver status: "; Val s]))
              (log_event (LogLog (if verbose then "DEBUG" else "INFO")
                            [Lit "Mode solver status: "; Val s]) (Ok tt) w2)
            = (Ok tt, w3)) as Hfinal.
    { unfold w3, final. unfold_M. unfold log_event.
      destruct verbose; simpl; by rewrite <- ?app_assoc. }
    rewrite Hfinal in Hrun. unfold mret, P_ret, lift, ret in Hrun.
    assert (polls final = [] ∧ filter (on_call (@is_Sleep)) final = []
            ∧ built final = []
            ∧ log_lines final =
                [(if verbose then "DEBUG" else "INFO", status_msg s)]
            ∧ omap status_of_msg (console_lines final) =
                (if verbose then [s] else [])
            ∧ omap told_by final = [s]) as (Fp & Fs & Fb & Fl & Fc & Ft).
    { unfold final. by destruct verbose. }
    destruct (negb (py_eq s (PStr "success"))).
    { injection Hrun as <- <-.
      split; [left|];
        eapply (polling_finish _ _ _ tw final); rewrite ?Heq; try done.
      all: simpl; by rewrite Ew, <- !app_assoc. }
    pose proof (get_result_no_polling task results_file verbose
                  progress_callback_download w3) as Hg.
    pose proof (get_result_tells_no_status task results_file verbose
                  progress_callback_download w3) as Gt.
    destruct (get_result _ _ _ _ _ _ _) as [rg w4] eqn:Hres.
    cbv zeta in Hg. simpl in Hg, Gt.
    destruct Hg as (Gp & Gs & Gb & Gl & Gc).
    assert (∃ tg, trace w4 = trace w3 ++ tg ∧ since w3 w4 = tg)
      as (tg & Eg & Hsince).
    { destruct (get_result_grows _ _ _ _ _ _ _ Hres) as [tg Eg].
      exists tg. split; [done|]. by apply since_app. }
    rewrite Hsince in *.
    assert (w' = w4) as ->.
    { destruct rg; by injection Hrun as _ <-. }
    assert (polls (final ++ tg) = []) as Tp
      by (unfold polls in *; by rewrite omap_app, Fp, Gp).
    assert (filter (on_call (@is_Sleep)) (final ++ tg) = []) as Ts
      by by rewrite filter_app, Fs, Gs.
    assert (built (final ++ tg) = []) as Tb
      by (unfold built in *; by rewrite omap_app, Fb, Gb).
    assert (log_lines (final ++ tg)
            = [(if verbose then "DEBUG" else "INFO", status_msg s)]) as Tl
      by (unfold log_lines in *; by rewrite omap_app, Fl, Gl).
    assert (omap status_of_msg (console_lines (final ++ tg))
            = (if verbose then [s] else [])) as Tc
      by (unfold console_lines in *; by rewrite !omap_app, Fc, Gc, app_nil_r).
    assert (omap told_by (final ++ tg) = [s]) as Tt
      by by rewrite omap_app, Ft, Gt.
    split; [left|];
      eapply (polling_finish _ _ _ tw (final ++ tg)); rewrite ?Heq; try done.
    all: rewrite Eg; simpl; by rewrite Ew, <- !app_assoc.
  - destruct Hend as (Hobs & Hpb). injection Hrun as <- <-.
    rewrite (since_app _ _ _ Ew). cbv zeta.
    destruct (filter_nonterminal_all _ Hobs) as [F1 F2].
    rewrite F1 in Hlog, Hcon. rewrite F2.
    split.
    { right. split; [done|]. split; [|by eexists].
      simpl. by rewrite length_map. }
    split; [done|]. split; [done|].
    split; [by eapply told_by_status_lines|].
    split; [done|]. rewrite Hcon.
    destruct verbose; [apply omap_status_msg|done].
Qed.

(** X17. [run] that is still running after [fuel] iterations of the loop:
    it made [fuel] requests, one in each iteration, all the statuses it saw
    are not terminal, and the lines it has written are the changes among
    them, the last one not yet looked at. *)
Lemma run_running (w w1 w' : World) (task : ModeSolverTask) :
  run_submit env validate version enable_caching mode_solver task_name
    mode_solver_name folder_name verbose progress_callback_upload
    reduce_simulation w = (Ok task, w1) →
  run env validate version enable_caching MODE_MONITOR_NAME fuel mode_solver
    task_name mode_solver_name folder_name results_file verbose
    progress_callback_upload progress_callback_download reduce_simulation w
  = Running w' →
  let t := since w1 w' in
  let observed := status task :: map status (built t) in
  length (polls t) = fuel
  ∧ Forall nonterminal observed
  ∧ stops_at_terminal (status task) t
  ∧ log_lines t =
      map (λ s, (if verbose then "DEBUG" else "INFO", status_msg s))
        (changes (PStr "draft") (removelast observed)).
Proof.
  intros Hsubmit Hrun.
  unfold run, mbind, P_bind_inst, P_bind, lift in Hrun.
  rewrite Hsubmit in Hrun. simpl in Hrun.
  pose proof (run_wait_spec env validate (if verbose then "DEBUG" else "INFO")
                verbose task fuel (PStr "draft") (status task) w1) as Hpost.
  destruct (run_wait _ _ _ _ _ _ _ _ _) as [[s|e] w2|w2] eqn:Hwait; [|done|].
  - exfalso. destruct (py_eq s (PStr "error")); [done|].
    unfold_M. simpl in Hrun.
    destruct verbose, (negb (py_eq s (PStr "success"))); simpl in Hrun;
      try done.
    all: destruct (get_result _ _ _ _ _ _ _) as [[?|?] ?]; done.
  - injection Hrun as <-.
    destruct (run_wait_running _ _ _ _ _ _ _ _ _ _ Hwait) as (t' & Et' & Hp & _).
    destruct Hpost as (t & Et & _ & _ & _ & Hstop & Hlog & _ & _ & Hobs & _).
    simpl in Et. rewrite (since_app _ _ _ Et). cbv zeta.
    assert (t' = t) as -> by (rewrite Et in Et'; by apply app_inv_head in Et').
    done.
Qed.

End Orchestration.
End Run.


(** ** The scripted server at work *)

Lemma pair_eta_fst {A B} (p : A * B) (a : A) : p.1 = a → p = (a, p.2).
Proof. intros <-. by destruct p. Qed.

Lemma outcome_eta {A} (o : Outcome A) (r : Result A) :
  result_of o = Some r → o = Done r (world_of o).
Proof. destruct o; simpl; [by intros [= ->]|done]. Qed.

(** The statuses [queued], [error]: [run] raises, nothing is downloaded. *)
Lemma run_error_no_download_witness :
  Scenario.start ["queued"; "error"]
    = (Ok Scenario.task7, (Scenario.start ["queued"; "error"]).2)
  ∧ Scenario.wait ["queued"; "error"]
    = Done (Ok (PStr "error")) (world_of (Scenario.wait ["queued"; "error"]))
  ∧ ∃ w', Scenario.whole ["queued"; "error"]
          = Done (Raise (WebError "Error running mode solver.")) w'
          ∧ since (world_of (Scenario.wait ["queued"; "error"])) w'
            = [Ev (LogError "Error running mode solver.") (Ok tt)]
          ∧ downloads (since Scenario.w0 w') = [].
Proof.
  assert (Scenario.start ["queued"; "error"]
          = (Ok Scenario.task7, (Scenario.start ["queued"; "error"]).2)) as H1
    by (apply pair_eta_fst; vm_compute; reflexivity).
  assert (Scenario.wait ["queued"; "error"]
          = Done (Ok (PStr "error")) (world_of (Scenario.wait ["queued"; "error"])))
    as H2 by (apply outcome_eta; vm_compute; reflexivity).
  destruct (run_error_no_download (Scenario.server true false ["queued"; "error"])
              Scenario.accept "2.6.0" (PBool true) "mode_solver_data" 10 7
              "Untitled" "mode_solver" "Mode Solver" "mode_solver.hdf5" false
              None None Auto Scenario.w0 (Scenario.start ["queued"; "error"]).2
              (world_of (Scenario.wait ["queued"; "error"])) Scenario.task7 H1 H2)
    as (w' & R1 & R2 & R3 & _).
  split; [exact H1|]. split; [exact H2|].
  exists w'. split; [exact R1|]. split; [exact R2|exact R3].
Defined.

(** The statuses [running], [deleted]: [run] returns [None], nothing is
    downloaded, no cache is written. *)
Lemma run_no_result_witness :
  Scenario.start ["running"; "deleted"]
    = (Ok Scenario.task7, (Scenario.start ["running"; "deleted"]).2)
  ∧ Scenario.wait ["running"; "deleted"]
    = Done (Ok (PStr "deleted")) (world_of (Scenario.wait ["running"; "deleted"]))
  ∧ ∃ w', Scenario.whole ["running"; "deleted"] = Done (Ok PNone) w'
          ∧ downloads (since Scenario.w0 w') = []
          ∧ cached w' = ∅.
Proof.
  assert (Scenario.start ["running"; "deleted"]
          = (Ok Scenario.task7, (Scenario.start ["running"; "deleted"]).2)) as H1
    by (apply pair_eta_fst; vm_compute; reflexivity).
  assert (Scenario.wait ["running"; "deleted"]
          = Done (Ok (PStr "deleted"))
              (world_of (Scenario.wait ["running"; "deleted"])))
    as H2 by (apply outcome_eta; vm_compute; reflexivity).
  split; [exact H1|]. split; [exact H2|].
  destruct (run_no_result (Scenario.server true false ["running"; "deleted"])
              Scenario.accept "2.6.0" (PBool true) "mode_solver_data" 10 7
              "Untitled" "mode_solver" "Mode Solver" "mode_solver.hdf5" false
              None None Auto Scenario.w0 (Scenario.start ["running"; "deleted"]).2
              (world_of (Scenario.wait ["running"; "deleted"])) Scenario.task7
              (PStr "deleted") H1 H2 (or_intror eq_refl))
    as (w' & R1 & _ & R2 & R3 & _).
  exists w'. split; [exact R1|]. split; [exact R2|exact R3].
Defined.

(** Five polls in a row answer [running]: one line for them, and the seven
    polls end with the one that answers [success]. *)
Lemma run_polling_witness :
  Scenario.start Scenario.five_running
    = (Ok Scenario.task7, (Scenario.start Scenario.five_running).2)
  ∧ Scenario.whole Scenario.five_running
    = Done (Ok (PObj 53)) (world_of (Scenario.whole Scenario.five_running))
  ∧ length (polls (since (Scenario.start Scenario.five_running).2
                     (world_of (Scenario.whole Scenario.five_running)))) = 7
  ∧ omap told_by (since (Scenario.start Scenario.five_running).2
                    (world_of (Scenario.whole Scenario.five_running)))
    = [PStr "queued"; PStr "running"; PStr "success"]
  ∧ log_lines (since (Scenario.start Scenario.five_running).2
                 (world_of (Scenario.whole Scenario.five_running)))
    = [("INFO", status_msg (PStr "queued"));
       ("INFO", status_msg (PStr "running"));
       ("INFO", status_msg (PStr "success"))].
Proof.
  assert (Scenario.start Scenario.five_running
          = (Ok Scenario.task7, (Scenario.start Scenario.five_running).2))
    as H1 by (apply pair_eta_fst; vm_compute; reflexivity).
  assert (Scenario.whole Scenario.five_running
          = Done (Ok (PObj 53)) (world_of (Scenario.whole Scenario.five_running)))
    as H2 by (apply outcome_eta; vm_compute; reflexivity).
  split; [exact H1|]. split; [exact H2|]. split; [vm_compute; reflexivity|].
  destruct (run_polling (Scenario.server true false Scenario.five_running)
              Scenario.accept "2.6.0" (PBool true) "mode_solver_data" 10 7
              "Untitled" "mode_solver" "Mode Solver" "mode_solver.hdf5" false
              None None Auto Scenario.w0 (Scenario.start Scenario.five_running).2
              (world_of (Scenario.whole Scenario.five_running)) Scenario.task7
              (Ok (PObj 53)) H1 H2)
    as (_ & _ & _ & Rt & Rl & _).
  split.
  - etrans; [exact Rt|]. vm_compute. reflexivity.
  - etrans; [exact Rl|]. vm_compute. reflexivity.
Defined.

(** The status goes from [queued] to [error]: one status line for the
    first change, and for the second the message of the [WebError], which
    is the one thing written after the loop. *)
Example run_error_lines :
  let t := since (Scenario.start ["queued"; "error"]).2
             (world_of (Scenario.whole ["queued"; "error"])) in
  log_lines t = [("INFO", status_msg (PStr "queued"))]
  ∧ error_lines t = ["Error running mode solver."]
  ∧ omap told_by t = [PStr "queued"; PStr "error"]
  ∧ last t = Some (Ev (LogError "Error running mode solver.") (Ok tt)).
Proof. vm_compute. by repeat split. Qed.

(** The record of the scenario, stored as ["Gz"]: the payload is read from
    one compressed archive and written to [to_file]. *)
Lemma get_modesolver_branches_witness :
  (get_modesolver (Scenario.server true true []) Scenario.task7
     "mode_solver.hdf5" "simulation.hdf5" false None Scenario.w0).1 = Ok 40
  ∧ file_type Scenario.task7 = PStr "Gz"
  ∧ ∃ p, since Scenario.w0
           (get_modesolver (Scenario.server true true []) Scenario.task7
              "mode_solver.hdf5" "simulation.hdf5" false None Scenario.w0).2 =
         [Ev (Mkstemp ".hdf5.gz") (Ok (TmpPath 0 ".hdf5.gz"));
          Ev (DownloadFile (PStr "s1") MODESOLVER_GZ (TmpPath 0 ".hdf5.gz")
                false None) (Ok p);
          Ev (FromHdf5Gz (TmpPath 0 ".hdf5.gz")) (Ok 40);
          Ev (Unlink (TmpPath 0 ".hdf5.gz")) (Ok tt);
          Ev (ToFile 40 (UserPath "mode_solver.hdf5")) (Ok tt)].
Proof.
  assert ((get_modesolver (Scenario.server true true []) Scenario.task7
             "mode_solver.hdf5" "simulation.hdf5" false None Scenario.w0).1 = Ok 40)
    as Hr by (vm_compute; reflexivity).
  split; [exact Hr|]. split; [reflexivity|].
  pose proof (get_modesolver_branches (Scenario.server true true [])
                Scenario.task7 "mode_solver.hdf5" "simulation.hdf5" false None
                Scenario.w0) as H.
  destruct (get_modesolver _ _ _ _ _ _ _) as [r w'].
  destruct (H 40 Hr) as (Hgz & _). exact (Hgz eq_refl).
Defined.

(** [upload] makes two temporary files, one after the other, and leaves
    none. *)
Example upload_two_temporary_files :
  made_tmp (since Scenario.w0
              (upload (Scenario.server true true []) Scenario.task7 false None
                 Scenario.w0).2)
    = [TmpPath 0 ".hdf5.gz"; TmpPath 0 ".hdf5.gz"]
  ∧ tmpfiles (upload (Scenario.server true true []) Scenario.task7 false None
                Scenario.w0).2 = ∅.
Proof. split; vm_compute; reflexivity. Qed.

(** An error of the "object not found" class is a [ClientError]: the
    fallback the spec asks for is taken. *)
Lemma is_not_found_ClientError (e : exn) :
  is_not_found e = true → is_ClientError e = true.
Proof. by destruct e. Qed.

(** C3 as it is stated fails: the store denies access to the compressed
    result, which is no error of the "object not found" class, and
    [get_result] asks for the uncompressed result all the same. *)
Lemma get_result_falls_back_when_denied :
  ¬ fallback_only_when_not_found (since Scenario.w0 Runs.denied.2).
Proof.
  assert (downloads (since Scenario.w0 Runs.denied.2)
          = [Download true (PStr "s1") MODESOLVER_RESULT_GZ (UserPath "data.hdf5")
               (Raise (ClientError "AccessDenied"));
             Download false (PStr "s1") MODESOLVER_RESULT (UserPath "data.hdf5")
               (Ok (UserPath "data.hdf5"))]) as Hd
    by (vm_compute; reflexivity).
  intros H.
  destruct (H (Download false (PStr "s1") MODESOLVER_RESULT (UserPath "data.hdf5")
                 (Ok (UserPath "data.hdf5"))))
    as (rid & name & file & e & Hhead & Hnf).
  - rewrite Hd. apply elem_of_cons. right. apply elem_of_cons. by left.
  - reflexivity.
  - rewrite Hd in Hhead. injection Hhead as _ _ _ <-. discriminate Hnf.
Qed.

(** What that call did: the data is fetched from the uncompressed result
    and returned. *)
Example get_result_denied :
  Runs.denied.1 = Ok 53
  ∧ is_not_found (ClientError "AccessDenied") = false
  ∧ is_not_found (ClientError "NoSuchKey") = true.
Proof. by vm_compute. Qed.

(** The store has the compressed result: one download. *)
Example get_result_compressed :
  downloads (since Scenario.w0
               (get_result (Scenario.server true true []) "mode_solver_data"
                  Scenario.task7 "data.hdf5" false None Scenario.w0).2)
    = [Download true (PStr "s1") MODESOLVER_RESULT_GZ (UserPath "data.hdf5")
         (Ok (UserPath "data.hdf5"))].
Proof. vm_compute. reflexivity. Qed.

(** The store has no compressed result: the uncompressed one is fetched,
    and the data is cached in the payload. *)
Example get_result_uncompressed :
  downloads (since Scenario.w0
               (get_result (Scenario.server true false []) "mode_solver_data"
                  Scenario.task7 "data.hdf5" false None Scenario.w0).2)
    = [Download true (PStr "s1") MODESOLVER_RESULT_GZ (UserPath "data.hdf5")
         (Raise (ClientError "NoSuchKey"));
       Download false (PStr "s1") MODESOLVER_RESULT (UserPath "data.hdf5")
         (Ok (UserPath "data.hdf5"))]
  ∧ cached (get_result (Scenario.server true false []) "mode_solver_data"
              Scenario.task7 "data.hdf5" false None Scenario.w0).2
    !! (7, "data_raw") = Some (PObj 52).
Proof. split; vm_compute; reflexivity. Qed.

(** A record stored as JSON: two downloads, the simulation put into the
    dictionary, the payload written to [to_file]. *)
Example get_modesolver_json :
  since Scenario.w0
    (get_modesolver (Scenario.server true true [])
       (mkModeSolverTask (PStr "t1") (PStr "s1") PNone PNone (PStr "success")
          (PStr "Json") PNone ∅)
       "mode_solver.hdf5" "simulation.hdf5" false None Scenario.w0).2
  = [Ev (Mkstemp ".json") (Ok (TmpPath 0 ".json"));
     Ev (DownloadFile (PStr "s1") MODESOLVER_JSON (TmpPath 0 ".json") false None)
        (Ok (TmpPath 0 ".json"));
     Ev (DictFromJson (TmpPath 0 ".json")) (Ok {[ "plane" := PInt 3 ]});
     Ev (Unlink (TmpPath 0 ".json")) (Ok tt);
     Ev (DownloadFile (PStr "t1") SIMULATION_JSON (UserPath "simulation.hdf5")
           false None) (Ok (UserPath "simulation.hdf5"));
     Ev (SimulationFromJson (UserPath "simulation.hdf5")) (Ok 42);
     Ev (ParseObj (<["simulation" := PObj 42]> {[ "plane" := PInt 3 ]})) (Ok 43);
     Ev (ToFile 43 (UserPath "mode_solver.hdf5")) (Ok tt)].
Proof. vm_compute. reflexivity. Qed.

(** Three iterations are not enough for a task that needs seven polls:
    [run] is still running, three requests made. *)
Example run_out_of_fuel :
  result_of
    (run (Scenario.server true false Scenario.five_running) Scenario.accept
       "2.6.0" (PBool true) "mode_solver_data" 3 7 "Untitled" "mode_solver"
       "Mode Solver" "mode_solver.hdf5" false None None Auto Scenario.w0) = None
  ∧ length (polls (trace (world_of
      (run (Scenario.server true false Scenario.five_running) Scenario.accept
         "2.6.0" (PBool true) "mode_solver_data" 3 7 "Untitled" "mode_solver"
         "Mode Solver" "mode_solver.hdf5" false None None Auto Scenario.w0)))) = 3.
Proof. split; vm_compute; reflexivity. Qed.

(** Five statuses [draft] in a row, then [diverged]: the only line is the
    one for [diverged]. *)
Example run_draft_is_no_change :
  log_lines (trace (world_of
    (Scenario.whole ["draft"; "draft"; "draft"; "draft"; "draft"; "diverged"])))
  = [("INFO", status_msg (PStr "diverged"))].
Proof. vm_compute. reflexivity. Qed.

(** * More properties of the module *)

(** ** What a computation emits *)

Lemma omap_Forall {A B} (f : A → option B) (Q : A → Prop) (P : B → Prop)
    (t : list A) :
  (∀ e x, Q e → f e = Some x → P x) → Forall Q t → Forall P (omap f t).
Proof.
  intros H. induction 1 as [|e t He _ IH]; simpl; [constructor|].
  destruct (f e) as [x|] eqn:Hx; [|done]. constructor; [|done]. by eapply H.
Qed.

Lemma omap_Forall_nil {A B} (f : A → option B) (Q : A → Prop) (t : list A) :
  (∀ e, Q e → f e = None) → Forall Q t → omap f t = [].
Proof.
  intros H F. apply omap_none. eapply Forall_impl; [exact F|]. exact H.
Qed.

Section Emits.
Variable env : Env.
Variable Q : Event → Prop.

Global Instance emits_preorder : PreOrder (emits Q).
Proof.
  split.
  - intros w. exists []. rewrite app_nil_r. by split.
  - intros w1 w2 w3 (t1 & E1 & F1) (t2 & E2 & F2). exists (t1 ++ t2).
    rewrite E2, E1, app_assoc. split; [done|]. by apply Forall_app.
Qed.

Lemma emits_log_event {T} (c : Call T) (r : Result T) (w : World) :
  Q (Ev c r) → emits Q w (log_event c r w).
Proof. intros H. exists [Ev c r]. split; [done|]. by constructor. Qed.

Lemma emits_call {T} (c : Call T) : (∀ r, Q (Ev c r)) → steps (emits Q) (call env c).
Proof. intros H w r w' [= _ <-]. by apply emits_log_event. Qed.

Lemma emits_emit (c : Call unit) : Q (Ev c (Ok tt)) → steps (emits Q) (emit c).
Proof. intros H w r w' [= _ <-]. by apply emits_log_event. Qed.

Lemma emits_construct validate (kw : gmap string pyval) :
  (∀ r, Q (Ev (Construct kw) r)) → steps (emits Q) (construct validate kw).
Proof. intros H w r w' [= _ <-]. by apply emits_log_event. Qed.

Lemma emits_construct_from validate (resp : gmap string pyval) (ms : pyval) :
  (∀ kw r, Q (Ev (Construct kw) r)) →
  steps (emits Q) (construct_from validate resp ms).
Proof.
  intros H. unfold construct_from. destruct (resp !! "mode_solver").
  - apply steps_raise, _.
  - by apply emits_construct.
Qed.

Lemma emits_mkstemp (suffix : string) :
  (∀ p, Q (Ev (Mkstemp suffix) (Ok p))) → steps (emits Q) (mkstemp suffix).
Proof.
  intros H w r w' [= _ <-]. eexists [_]. split; [done|]. by constructor.
Qed.

Lemma emits_unlink (file : path) :
  (∀ r, Q (Ev (Unlink file) r)) → steps (emits Q) (unlink file).
Proof.
  intros H w r w'. unfold unlink. destruct file as [s|n sfx].
  - intros [= _ <-]. by apply emits_log_event.
  - case_bool_decide; intros [= _ <-].
    + eexists [_]. split; [done|]. by constructor.
    + by apply emits_log_event.
Qed.

Lemma emits_cache_set (ms : obj) (key : string) (v : pyval) :
  Q (Ev (CacheSet ms key v) (Ok tt)) → steps (emits Q) (cache_set ms key v).
Proof.
  intros H w r w' [= _ <-]. eexists [_]. split; [done|]. by constructor.
Qed.

End Emits.

Lemma emits_since (Q : Event → Prop) (w w' : World) :
  emits Q w w' → Forall Q (since w w').
Proof. intros (t & E & F). by rewrite (since_app _ _ _ E). Qed.

Lemma emits_impl (Q Q' : Event → Prop) (w w' : World) :
  (∀ e, Q e → Q' e) → emits Q w w' → emits Q' w w'.
Proof.
  intros H (t & E & F). exists t. split; [done|]. by eapply Forall_impl.
Qed.

(** One step through the body of a function of the module; [leaf] proves
    that an event is allowed. *)
Ltac emits_step leaf :=
  first
    [ apply steps_bind; [apply _| |intros ?]
    | apply steps_ret, _
    | apply steps_raise, _
    | apply steps_when; [apply _|]
    | apply steps_as_obj, _
    | apply steps_getitem, _
    | apply steps_try_finally; [apply _| |]
    | apply steps_try_except; [apply _| |intros ?]
    | apply emits_call; intros; leaf
    | apply emits_emit; leaf
    | apply emits_mkstemp; intros; leaf
    | apply emits_unlink; intros; leaf
    | apply emits_construct_from; intros; leaf
    | apply emits_construct; intros; leaf
    | apply emits_cache_set; leaf
    | match goal with
      | |- steps _ (match ?x with _ => _ end) => destruct x
      | |- steps _ (if ?b then _ else _) => destruct b
      end ].

(** ** The loop of [run], event by event *)

Section WaitEmits.
Variable env : Env.
Variable validate : ftype → pyval → option pyval.
Variable log_level : string.
Variable verbose : bool.
Variable task : ModeSolverTask.
Variable Q : Event → Prop.

Hypothesis Q_log : ∀ st, Q (Ev (LogLog log_level (status_msg st)) (Ok tt)).
Hypothesis Q_console :
  verbose = true → ∀ st, Q (Ev (ConsoleLog (status_msg st)) (Ok tt)).
Hypothesis Q_sleep : Q (Ev (Sleep (1 # 2)%Q) (Ok tt)).
Hypothesis Q_get : ∀ r, Q (Ev (HttpGet (task_url task)) r).
Hypothesis Q_construct : ∀ kw r, Q (Ev (Construct kw) r).

Lemma announce_emits prev st : Forall Q (announce log_level verbose prev st).
Proof.
  unfold announce. destruct (negb (py_eq st prev)); [|constructor].
  constructor; [done|]. destruct verbose; [|constructor].
  constructor; [by apply Q_console|constructor].
Qed.

(** The loop does nothing but write status lines, sleep half a second,
    ask for the record of the task, and build the record answered. *)
Lemma run_wait_emits (fuel : nat) : ∀ prev st w,
  emits Q w (world_of (run_wait env validate fuel log_level verbose task prev st w)).
Proof.
  induction fuel as [|fuel IH]; intros prev st w.
  all: destruct (is_terminal st) eqn:Hst.
  1, 3: rewrite run_wait_terminal by done; reflexivity.
  { simpl. rewrite Hst. reflexivity. }
  rewrite run_wait_unfold by done. cbv zeta.
  assert (∀ tail, Forall Q tail →
            emits Q w (mkWorld
              ((trace w ++ announce log_level verbose prev st
                ++ [Ev (Sleep (1 # 2)%Q) (Ok tt)]) ++ tail)
              (tmpfiles w) (cached w))) as Hstep.
  { intros tail Htail. eexists. split; [simpl; by rewrite <- !app_assoc|].
    apply Forall_app. split; [apply announce_emits|].
    by constructor. }
  destruct (env _ _ (HttpGet (task_url task))) as [resp|e] eqn:Hget.
  - destruct (resp !! "mode_solver") eqn:Hdup.
    + apply Hstep. by repeat constructor.
    + destruct (construct_with validate Extra_allow _) as [info|] eqn:Hc.
      * etrans; [|apply IH]. unfold log_event. simpl.
        rewrite <- app_assoc. apply Hstep. by repeat constructor.
      * unfold log_event. simpl. rewrite <- app_assoc.
        apply Hstep. by repeat constructor.
  - apply Hstep. by repeat constructor.
Qed.

End WaitEmits.

(** ** [run], phase by phase *)

Section RunSteps.
Variable env : Env.
Variable validate : ftype → pyval → option pyval.
Variable version : string.
Variable enable_caching : pyval.
Variable MODE_MONITOR_NAME : string.
Variables (mode_solver : obj).
Variables (task_name mode_solver_name folder_name results_file : string).
Variables (verbose : bool).
Variables (progress_callback_upload progress_callback_download : option nat).
Variables (reduce_simulation : reduce_mode).
Context (R : relation World) `{!PreOrder R}.

Variable w : World.

Let submitted (task : ModeSolverTask) : Prop :=
  ∃ w1, run_submit env validate version enable_caching mode_solver task_name
          mode_solver_name folder_name verbose progress_callback_upload
          reduce_simulation w = (Ok task, w1).

Hypothesis R_submit : ∀ r w1,
  run_submit env validate version enable_caching mode_solver task_name
    mode_solver_name folder_name verbose progress_callback_upload
    reduce_simulation w = (r, w1) → R w w1.
Hypothesis R_wait : ∀ task, submitted task → ∀ fuel w1,
  R w1 (world_of (run_wait env validate fuel (if verbose then "DEBUG" else "INFO")
                    verbose task (PStr "draft") (status task) w1)).
Hypothesis R_log : ∀ task, submitted task → ∀ st,
  steps R (emit (LogLog (if verbose then "DEBUG" else "INFO") (status_msg st))).
Hypothesis R_console : ∀ task, submitted task → verbose = true → ∀ st,
  steps R (emit (ConsoleLog (status_msg st))).
Hypothesis R_error : ∀ task, submitted task →
  steps R (emit (LogError "Error running mode solver.")).
Hypothesis R_result : ∀ task, submitted task →
  steps R (get_result env MODE_MONITOR_NAME task results_file verbose
             progress_callback_download).

(** A relation that every phase of [run] keeps is kept by [run], however
    it ends and whatever the number of iterations allowed. *)
Lemma run_steps (fuel : nat) :
  R w (world_of (run env validate version enable_caching MODE_MONITOR_NAME fuel
                   mode_solver task_name mode_solver_name folder_name
                   results_file verbose progress_callback_upload
                   progress_callback_download reduce_simulation w)).
Proof.
  unfold run, mbind, P_bind_inst, P_bind, lift.
  destruct (run_submit _ _ _ _ _ _ _ _ _ _ _ w) as [[task|e] w1].
  2: { exact (R_submit _ _ eq_refl). }
  assert (submitted task) as Htask by by exists w1.
  etrans; [exact (R_submit _ _ eq_refl)|].
  pose proof (R_wait task Htask fuel w1) as Hwait.
  destruct (run_wait _ _ _ _ _ _ _ _ _) as [[s|e] w2|w2]; simpl in Hwait;
    [|done|done].
  etrans; [exact Hwait|].
  destruct (py_eq s (PStr "error")).
  { exact (R_error task Htask w2 (Ok tt) _ eq_refl). }
  destruct (emit (LogLog _ _) w2) as [r3 w3] eqn:Hlog.
  pose proof (R_log task Htask s _ _ _ Hlog) as Hw3.
  unfold emit in Hlog. injection Hlog as <- <-.
  etrans; [exact Hw3|].
  destruct (when verbose _ _) as [r4 w4] eqn:Hcon.
  assert (R (log_event (LogLog (if verbose then "DEBUG" else "INFO")
                          [Lit "Mode solver status: "; Val s]) (Ok tt) w2) w4
          ∧ r4 = Ok tt) as [Hw4 ->].
  { destruct verbose; simpl in Hcon.
    - split; [exact (R_console task Htask eq_refl s _ _ _ Hcon)|].
      unfold emit in Hcon. by injection Hcon as <- _.
    - unfold ret in Hcon. injection Hcon as <- <-. by split. }
  etrans; [exact Hw4|].
  destruct (negb (py_eq s (PStr "success"))); [reflexivity|].
  destruct (get_result _ _ _ _ _ _ w4) as [[d|e] w5] eqn:Hres;
    exact (R_result _ Htask _ _ _ Hres).
Qed.

End RunSteps.

(** ** [delete] *)

Section Delete.
Variable env : Env.

(** X1. [delete] asks the server to delete the mode solver first and the
    parent task second.  If the first request raises, [delete] raises the
    same and the second request is not made: the parent task is left on the
    server.  If the first returns, the second is made, and [delete] returns
    [None] or raises what the second raised. *)
Theorem delete_solver_then_task (self : ModeSolverTask) (w : World) :
  match delete env self w with
  | (r, w') =>
      (∃ e, since w w' = [Ev (HttpDelete (task_url self)) (Raise e)]
            ∧ r = Raise e)
      ∨ (∃ a r2,
           since w w' =
             [Ev (HttpDelete (task_url self)) (Ok a);
              Ev (HttpDelete [Lit "tidy3d/tasks/"; Val (task_id self)]) r2]
           ∧ r = match r2 with Ok _ => Ok tt | Raise e => Raise e end)
  end.
Proof.
  unfold delete. unfold_M.
  repeat step_env env.
  all: norm_since.
  - right. eexists _, (Ok _). by split.
  - right. eexists _, (Raise _). by split.
  - left. eexists. by split.
Qed.

End Delete.

(** ** [create], when the payload is valid *)

Section CreateRequest.
Variable env : Env.
Variable validate : ftype → pyval → option pyval.
Variable version : string.

(** X2. [create] posts at most one request.  When it posts one, the
    folder was resolved and the two validations of the payload passed, in
    this order and before anything else; the request goes to the
    mode-solver endpoint and carries the folder's id, the two names, the
    version of the client, the file type ["Gz"] and the source
    ["Python"]. *)
Theorem create_request (mode_solver : obj)
    (task_name mode_solver_name folder_name : string) (w : World) :
  match create env validate version mode_solver task_name mode_solver_name
          folder_name w with
  | (r, w') =>
      posts (since w w') = []
      ∨ ∃ folder_id reply,
          posts (since w w') =
            [([Lit MODESOLVER_API],
              [("projectId", folder_id); ("taskName", PStr task_name);
               ("protocolVersion", PStr version);
               ("modeSolverName", PStr mode_solver_name);
               ("fileType", PStr "Gz"); ("source", PStr "Python")],
              reply)]
          ∧ take 3 (since w w') =
              [Ev (FolderGet folder_name true) (Ok folder_id);
               Ev (ValidatePreUpload mode_solver) (Ok tt);
               Ev (SimValidatePreUpload mode_solver false) (Ok tt)]
  end.
Proof.
  unfold create. unfold_M.
  repeat step_env env.
  all: norm_since; simpl.
  all: repeat match goal with x : unit |- _ => destruct x end.
  all: first [by left | right; eexists _, _; split; reflexivity].
Qed.

(** X3. What [create] makes of the answer to its request.  An answer
    without ["refId"], or with it and without ["id"], is a [KeyError] of
    that key: nothing is logged and no record is built.  Otherwise the
    creation is logged with the two ids of the answer, and then: an answer
    that has a key ["mode_solver"] is a [TypeError]; one that fails the
    validation of the record is a [ValidationError]; any other gives the
    record built from the answer and the payload. *)
Theorem create_response (mode_solver : obj)
    (task_name mode_solver_name folder_name : string) (w : World) :
  match create env validate version mode_solver task_name mode_solver_name
          folder_name w with
  | (r, w') =>
      ∀ url body resp,
        posts (since w w') = [(url, body, Ok resp)] →
        match resp !! "refId", resp !! "id" with
        | None, _ =>
            r = Raise (KeyError "refId")
            ∧ omap info_of (since w w') = [] ∧ built (since w w') = []
        | Some _, None =>
            r = Raise (KeyError "id")
            ∧ omap info_of (since w w') = [] ∧ built (since w w') = []
        | Some ref_id, Some id =>
            omap info_of (since w w') =
              [[Lit "Mode solver created with task_id='"; Val ref_id;
                Lit "', solver_id='"; Val id; Lit "'."]]
            ∧ match resp !! "mode_solver" with
              | Some _ => r = Raise TypeError ∧ built (since w w') = []
              | None =>
                  match construct_with validate Extra_allow
                          (<["mode_solver" := PObj mode_solver]> resp) with
                  | Some task => r = Ok task ∧ built (since w w') = [task]
                  | None => r = Raise ValidationError ∧ built (since w w') = []
                  end
              end
        end
  end.
Proof.
  unfold create. unfold_M.
  repeat step_env env.
  all: norm_since; simpl.
  all: intros url body resp; try (intros [=]; fail).
  all: intros [= <- <- <-].
  all: repeat match goal with H : _ !! _ = _ |- _ => rewrite H end.
  all: repeat match goal with H : construct_with _ _ _ = _ |- _ => rewrite H end.
  all: by repeat split.
Qed.

End CreateRequest.

(** ** [upload] *)

Section Upload.
Variable env : Env.

Ltac step_upload :=
  first
    [ rewrite bool_decide_eq_true_2 by apply tmp_added
    | match goal with
      | |- context [env ?T ?h ?c] => destruct (env T h c) as [?|?] eqn:?
      end ]; simpl.

(** X4. [upload] puts two files into the store, both written from one
    copy of the payload: the simulation, under the record's [task_id] and
    the name ["simulation.hdf5.gz"], then the mode solver, under the
    record's [solver_id] and the name ["mode_solver.hdf5.gz"].  The second
    is put only when the first went through, and [upload] returns only
    when both did; when it raises, what it put is nothing, the first file
    (refused or not), or the first and the refused second. *)
Theorem upload_order (self : ModeSolverTask) (verbose : bool)
    (progress_callback : option nat) (w : World) :
  match upload env self verbose progress_callback w with
  | (r, w') =>
      let sim_file p := Upload (task_id self) p SIM_FILE_HDF5_GZ in
      let solver_file p := Upload (solver_id self) p MODESOLVER_GZ in
      match r with
      | Ok _ =>
          ∃ ms copy p1 p2,
            mode_solver self = PObj ms
            ∧ since w w' =
                [Ev (Copy ms) (Ok copy);
                 Ev (Mkstemp ".hdf5.gz") (Ok p1);
                 Ev (SimToHdf5Gz copy p1) (Ok tt);
                 Ev (UploadFile (task_id self) p1 SIM_FILE_HDF5_GZ verbose
                       progress_callback) (Ok tt);
                 Ev (Unlink p1) (Ok tt);
                 Ev (Mkstemp ".hdf5.gz") (Ok p2);
                 Ev (ToHdf5Gz copy p2) (Ok tt);
                 Ev (UploadFile (solver_id self) p2 MODESOLVER_GZ verbose
                       progress_callback) (Ok tt);
                 Ev (Unlink p2) (Ok tt)]
      | Raise e =>
          uploads (since w w') = []
          ∨ (∃ p1, uploads (since w w') = [sim_file p1 (Raise e)])
          ∨ (∃ p1, uploads (since w w') = [sim_file p1 (Ok tt)])
          ∨ (∃ p1 p2, uploads (since w w') =
                        [sim_file p1 (Ok tt); solver_file p2 (Raise e)])
      end
  end.
Proof.
  unfold upload, mkstemp, unlink. unfold_M.
  destruct (mode_solver self) as [| | | |ms]; simpl;
    try (left; by rewrite since_refl).
  repeat step_upload.
  all: repeat match goal with x : unit |- _ => destruct x end.
  all: norm_since; simpl.
  all: eauto 10.
Qed.

End Upload.

(** ** [get_result] and the cache of the payload *)

Section ResultCache.
Variable env : Env.
Variable MODE_MONITOR_NAME : string.

Ltac step_result :=
  match goal with
  | |- context [env ?T ?h ?c] => destruct (env T h c) as [?|?] eqn:?
  | |- context [is_ClientError ?e] => destruct (is_ClientError e) eqn:?
  end; simpl.

(** How [get_result] ends: either it wrote the cache of the payload, as
    the last thing before it asked the payload for its data, or it raised
    and wrote no cache. *)
Lemma get_result_cases (self : ModeSolverTask) (to_file : string)
    (verbose : bool) (progress_callback : option nat) (w : World) :
  let run := get_result env MODE_MONITOR_NAME self to_file verbose
               progress_callback w in
  (∃ ms loaded monitor raw,
     mode_solver self = PObj ms
     ∧ [Ev (DataFromHdf5 (UserPath to_file)) (Ok loaded);
        Ev (ToModeSolverMonitor ms MODE_MONITOR_NAME) (Ok monitor);
        Ev (DataCopy loaded [("monitor", PObj monitor)]) (Ok raw);
        Ev (CacheSet ms "data_raw" (PObj raw)) (Ok tt);
        Ev (DataOf ms) run.1] `suffix_of` since w run.2
     ∧ cached run.2 = <[(ms, "data_raw") := PObj raw]> (cached w)
     ∧ omap cache_write_of (since w run.2) = [(ms, "data_raw", PObj raw)]
     ∧ ∃ d, d ∈ downloads (since w run.2) ∧ download_failed d = false)
  ∨ (∃ e, run.1 = Raise e
          ∧ cached run.2 = cached w
          ∧ omap cache_write_of (since w run.2) = []).
Proof.
  unfold get_result. unfold_M.
  destruct verbose, (mode_solver self); simpl; repeat step_result.
  all: norm_since; simpl.
  all: try (right; eexists; by repeat split).
  all: left; eexists _, _, _, _; split; [reflexivity|].
  all: split;
    [first [eexists [_]; reflexivity | eexists [_; _]; reflexivity
           | eexists [_; _; _]; reflexivity]|].
  all: split; [reflexivity|]; split; [reflexivity|].
  all: first
         [ eexists; split; [apply elem_of_cons; left; reflexivity|reflexivity]
         | eexists; split;
             [apply elem_of_cons; right; apply elem_of_cons; left; reflexivity
             |reflexivity] ].
Qed.

(** X5. [get_result] returns only after it stored the raw data in the
    payload's [_cached_properties]: the file [to_file] is read, the copy of
    what was read, with the payload's own monitor as [monitor], is stored
    under ["data_raw"], and the value returned is the payload's [data],
    asked for after the store.  It is the only write to a cache, it is on
    the payload the record holds, and a download went through before it.
    When [get_result] raises before that, no cache is written. *)
Theorem get_result_caches (self : ModeSolverTask) (to_file : string)
    (verbose : bool) (progress_callback : option nat) (w : World) :
  match get_result env MODE_MONITOR_NAME self to_file verbose progress_callback w with
  | (r, w') =>
      (∃ ms loaded monitor raw,
         mode_solver self = PObj ms
         ∧ [Ev (DataFromHdf5 (UserPath to_file)) (Ok loaded);
            Ev (ToModeSolverMonitor ms MODE_MONITOR_NAME) (Ok monitor);
            Ev (DataCopy loaded [("monitor", PObj monitor)]) (Ok raw);
            Ev (CacheSet ms "data_raw" (PObj raw)) (Ok tt);
            Ev (DataOf ms) r] `suffix_of` since w w'
         ∧ cached w' = <[(ms, "data_raw") := PObj raw]> (cached w)
         ∧ omap cache_write_of (since w w') = [(ms, "data_raw", PObj raw)]
         ∧ ∃ d, d ∈ downloads (since w w') ∧ download_failed d = false)
      ∨ (∃ e, r = Raise e
              ∧ cached w' = cached w
              ∧ omap cache_write_of (since w w') = [])
  end.
Proof.
  pose proof (get_result_cases self to_file verbose progress_callback w) as H.
  cbv zeta in H. by destruct (get_result _ _ _ _ _ _ _) as [r w'].
Qed.

End ResultCache.

(** ** A record without payload *)

Section NoPayload.
Variable env : Env.
Variable MODE_MONITOR_NAME : string.

(** X6. A record that holds no payload (one built from a bare answer of
    the server) cannot be uploaded and gives no result.  [upload] raises
    [AttributeError] at once: no call is made, no file.  [get_result] does
    not return either: it raises when a download or the reading of the file
    fails, as for any record (the last thing done is then the call that
    failed, or, for the [WebError] of the second download, the writing of
    its message), and otherwise raises [AttributeError] right after the
    file was read; no cache is written. *)
Theorem no_payload (self : ModeSolverTask) (to_file : string) (verbose : bool)
    (progress_callback : option nat) (w : World) :
  mode_solver self = PNone →
  upload env self verbose progress_callback w = (Raise AttributeError, w)
  ∧ match get_result env MODE_MONITOR_NAME self to_file verbose
            progress_callback w with
    | (r, w') =>
        cached w' = cached w
        ∧ ((r = Raise AttributeError
            ∧ ∃ loaded, last (since w w')
                        = Some (Ev (DataFromHdf5 (UserPath to_file)) (Ok loaded)))
           ∨ (∃ T (c : Call T) e e',
                r = Raise e ∧ last (since w w') = Some (Ev c (Raise e')))
           ∨ (∃ e' msg,
                r = Raise (WebErrorFrom msg e')
                ∧ [Ev (DownloadFile (solver_id self) MODESOLVER_RESULT
                         (UserPath to_file) verbose progress_callback) (Raise e');
                   Ev (LogError msg) (Ok tt)] `suffix_of` since w w'))
    end.
Proof.
  intros Hms. split.
  { unfold upload. rewrite Hms. reflexivity. }
  unfold get_result. unfold_M. rewrite Hms.
  destruct verbose; simpl.
  all: repeat match goal with
         | |- context [env ?T ?h ?c] => destruct (env T h c) as [?|?] eqn:?; simpl
         | |- context [is_ClientError ?e] => destruct (is_ClientError e) eqn:?; simpl
         end.
  all: norm_since; simpl.
  all: split; [reflexivity|].
  all: first [ left; split; [reflexivity|]; eexists; reflexivity
             | right; left; eexists _, _, _, _; split; reflexivity
             | right; right; eexists _, _; split; [reflexivity|];
               first [eexists [_]; reflexivity | eexists [_; _]; reflexivity] ].
Qed.

End NoPayload.

(** ** What [run] never does *)

Section RunNever.
Variable env : Env.
Variable validate : ftype → pyval → option pyval.
Variable version : string.
Variable enable_caching : pyval.
Variable MODE_MONITOR_NAME : string.
Variables (fuel : nat) (mode_solver : obj).
Variables (task_name mode_solver_name folder_name results_file : string).
Variables (verbose : bool).
Variables (progress_callback_upload progress_callback_download : option nat).
Variables (reduce_simulation : reduce_mode).

Lemma run_submit_emits :
  steps (emits submit_event)
    (run_submit env validate version enable_caching mode_solver task_name
       mode_solver_name folder_name verbose progress_callback_upload
       reduce_simulation).
Proof.
  unfold run_submit, create, upload, submit.
  repeat emits_step ltac:(exact I).
Qed.

Lemma get_result_emits (task : ModeSolverTask) :
  steps (emits result_event)
    (get_result env MODE_MONITOR_NAME task results_file verbose
       progress_callback_download).
Proof. unfold get_result. repeat emits_step ltac:(exact I). Qed.

(** What holds of the calls of each phase of [run] holds of the calls of
    [run], however it ends. *)
Lemma run_emits (Q : Event → Prop) (w : World) :
  (∀ e, submit_event e → Q e) →
  (∀ task w1,
     run_submit env validate version enable_caching mode_solver task_name
       mode_solver_name folder_name verbose progress_callback_upload
       reduce_simulation w = (Ok task, w1) →
     ∀ e, wait_event task e → Q e) →
  (∀ e, result_event e → Q e) →
  emits Q w (world_of
    (run env validate version enable_caching MODE_MONITOR_NAME fuel
       mode_solver task_name mode_solver_name folder_name results_file
       verbose progress_callback_upload progress_callback_download
       reduce_simulation w)).
Proof.
  intros Hsubmit Hwait Hresult.
  apply run_steps; try apply _.
  - intros r w1 H. eapply emits_impl; [exact Hsubmit|].
    exact (run_submit_emits _ _ _ H).
  - intros task [w1 Htask] fuel' w2.
    apply run_wait_emits; intros; by apply (Hwait _ _ Htask).
  - intros task [w1 Htask] st. apply emits_emit. by apply (Hwait _ _ Htask).
  - intros task [w1 Htask] _ st. apply emits_emit. by apply (Hwait _ _ Htask).
  - intros task [w1 Htask]. apply emits_emit. by apply (Hwait _ _ Htask).
  - intros task _ w1 r w2 H. eapply emits_impl; [exact Hresult|].
    exact (get_result_emits _ _ _ _ H).
Qed.

(** X7. Whatever the server answers and however [run] ends (result,
    [None], exception, or still polling), [run] sends no [PUT] and no
    [DELETE]: it neither aborts nor deletes the task, not even one that
    ended in ["error"] or ["diverged"]; and it reads no payload back from
    the store. *)
Theorem run_leaves_task_alone (w : World) :
  Forall left_alone
    (since w (world_of
       (run env validate version enable_caching MODE_MONITOR_NAME fuel
          mode_solver task_name mode_solver_name folder_name results_file
          verbose progress_callback_upload progress_callback_download
          reduce_simulation w))).
Proof.
  apply emits_since, run_emits.
  - intros [T c r]; by destruct c.
  - intros task w1 _ [T c r]; by destruct c.
  - intros [T c r]; by destruct c.
Qed.

(** X8. Every [GET] that [run] sends goes to the record that [create]
    returned, addressed by its [task_id] and [solver_id], whatever ids the
    answers to the polls carry; and every sleep of [run] lasts half a
    second. *)
Theorem run_polls_created_task (w w1 : World) (task : ModeSolverTask) :
  run_submit env validate version enable_caching mode_solver task_name
    mode_solver_name folder_name verbose progress_callback_upload
    reduce_simulation w = (Ok task, w1) →
  let t := since w (world_of
             (run env validate version enable_caching MODE_MONITOR_NAME fuel
                mode_solver task_name mode_solver_name folder_name results_file
                verbose progress_callback_upload progress_callback_download
                reduce_simulation w)) in
  Forall (λ url, url = task_url task) (omap get_url_of t)
  ∧ Forall (λ seconds, seconds = (1 # 2)%Q) (omap sleep_of t).
Proof.
  intros Hsubmit t.
  assert (Forall (polls_task task) t) as Ht.
  { apply emits_since, run_emits.
    - intros [T c r]; by destruct c.
    - intros task' w1' Hsubmit'.
      rewrite Hsubmit in Hsubmit'. injection Hsubmit' as <- <-.
      intros [T c r]; by destruct c.
    - intros [T c r]; by destruct c. }
  split.
  - eapply omap_Forall; [|exact Ht].
    intros [T c r] url He. destruct c; try done. by intros [= <-].
  - eapply omap_Forall; [|exact Ht].
    intros [T c r] s He. destruct c; try done. by intros [= <-].
Qed.

End RunNever.

(** ** The callers of [upload] and [get_modesolver] *)

Section Callers.
Variable env : Env.
Variable validate : ftype → pyval → option pyval.
Variable version : string.
Variable enable_caching : pyval.
Variable MODE_MONITOR_NAME : string.

Lemma scoped_construct (kw : gmap string pyval) :
  steps scoped (construct validate kw).
Proof. intros w r w' [= _ <-]. by apply scoped_log_event. Qed.

Lemma scoped_construct_from (resp : gmap string pyval) (ms : pyval) :
  steps scoped (construct_from validate resp ms).
Proof.
  unfold construct_from. destruct (resp !! "mode_solver").
  - apply steps_raise, _.
  - apply scoped_construct.
Qed.

Lemma scoped_cache_set (ms : obj) (key : string) (v : pyval) :
  steps scoped (cache_set ms key v).
Proof.
  intros w r w' [= _ <-]. split; [done|]. eexists [_]. split; [done|].
  constructor.
Qed.

Ltac scoped_step :=
  first
    [ apply upload_scoped
    | apply get_modesolver_scoped
    | apply steps_bind; [apply _| |intros ?]
    | apply steps_ret, _
    | apply steps_raise, _
    | apply steps_when; [apply _|]
    | apply steps_as_obj, _
    | apply steps_getitem, _
    | apply steps_try_except; [apply _| |intros ?]
    | apply scoped_call; intros; reflexivity
    | apply scoped_emit; reflexivity
    | apply scoped_construct_from
    | apply scoped_construct
    | apply scoped_cache_set
    | match goal with
      | |- steps _ (match ?x with _ => _ end) => destruct x
      | |- steps _ (if ?b then _ else _) => destruct b
      end ].

Lemma run_submit_scoped mode_solver task_name mode_solver_name folder_name verbose
    progress_callback_upload reduce_simulation :
  steps scoped
    (run_submit env validate version enable_caching mode_solver task_name
       mode_solver_name folder_name verbose progress_callback_upload
       reduce_simulation).
Proof. unfold run_submit, create, submit. repeat scoped_step. Qed.

Lemma get_result_scoped task results_file verbose progress_callback :
  steps scoped
    (get_result env MODE_MONITOR_NAME task results_file verbose progress_callback).
Proof. unfold get_result. repeat scoped_step. Qed.

Lemma run_wait_scoped fuel log_level verbose task prev st w :
  scoped w (world_of (run_wait env validate fuel log_level verbose task prev st w)).
Proof.
  destruct (run_wait_spec env validate log_level verbose task fuel prev st w)
    as (t & Et & Htmp & _).
  split; [done|]. exists t. split; [done|].
  assert (made_tmp t = []) as ->; [|constructor].
  pose proof (run_wait_emits env validate log_level verbose task
                (λ e, mkstemp_of e = None)) as Hemits.
  destruct (Hemits (λ _, eq_refl) (λ _ _, eq_refl) eq_refl (λ _, eq_refl)
              (λ _ _, eq_refl) fuel prev st w) as (t' & Et' & Ft').
  rewrite Et in Et'. apply app_inv_head in Et' as ->.
  by apply omap_none.
Qed.

(** X9. [run] and [get], the callers of [upload] and [get_modesolver],
    leave no temporary file behind: however they end ([run]: result,
    [None], exception, or still polling), the temporary files on disk are
    those that were there before, and none of the files made in between is
    among them. *)
Theorem callers_release_temporary_files (fuel : nat) (mode_solver : obj)
    (task_name mode_solver_name folder_name results_file : string)
    (verbose : bool)
    (progress_callback_upload progress_callback_download : option nat)
    (reduce_simulation : reduce_mode)
    (task_id' solver_id' : pyval) (to_file sim_file : string) (w : World) :
  (let w' := world_of
       (run env validate version enable_caching MODE_MONITOR_NAME fuel
          mode_solver task_name mode_solver_name folder_name results_file
          verbose progress_callback_upload progress_callback_download
          reduce_simulation w) in
   tmpfiles w' = tmpfiles w
   ∧ Forall (λ p, ¬ on_disk p w') (made_tmp (since w w')))
  ∧ match get env validate task_id' solver_id' to_file sim_file verbose
            progress_callback_download w with
    | (_, w') =>
        tmpfiles w' = tmpfiles w
        ∧ Forall (λ p, ¬ on_disk p w') (made_tmp (since w w'))
    end.
Proof.
  split.
  - cbv zeta.
    assert (scoped w (world_of
              (run env validate version enable_caching MODE_MONITOR_NAME fuel
                 mode_solver task_name mode_solver_name folder_name results_file
                 verbose progress_callback_upload progress_callback_download
                 reduce_simulation w))) as [Ht (t & E & F)].
    { apply run_steps; try apply _.
      - apply run_submit_scoped.
      - intros task _ fuel' w1. apply run_wait_scoped.
      - intros task _ st. by apply scoped_emit.
      - intros task _ _ st. by apply scoped_emit.
      - intros task _. by apply scoped_emit.
      - intros task _. apply get_result_scoped. }
    by rewrite (since_app _ _ _ E).
  - destruct (get _ _ _ _ _ _ _ _ _) as [r w'] eqn:H.
    assert (steps scoped (get env validate task_id' solver_id' to_file sim_file
                            verbose progress_callback_download)) as Hget.
    { unfold get. repeat scoped_step. }
    destruct (Hget _ _ _ H) as [Ht (t & E & F)].
    by rewrite (since_app _ _ _ E).
Qed.

End Callers.

(** ** How [run] ends *)

Lemma running_eta {A} (o : Outcome A) : result_of o = None → o = Running (world_of o).
Proof. by destruct o. Qed.

Section RunEnds.
Variable env : Env.
Variable validate : ftype → pyval → option pyval.
Variable version : string.
Variable enable_caching : pyval.
Variable MODE_MONITOR_NAME : string.
Variables (solver : obj).
Variables (task_name mode_solver_name folder_name results_file : string).
Variables (verbose : bool).
Variables (progress_callback_upload progress_callback_download : option nat).
Variables (reduce_simulation : reduce_mode).

(** [run] after the submission, by the outcome of the loop. *)
Lemma run_unfold (fuel : nat) (w w1 : World) (task : ModeSolverTask) :
  run_submit env validate version enable_caching solver task_name
    mode_solver_name folder_name verbose progress_callback_upload
    reduce_simulation w = (Ok task, w1) →
  run env validate version enable_caching MODE_MONITOR_NAME fuel solver
    task_name mode_solver_name folder_name results_file verbose
    progress_callback_upload progress_callback_download reduce_simulation w =
    match run_wait env validate fuel (if verbose then "DEBUG" else "INFO")
            verbose task (PStr "draft") (status task) w1 with
    | Running w2 => Running w2
    | Done (Raise e) w2 => Done (Raise e) w2
    | Done (Ok s) w2 =>
        if py_eq s (PStr "error")
        then Done (Raise (WebError "Error running mode solver."))
               (log_event (LogError "Error running mode solver.") (Ok tt) w2)
        else
          let w3 := mkWorld (trace w2 ++ final_lines verbose s)
                      (tmpfiles w2) (cached w2) in
          if negb (py_eq s (PStr "success")) then Done (Ok PNone) w3
          else
            match get_result env MODE_MONITOR_NAME task results_file verbose
                    progress_callback_download w3 with
            | (Ok data, w4) => Done (Ok (PObj data)) w4
            | (Raise e, w4) => Done (Raise e) w4
            end
    end.
Proof.
  intros Hsubmit. unfold run, mbind, P_bind_inst, P_bind, lift.
  rewrite Hsubmit. simpl.
  destruct (run_wait _ _ _ _ _ _ _ _ _) as [[s|e] w2|w2]; [|done|done].
  destruct (py_eq s (PStr "error")); [done|].
  unfold_M. unfold log_event, final_lines. simpl.
  destruct verbose; simpl; rewrite <- ?app_assoc; simpl.
  all: destruct (negb (py_eq s (PStr "success"))); [done|].
  all: by destruct (get_result _ _ _ _ _ _ _) as [[d|e] w4].
Qed.

(** Up to the end of the loop no cache is written. *)
Lemma submit_wait_no_cache (fuel : nat) (w w1 : World) (task : ModeSolverTask) :
  run_submit env validate version enable_caching solver task_name
    mode_solver_name folder_name verbose progress_callback_upload
    reduce_simulation w = (Ok task, w1) →
  let out := run_wait env validate fuel (if verbose then "DEBUG" else "INFO")
               verbose task (PStr "draft") (status task) w1 in
  ∃ t1 t2, trace w1 = trace w ++ t1 ∧ trace (world_of out) = trace w1 ++ t2
           ∧ omap cache_write_of (t1 ++ t2) = []
           ∧ cached (world_of out) = cached w
           ∧ wait_post (if verbose then "DEBUG" else "INFO") verbose
               (PStr "draft") (status task) w1 (world_of out) (result_of out).
Proof.
  intros Hsubmit out.
  destruct (run_submit_quiet _ _ _ _ _ _ _ _ _ _ _ _ _ _ Hsubmit)
    as [_ C1].
  destruct (run_submit_emits env validate version enable_caching solver
              task_name mode_solver_name folder_name verbose
              progress_callback_upload reduce_simulation _ _ _ Hsubmit)
    as (t1 & E1 & F1).
  assert (omap cache_write_of t1 = []) as W1.
  { eapply omap_Forall_nil; [|exact F1]. intros [T c r]; by destruct c. }
  pose proof (run_wait_spec env validate (if verbose then "DEBUG" else "INFO")
                verbose task fuel (PStr "draft") (status task) w1) as Hpost.
  fold out in Hpost.
  destruct (run_wait_emits env validate (if verbose then "DEBUG" else "INFO")
              verbose task (λ e, cache_write_of e = None)
              (λ _, eq_refl) (λ _ _, eq_refl) eq_refl (λ _, eq_refl)
              (λ _ _, eq_refl) fuel (PStr "draft") (status task) w1)
    as (t2 & E2 & F2).
  fold out in E2.
  exists t1, t2. split; [done|]. split; [done|].
  split; [rewrite omap_app, W1; by rewrite omap_none|].
  split; [|done].
  destruct Hpost as (t & _ & _ & C2 & _). congruence.
Qed.

(** The writes of [run] to a cache, by how it ends. *)
Lemma run_cache_cases (fuel : nat) (w w1 : World) (task : ModeSolverTask) :
  run_submit env validate version enable_caching solver task_name
    mode_solver_name folder_name verbose progress_callback_upload
    reduce_simulation w = (Ok task, w1) →
  let out := run env validate version enable_caching MODE_MONITOR_NAME fuel
               solver task_name mode_solver_name folder_name results_file
               verbose progress_callback_upload progress_callback_download
               reduce_simulation w in
  let w' := world_of out in
  (cached w' = cached w
   ∧ omap cache_write_of (since w w') = []
   ∧ ∀ v, result_of out = Some (Ok v) → v = PNone)
  ∨ (∃ ms raw,
       mode_solver task = PObj ms
       ∧ cached w' = <[(ms, "data_raw") := PObj raw]> (cached w)
       ∧ omap cache_write_of (since w w') = [(ms, "data_raw", PObj raw)]
       ∧ last (status task :: map status (built (since w1 w')))
         = Some (PStr "success")
       ∧ ∀ v, result_of out = Some (Ok v) → ∃ data, v = PObj data).
Proof.
  intros Hsubmit. cbv zeta. rewrite (run_unfold fuel w w1 task Hsubmit).
  destruct (submit_wait_no_cache fuel w w1 task Hsubmit)
    as (t1 & t2 & E1 & E2 & W12 & C2 & Hpost).
  cbv zeta in *.
  assert (∀ w2 tail, trace w2 = trace w1 ++ t2 ++ tail →
            omap cache_write_of (since w w2) = omap cache_write_of tail)
    as Hwrites.
  { intros w2 tail E. erewrite since_app; [|by rewrite E, E1, <- !app_assoc].
    by rewrite app_assoc, omap_app, W12. }
  destruct (run_wait _ _ _ _ _ _ _ _ _) as [[s|e] w2|w2];
    cbn [world_of result_of] in *.
  2: { left. split; [done|]. split; [|done].
       rewrite (Hwrites w2 []); [done|by rewrite app_nil_r]. }
  2: { left. split; [done|]. split; [|done].
       rewrite (Hwrites w2 []); [done|by rewrite app_nil_r]. }
  destruct (py_eq s (PStr "error")).
  { left. cbn [world_of result_of]. split; [done|]. split; [|done].
    rewrite (Hwrites _ [Ev (LogError "Error running mode solver.") (Ok tt)]);
      [done|]. unfold log_event. cbn [trace]. by rewrite E2, <- app_assoc. }
  set (w3 := mkWorld _ _ _).
  assert (omap cache_write_of (final_lines verbose s) = []
          ∧ built (final_lines verbose s) = []) as [Wf Bf].
  { unfold final_lines. by destruct verbose. }
  destruct (negb (py_eq s (PStr "success"))) eqn:Hs.
  { left. cbn [world_of result_of]. split; [done|].
    split; [|by intros v [= <-]].
    rewrite (Hwrites w3 (final_lines verbose s)); [done|].
    unfold w3. cbn [trace]. by rewrite E2, <- app_assoc. }
  apply negb_false_iff, py_eq_PStr in Hs as ->.
  pose proof (get_result_cases env MODE_MONITOR_NAME task results_file verbose
                progress_callback_download w3) as Hcases.
  pose proof (get_result_no_polling env MODE_MONITOR_NAME task results_file
                verbose progress_callback_download w3) as (_ & _ & Bg & _).
  cbv zeta in Hcases.
  destruct (get_result _ _ _ _ _ _ _) as [rg w4] eqn:Hres.
  cbn [fst snd] in Hcases, Bg.
  destruct (get_result_grows _ _ _ _ _ _ _ _ _ Hres) as [tg Eg].
  rewrite (since_app _ _ _ Eg) in Hcases, Bg.
  assert (trace w4 = trace w1 ++ t2 ++ final_lines verbose (PStr "success") ++ tg)
    as E4.
  { rewrite Eg. unfold w3. cbn [trace]. by rewrite E2, <- !app_assoc. }
  assert (world_of match rg with
                    | Ok data => Done (Ok (PObj data)) w4
                    | Raise e => Done (Raise e) w4
                    end = w4) as -> by by destruct rg.
  rewrite (Hwrites w4 _ E4), omap_app, Wf. simpl.
  destruct Hcases as [(ms & loaded & monitor & raw & Hms & _ & Hc & Hw & _)
                     |(e & -> & Hc & Hw)].
  - right. exists ms, raw. split; [done|].
    split; [rewrite Hc; unfold w3; cbn [cached]; by rewrite C2|].
    split; [done|]. split.
    + rewrite (since_app _ _ _ E4).
      destruct Hpost as (t & Et & _ & _ & _ & _ & _ & _ & _ & (sts & Hobs & _) & _).
      rewrite E2 in Et. apply app_inv_head in Et as <-.
      unfold built in *. rewrite !omap_app, Bf, Bg, !app_nil_r.
      rewrite Hobs. apply last_snoc.
    + destruct rg; [|done]. intros v [= <-]. by eexists.
  - left. split; [rewrite Hc; unfold w3; cbn [cached]; by rewrite C2|].
    by split.
Qed.


(** After the submission [run] does what the loop does and what
    [get_result] does, nothing else. *)
Lemma run_after_submit_emits (fuel : nat) (w w1 : World) (task : ModeSolverTask) :
  run_submit env validate version enable_caching solver task_name
    mode_solver_name folder_name verbose progress_callback_upload
    reduce_simulation w = (Ok task, w1) →
  emits (λ e, wait_event task e ∨ result_event e) w1
    (world_of
       (run env validate version enable_caching MODE_MONITOR_NAME fuel solver
          task_name mode_solver_name folder_name results_file verbose
          progress_callback_upload progress_callback_download
          reduce_simulation w)).
Proof.
  intros Hsubmit. rewrite (run_unfold fuel w w1 task Hsubmit).
  pose proof (run_wait_emits env validate (if verbose then "DEBUG" else "INFO")
                verbose task (λ e, wait_event task e ∨ result_event e)
                (λ _, or_introl I) (λ _ _, or_introl I) (or_introl eq_refl)
                (λ _, or_introl eq_refl) (λ _ _, or_introl I)
                fuel (PStr "draft") (status task) w1) as Hwait.
  destruct (run_wait _ _ _ _ _ _ _ _ _) as [[s|e] w2|w2];
    cbn [world_of] in Hwait; [|done|done].
  destruct (py_eq s (PStr "error")).
  { etrans; [exact Hwait|]. eexists [_]. split; [reflexivity|].
    repeat constructor. }
  cbv zeta.
  set (w3 := mkWorld _ _ _).
  assert (emits (λ e, wait_event task e ∨ result_event e) w2 w3) as Hfinal.
  { exists (final_lines verbose s). split; [done|].
    unfold final_lines. destruct verbose; repeat constructor. }
  destruct (negb (py_eq s (PStr "success"))).
  { by etrans. }
  destruct (get_result _ _ _ _ _ _ _) as [rg w4] eqn:Hres.
  assert (emits (λ e, wait_event task e ∨ result_event e) w3 w4) as Hget.
  { eapply emits_impl; [|exact (get_result_emits _ _ _ _ _ _ _ _ _ Hres)].
    by right. }
  assert (world_of match rg with
                    | Ok data => Done (Ok (PObj data)) w4
                    | Raise e => Done (Raise e) w4
                    end = w4) as -> by by destruct rg.
  etrans; [exact Hwait|]. by etrans.
Qed.

End RunEnds.

(** ** A poll that fails, a task that never ends *)

Section Polling.
Variable env : Env.
Variable validate : ftype → pyval → option pyval.
Variable log_level : string.
Variable verbose : bool.
Variable task : ModeSolverTask.

Lemma poll_failure_app e pre t reply :
  t ≠ [] → poll_failure validate task e t reply →
  poll_failure validate task e (pre ++ t) reply.
Proof.
  intros Ht. assert (last (pre ++ t) = last t) as Hlast.
  { rewrite last_app. destruct (last t) eqn:Hl; [done|].
    by apply last_None in Hl. }
  unfold poll_failure. rewrite Hlast. done.
Qed.

(** The loop raises only what its last poll raised, or what the
    construction of the record from the last answer raised. *)
Lemma run_wait_raises (fuel : nat) : ∀ prev st w e w',
  run_wait env validate fuel log_level verbose task prev st w = Done (Raise e) w' →
  ∃ t reply, trace w' = trace w ++ t ∧ t ≠ []
             ∧ last (polls t) = Some reply
             ∧ poll_failure validate task e t reply.
Proof.
  induction fuel as [|fuel IH]; intros prev st w e w' Hrun.
  all: destruct (is_terminal st) eqn:Hst.
  1, 3: by rewrite run_wait_terminal in Hrun.
  { simpl in Hrun. by rewrite Hst in Hrun. }
  rewrite run_wait_unfold in Hrun by done. cbv zeta in Hrun.
  destruct (announce_quiet log_level verbose prev st) as (_ & _ & Ap & _).
  destruct (env _ _ (HttpGet (task_url task))) as [resp|e'] eqn:Hget.
  - destruct (resp !! "mode_solver") eqn:Hdup.
    + injection Hrun as <- <-.
      exists (announce log_level verbose prev st
              ++ [Ev (Sleep (1 # 2)%Q) (Ok tt); Ev (HttpGet (task_url task)) (Ok resp)]),
        (Ok resp).
      split; [simpl; by rewrite <- !app_assoc|].
      split; [by destruct (announce _ _ _ _)|].
      split; [unfold polls in *; by rewrite omap_app, Ap|].
      apply poll_failure_app; [done|]. simpl. by rewrite Hdup.
    + destruct (construct_with validate Extra_allow _) as [info|] eqn:Hc.
      * apply IH in Hrun as (t & reply & Et & Hne & Hp & Hf).
        exists ((announce log_level verbose prev st
                 ++ [Ev (Sleep (1 # 2)%Q) (Ok tt);
                     Ev (HttpGet (task_url task)) (Ok resp);
                     Ev (Construct (<["mode_solver" := mode_solver task]> resp))
                        (Ok info)]) ++ t), reply.
        split; [rewrite Et; unfold log_event; simpl; by rewrite <- !app_assoc|].
        split; [by destruct t, (announce _ _ _ _)|].
        split; [|by apply poll_failure_app].
        unfold polls in *. rewrite omap_app, last_app. by rewrite Hp.
      * injection Hrun as <- <-.
        exists (announce log_level verbose prev st
                ++ [Ev (Sleep (1 # 2)%Q) (Ok tt);
                    Ev (HttpGet (task_url task)) (Ok resp);
                    Ev (Construct (<["mode_solver" := mode_solver task]> resp))
                       (Raise ValidationError)]),
          (Ok resp).
        split; [unfold log_event; simpl; by rewrite <- !app_assoc|].
        split; [by destruct (announce _ _ _ _)|].
        split; [unfold polls in *; by rewrite omap_app, Ap|].
        apply poll_failure_app; [done|]. simpl. by rewrite Hdup.
  - injection Hrun as <- <-.
    exists (announce log_level verbose prev st
            ++ [Ev (Sleep (1 # 2)%Q) (Ok tt);
                Ev (HttpGet (task_url task)) (Raise e')]),
      (Raise e').
    split; [simpl; by rewrite <- !app_assoc|].
    split; [by destruct (announce _ _ _ _)|].
    split; [unfold polls in *; by rewrite omap_app, Ap|].
    apply poll_failure_app; [done|]. by simpl.
Qed.

Lemma run_wait_forever (fuel : nat) : ∀ prev st w,
  never_terminal env validate task → nonterminal st →
  result_of (run_wait env validate fuel log_level verbose task prev st w) = None.
Proof.
  induction fuel as [|fuel IH]; intros prev st w Hnever Hst.
  { simpl. unfold nonterminal in Hst. by rewrite Hst. }
  rewrite run_wait_unfold by done. cbv zeta.
  destruct (Hnever (trace w ++ announce log_level verbose prev st
                    ++ [Ev (Sleep (1 # 2)%Q) (Ok tt)]))
    as (resp & info & -> & -> & -> & Hinfo).
  by apply IH.
Qed.

End Polling.

Section PollingRun.
Variable env : Env.
Variable validate : ftype → pyval → option pyval.
Variable version : string.
Variable enable_caching : pyval.
Variable MODE_MONITOR_NAME : string.
Variables (solver : obj).
Variables (task_name mode_solver_name folder_name results_file : string).
Variables (verbose : bool).
Variables (progress_callback_upload progress_callback_download : option nat).
Variables (reduce_simulation : reduce_mode).

(** X11. A poll that fails ends [run], there is no second try.  When the
    loop raises, [run] raises the same, in the same world, and the loop's
    last request is its last act but for the construction of the record:
    either that request raised, and this is what [run] raises; or the
    answer had a key ["mode_solver"], a [TypeError]; or the answer did not
    pass the validation of the record, a [ValidationError]. *)
Theorem run_poll_failure (fuel : nat) (w w1 w2 : World) (task : ModeSolverTask)
    (e : exn) :
  run_submit env validate version enable_caching solver task_name
    mode_solver_name folder_name verbose progress_callback_upload
    reduce_simulation w = (Ok task, w1) →
  run_wait env validate fuel (if verbose then "DEBUG" else "INFO") verbose task
    (PStr "draft") (status task) w1 = Done (Raise e) w2 →
  run env validate version enable_caching MODE_MONITOR_NAME fuel solver
    task_name mode_solver_name folder_name results_file verbose
    progress_callback_upload progress_callback_download reduce_simulation w
  = Done (Raise e) w2
  ∧ ∃ reply, last (polls (since w1 w2)) = Some reply
             ∧ poll_failure validate task e (since w1 w2) reply.
Proof.
  intros Hsubmit Hwait.
  split; [by rewrite (run_unfold _ _ _ _ _ _ _ _ _ _ _ _ _ _ _ _ _ _ Hsubmit), Hwait|].
  apply run_wait_raises in Hwait as (t & reply & Et & _ & Hp & Hf).
  rewrite (since_app _ _ _ Et). by exists reply.
Qed.

(** X12. [run] has no timeout and no bound on the number of polls: on a
    server that keeps answering with a status that is not terminal, [run]
    is still polling after any number of iterations, one request made in
    each. *)
Theorem run_no_timeout (w w1 : World) (task : ModeSolverTask) :
  run_submit env validate version enable_caching solver task_name
    mode_solver_name folder_name verbose progress_callback_upload
    reduce_simulation w = (Ok task, w1) →
  is_terminal (status task) = false →
  never_terminal env validate task →
  ∀ fuel, ∃ w',
    run env validate version enable_caching MODE_MONITOR_NAME fuel solver
      task_name mode_solver_name folder_name results_file verbose
      progress_callback_upload progress_callback_download reduce_simulation w
    = Running w'
    ∧ length (polls (since w1 w')) = fuel.
Proof.
  intros Hsubmit Hst Hnever fuel.
  rewrite (run_unfold _ _ _ _ _ _ _ _ _ _ _ _ _ _ _ _ _ _ Hsubmit).
  pose proof (run_wait_forever env validate (if verbose then "DEBUG" else "INFO")
                verbose task fuel (PStr "draft") (status task) w1 Hnever Hst)
    as Hnone.
  destruct (run_wait _ _ _ _ _ _ _ _ _) as [r w2|w2] eqn:Hwait; [done|].
  exists w2. split; [done|].
  destruct (run_wait_running _ _ _ _ _ _ _ _ _ _ Hwait) as (t & Et & Hp & _).
  by rewrite (since_app _ _ _ Et).
Qed.

End PollingRun.

(** ** [get] *)

Section Get.
Variable env : Env.
Variable validate : ftype → pyval → option pyval.

Ltac step_get :=
  first
    [ rewrite bool_decide_eq_true_2 by apply tmp_added
    | match goal with
      | |- context [env ?T ?h ?c] => destruct (env T h c) as [?|?] eqn:?
      end ]; simpl.

(** X13. [get] asks the server for the record of the two ids it is
    given, once, before anything else.  If the request raises, or the
    answer does not pass the validation of the record, [get] raises and
    nothing is downloaded.  Otherwise the payload is fetched for the record
    built from the answer: every download is addressed by the [solver_id]
    or the [task_id] of that record, not by the ids [get] was given; and
    when [get] returns, it returns that record with the payload put in (the
    other fields and the extra attributes are kept), the payload being the
    one written to [to_file] as the last thing. *)
Theorem get_builds_record (task_id' solver_id' : pyval) (to_file sim_file : string)
    (verbose : bool) (progress_callback : option nat) (w : World) :
  match get env validate task_id' solver_id' to_file sim_file verbose
          progress_callback w with
  | (r, w') =>
      ∃ reply,
        head (since w w') =
          Some (Ev (HttpGet [Lit MODESOLVER_API; Lit "/"; Val task_id'; Lit "/";
                             Val solver_id']) reply)
        ∧ polls (since w w') = [reply]
        ∧ match reply with
          | Raise e => r = Raise e ∧ downloads (since w w') = []
          | Ok resp =>
              match construct_with validate Extra_allow resp with
              | None => r = Raise ValidationError ∧ downloads (since w w') = []
              | Some task =>
                  Forall (λ d, download_resource d = solver_id task
                               ∨ download_resource d = task_id task)
                    (downloads (since w w'))
                  ∧ ∀ t, r = Ok t →
                      ∃ ms, t = with_mode_solver task (PObj ms)
                            ∧ last (since w w')
                              = Some (Ev (ToFile ms (UserPath to_file)) (Ok tt))
              end
          end
  end.
Proof.
  unfold get, get_modesolver, mkstemp, unlink. unfold_M.
  destruct (env _ (trace w) (HttpGet _)) as [resp|e] eqn:Hget; simpl.
  2: { rewrite since_log_event. exists (Raise e). by repeat split. }
  destruct (construct_with validate Extra_allow resp) as [task|] eqn:Hc; simpl.
  2: { norm_since. exists (Ok resp). rewrite Hc. by repeat split. }
  destruct (py_eq (file_type task) (PStr "Gz"));
    [|destruct (py_eq (file_type task) (PStr "Hdf5"))]; simpl.
  all: repeat step_get.
  all: norm_since; simpl.
  all: exists (Ok resp); rewrite Hc.
  all: split; [reflexivity|]; split; [reflexivity|].
  all: split;
    [repeat first [apply Forall_nil_2 | apply Forall_cons_2; [simpl; auto|]]|].
  all: intros t; try discriminate.
  all: intros [= <-]; eexists; split; [reflexivity|].
  all: repeat match goal with x : unit |- _ => destruct x end.
  all: reflexivity.
Qed.

End Get.

(** ** A record from an answer of the server *)

Section Optional.
Variable validate : ftype → pyval → option pyval.

Lemma field_input_None (ty : ftype) (alias : string) (kw : gmap string pyval) :
  field_input validate ty alias kw = None
  ↔ ∃ v, kw !! alias = Some v ∧ v ≠ PNone ∧ validate ty v = None.
Proof.
  unfold field_input, validate_field.
  destruct (kw !! alias) as [v|]; [|split; [done|by intros (? & ? & _)]].
  split.
  - intros H. exists v. split; [done|]. by destruct v.
  - intros (v' & [= <-] & Hv & Hval). by destruct v.
Qed.

(** X14. Every declared field of the record has a default: the record is
    built from any answer, and be it empty, unless a value that is there,
    under the alias of a declared field and other than [None], is rejected
    by the validator of that field.  A key that is missing is never an
    error. *)
Theorem construct_fails_on_rejected_value (kw : gmap string pyval) :
  construct_with validate Extra_allow kw = None
  ↔ ∃ name alias ty v,
      (name, alias, ty) ∈ declared
      ∧ kw !! alias = Some v ∧ v ≠ PNone ∧ validate ty v = None.
Proof.
  unfold construct_with. split.
  - intros H.
    repeat match type of H with
           | context [field_input validate ?ty ?a kw] =>
               let E := fresh "E" in
               destruct (field_input validate ty a kw) eqn:E;
                 [cbn [mbind option_bind] in H
                 |clear H; apply field_input_None in E as (v & ? & ? & ?);
                  eexists _, a, ty, v; split; [|done];
                  unfold declared; rewrite !elem_of_cons; eauto 10]
           end.
    done.
  - intros (name & alias & ty & v & Hin & Hv).
    assert (field_input validate ty alias kw = None) as Hnone
      by (apply field_input_None; by exists v).
    unfold declared in Hin. rewrite !elem_of_cons, elem_of_nil in Hin.
    repeat match goal with
           | |- context [field_input validate ?ty' ?a kw ≫= _] =>
               destruct (field_input validate ty' a kw) eqn:?;
                 [cbn [mbind option_bind]|reflexivity]
           end.
    exfalso.
    destruct Hin as [H|[H|[H|[H|[H|[H|[H|[]]]]]]]]; simplify_eq; congruence.
Qed.

End Optional.

(** ** [run], before the loop *)

Section RunSubmit.
Variable env : Env.
Variable validate : ftype → pyval → option pyval.
Variable version : string.
Variable enable_caching : pyval.
Variables (solver : obj).
Variables (task_name mode_solver_name folder_name : string).
Variables (verbose : bool).
Variables (progress_callback_upload : option nat).

Ltac leaf_reduction :=
  repeat split; try reflexivity; by intros ? [= <-].

(** X15. The payload that [run] creates the task for.  With
    [reduce_simulation=False] it is the payload given: its mediums are not
    looked at, nothing is reduced, no warning.  With [True] it is the
    reduced copy of the payload given, and there is no warning either.
    With ["auto"] the mediums of the payload given are looked at, once:
    when one of them is custom, the warning is written and the reduced copy
    is taken; when none is, the payload given is taken and nothing is
    written.  The payload that is validated is the one taken. *)
Theorem run_submit_reduction (reduce_simulation : reduce_mode) (w : World) :
  match run_submit env validate version enable_caching solver task_name
          mode_solver_name folder_name verbose progress_callback_upload
          reduce_simulation w with
  | (r, w') =>
      let t := since w w' in
      let given := omap reduction_of t = []
                   ∧ Forall (λ x, x = solver) (omap validated_of t) in
      let reduced := ∃ rr, omap reduction_of t = [(solver, rr)]
                           ∧ Forall (λ x, rr = Ok x) (omap validated_of t) in
      match reduce_simulation with
      | Force false => omap mediums_of t = [] ∧ omap warning_of t = [] ∧ given
      | Force true => omap mediums_of t = [] ∧ omap warning_of t = [] ∧ reduced
      | Auto =>
          ∃ rm, omap mediums_of t = [(solver, rm)]
                ∧ match rm with
                  | Raise e => r = Raise e ∧ t = [Ev (SceneMediums solver) (Raise e)]
                  | Ok mediums =>
                      if existsb id mediums
                      then length (omap warning_of t) = 1 ∧ reduced
                      else omap warning_of t = [] ∧ given
                  end
      end
  end.
Proof.
  unfold run_submit.
  set (rest := λ ms' : obj,
         create env validate version ms' task_name mode_solver_name folder_name
         ≫= _).
  assert (∀ ms', steps (emits (after_reduction ms')) (rest ms')) as Hrest.
  { intros ms'. unfold rest, create, upload, submit.
    repeat emits_step leaf_reduction. }
  assert (∀ ms' w1 pre,
            trace w1 = trace w ++ pre →
            match rest ms' w1 with
            | (r, w') =>
                ∃ t2, since w w' = pre ++ t2
                      ∧ omap mediums_of t2 = [] ∧ omap warning_of t2 = []
                      ∧ omap reduction_of t2 = []
                      ∧ Forall (λ x, x = ms') (omap validated_of t2)
            end) as Hframe.
  { intros ms' w1 pre Epre.
    destruct (rest ms' w1) as [r w'] eqn:Hr.
    destruct (Hrest _ _ _ _ Hr) as (t2 & E2 & F2). exists t2.
    split; [apply since_app; by rewrite E2, Epre, <- app_assoc|].
    split; [eapply omap_Forall_nil; [|exact F2]; by intros ? (? & _)|].
    split; [eapply omap_Forall_nil; [|exact F2]; by intros ? (_ & ? & _)|].
    split; [eapply omap_Forall_nil; [|exact F2]; by intros ? (_ & _ & ? & _)|].
    eapply omap_Forall; [|exact F2]. intros e x (_ & _ & _ & He). apply He. }
  clearbody rest. clear Hrest.
  destruct reduce_simulation as [|[|]]; unfold_M; simpl.
  - destruct (env _ _ (SceneMediums solver)) as [mediums|e] eqn:Hm; simpl.
    2: { rewrite since_log_event. exists (Raise e). by split. }
    destruct (existsb id mediums) eqn:Hcustom; simpl.
    + destruct (env _ _ (ReducedSimulationCopy solver)) as [ms'|e] eqn:Hred; simpl.
      * match goal with
        | |- context [rest ms' ?w1] =>
            pose proof (Hframe ms' w1 [_; _; _]
                          ltac:(simpl; rewrite <- !app_assoc; reflexivity)) as H
        end.
        destruct (rest ms' _) as [r w'].
        destruct H as (t2 & -> & M & W & D & V).
        exists (Ok mediums). rewrite !omap_app, M, W, D, Hcustom. simpl.
        split; [done|]. split; [done|].
        eexists. split; [done|]. eapply Forall_impl; [exact V|].
        by intros ? ->.
      * norm_since. simpl. exists (Ok mediums). rewrite Hcustom.
        split; [done|]. split; [done|].
        eexists. split; [done|]. constructor.
    + match goal with
      | |- context [rest solver ?w1] =>
          pose proof (Hframe solver w1 [_]
                        ltac:(simpl; rewrite <- ?app_assoc; reflexivity)) as H
      end.
      destruct (rest solver _) as [r w'].
      destruct H as (t2 & -> & M & W & D & V).
      exists (Ok mediums). by rewrite !omap_app, M, W, D, Hcustom.
  - destruct (env _ _ (ReducedSimulationCopy solver)) as [ms'|e] eqn:Hred; simpl.
    + match goal with
      | |- context [rest ms' ?w1] =>
          pose proof (Hframe ms' w1 [_]
                        ltac:(simpl; rewrite <- ?app_assoc; reflexivity)) as H
      end.
      destruct (rest ms' _) as [r w'].
      destruct H as (t2 & -> & M & W & D & V).
      rewrite !omap_app, M, W, D. simpl. split; [done|]. split; [done|].
      eexists. split; [done|]. eapply Forall_impl; [exact V|].
      by intros ? ->.
    + rewrite since_log_event. simpl. split; [done|]. split; [done|].
      eexists. split; [done|]. constructor.
  - pose proof (Hframe solver w [] ltac:(by rewrite app_nil_r)) as H.
    destruct (rest solver w) as [r w'].
    destruct H as (t2 & -> & M & W & D & V).
    by rewrite !omap_app, M, W, D.
Qed.

End RunSubmit.

Section RunSubmitOrder.
Variable env : Env.
Variable validate : ftype → pyval → option pyval.
Variable version : string.
Variable enable_caching : pyval.
Variables (solver : obj).
Variables (task_name mode_solver_name folder_name : string).
Variables (verbose : bool).
Variables (progress_callback_upload : option nat).

Lemma posted_after_uploads_frame (r : Result ModeSolverTask) (pre t : list Event) :
  posts pre = [] → uploads pre = [] → built pre = [] →
  posted_after_uploads enable_caching r t →
  posted_after_uploads enable_caching r (pre ++ t).
Proof.
  intros Hp Hu Hb H url body reply. unfold posts, uploads, built in *.
  rewrite !omap_app, Hp, Hu, Hb. simpl. intros Hin Hne.
  destruct (H url body reply Hin Hne) as (task & p1 & p2 & ? & ? & ? & ? & Hl & ?).
  exists task, p1, p2. repeat (split; [done|]). split; [|done].
  rewrite last_app, Hl. done.
Qed.

Ltac step_submit :=
  first
    [ rewrite bool_decide_eq_true_2 by apply tmp_added
    | match goal with
      | |- context [env ?T ?h ?c] => destruct (env T h c) as [?|?] eqn:?
      | |- context [match ?m !! ?k with _ => _ end] => destruct (m !! k) eqn:?
      | |- context [construct_with ?v ?p ?kw] =>
          destruct (construct_with v p kw) eqn:?
      | |- context [match mode_solver ?t with _ => _ end] =>
          destruct (mode_solver t) eqn:?
      end ]; simpl.

(** X16. [run] asks the server to run the task only as its last act
    before the loop, and only for a task whose two files went into the
    store: apart from the creation of the task, a request is posted only
    after the record was built and the simulation and the mode solver were
    uploaded, both without error; it goes to the record's URL followed by
    ["/run"].  If the creation, an upload or anything before fails, no run
    is asked for. *)
Theorem run_submit_order (reduce_simulation : reduce_mode) (w : World) :
  match run_submit env validate version enable_caching solver task_name
          mode_solver_name folder_name verbose progress_callback_upload
          reduce_simulation w with
  | (r, w') =>
      ∀ url body reply,
        (url, body, reply) ∈ posts (since w w') → url ≠ [Lit MODESOLVER_API] →
        ∃ task p1 p2,
          built (since w w') = [task]
          ∧ url = task_url task ++ [Lit "/run"]
          ∧ body = [("enableCaching", enable_caching)]
          ∧ uploads (since w w') =
              [Upload (task_id task) p1 SIM_FILE_HDF5_GZ (Ok tt);
               Upload (solver_id task) p2 MODESOLVER_GZ (Ok tt)]
          ∧ last (since w w') = Some (Ev (HttpPost url body) reply)
          ∧ r = match reply with Ok _ => Ok task | Raise e => Raise e end
  end.
Proof.
  unfold run_submit.
  set (rest := λ ms' : obj,
         create env validate version ms' task_name mode_solver_name folder_name
         ≫= _).
  assert (∀ ms' w1,
            match rest ms' w1 with
            | (r, w') =>
                ∃ t2, trace w' = trace w1 ++ t2
                      ∧ posted_after_uploads enable_caching r t2
            end) as Hrest.
  { intros ms' w1. unfold rest, create, upload, submit, mkstemp, unlink.
    unfold_M. destruct verbose; simpl.
    all: repeat step_submit.
    all: eexists; (split; [rewrite <- ?app_assoc; simpl; reflexivity|]).
    all: intros url body reply Hin Hne; simpl in Hin.
    all: repeat (apply elem_of_cons in Hin as [[= -> -> ->]|Hin]; [try done|]).
    all: try (by apply elem_of_nil in Hin).
    all: repeat match goal with x : unit |- _ => destruct x end.
    all: eexists _, _, _; repeat split; reflexivity. }
  assert (∀ ms' w1 pre,
            trace w1 = trace w ++ pre →
            posts pre = [] → uploads pre = [] → built pre = [] →
            match rest ms' w1 with
            | (r, w') => posted_after_uploads enable_caching r (since w w')
            end) as Hframe.
  { intros ms' w1 pre Epre Hp Hu Hb. specialize (Hrest ms' w1).
    destruct (rest ms' w1) as [r w'] eqn:Hr.
    destruct Hrest as (t2 & E2 & H2).
    rewrite (since_app w w' (pre ++ t2)) by by rewrite E2, Epre, app_assoc.
    by apply posted_after_uploads_frame. }
  clearbody rest. clear Hrest.
  assert (∀ e w1 pre,
            trace w1 = trace w ++ pre → posts pre = [] →
            posted_after_uploads enable_caching (Raise e) (since w w1)) as Hfail.
  { intros e w1 pre Epre Hp url body reply.
    rewrite (since_app _ _ _ Epre), Hp. by intros ?%elem_of_nil. }
  destruct reduce_simulation as [|[|]]; unfold_M; simpl.
  - destruct (env _ _ (SceneMediums solver)) as [mediums|e] eqn:Hm; simpl.
    2: { eapply Hfail; [reflexivity|reflexivity]. }
    destruct (existsb id mediums) eqn:Hcustom; simpl.
    + destruct (env _ _ (ReducedSimulationCopy solver)) as [ms'|e] eqn:Hred; simpl.
      * eapply Hframe; [simpl; rewrite <- !app_assoc; reflexivity|reflexivity..].
      * eapply Hfail; [simpl; rewrite <- !app_assoc; reflexivity|reflexivity].
    + eapply Hframe; [reflexivity|reflexivity..].
  - destruct (env _ _ (ReducedSimulationCopy solver)) as [ms'|e] eqn:Hred; simpl.
    + eapply Hframe; [reflexivity|reflexivity..].
    + eapply Hfail; [reflexivity|reflexivity].
  - eapply (Hframe _ _ []); [by rewrite app_nil_r|reflexivity..].
Qed.

End RunSubmitOrder.

(** ** What [run] returns, and what it says *)

Lemma terminal_cases (s : pyval) :
  is_terminal s = true →
  s = PStr "success" ∨ s = PStr "error" ∨ s = PStr "diverged" ∨ s = PStr "deleted".
Proof.
  destruct s as [|x| | |]; try done. simpl. rewrite bool_decide_eq_true.
  unfold terminal. rewrite !elem_of_cons, elem_of_nil.
  intros [->|[->|[->|[->|[]]]]]; auto.
Qed.

Section RunResult.
Variable env : Env.
Variable validate : ftype → pyval → option pyval.
Variable version : string.
Variable enable_caching : pyval.
Variable MODE_MONITOR_NAME : string.
Variables (fuel : nat) (solver : obj).
Variables (task_name mode_solver_name folder_name results_file : string).
Variables (verbose : bool).
Variables (progress_callback_upload progress_callback_download : option nat).
Variables (reduce_simulation : reduce_mode).

(** X18. What [run] returns tells how the task ended.  The status the
    task was last seen in being [s]: when [run] returns [None], [s] is
    ["diverged"] or ["deleted"]; when it returns data, [s] is ["success"];
    it returns nothing else.  When [run] raises and [s] is ["error"], what
    it raises is [WebError("Error running mode solver.")]. *)
Theorem run_result_by_status (w w1 w' : World) (task : ModeSolverTask)
    (r : Result pyval) :
  run_submit env validate version enable_caching solver task_name
    mode_solver_name folder_name verbose progress_callback_upload
    reduce_simulation w = (Ok task, w1) →
  run env validate version enable_caching MODE_MONITOR_NAME fuel solver
    task_name mode_solver_name folder_name results_file verbose
    progress_callback_upload progress_callback_download reduce_simulation w
  = Done r w' →
  let s := last (status task :: map status (built (since w1 w'))) in
  match r with
  | Ok v =>
      (v = PNone ∧ (s = Some (PStr "diverged") ∨ s = Some (PStr "deleted")))
      ∨ (∃ data, v = PObj data ∧ s = Some (PStr "success"))
  | Raise e =>
      s = Some (PStr "error") → e = WebError "Error running mode solver."
  end.
Proof.
  intros Hsubmit Hrun. rewrite (run_unfold _ _ _ _ _ _ _ _ _ _ _ _ _ _ _ _ _ _ Hsubmit) in Hrun.
  pose proof (run_wait_spec env validate (if verbose then "DEBUG" else "INFO")
                verbose task fuel (PStr "draft") (status task) w1) as Hpost.
  destruct (run_wait _ _ _ _ _ _ _ _ _) as [[s|e] w2|w2]; [| |done];
    cbn [world_of result_of] in Hpost.
  all: destruct Hpost as (t2 & E2 & _ & _ & _ & _ & _ & _ & _ & Hend).
  - destruct Hend as ((sts & Hobs & _) & Hs & _).
    assert (∀ tail, built tail = [] → trace w' = trace w2 ++ tail →
              last (status task :: map status (built (since w1 w'))) = Some s)
      as Hlast.
    { intros tail Hb E. erewrite since_app by by rewrite E, E2, <- app_assoc.
      unfold built in *. rewrite omap_app, Hb, app_nil_r, Hobs.
      apply last_snoc. }
    destruct (py_eq s (PStr "error")) eqn:Herr.
    { injection Hrun as <- <-. done. }
    apply py_eq_PStr_false in Herr.
    assert (built (final_lines verbose s) = []) as Bf
      by (unfold final_lines; by destruct verbose).
    cbv zeta in Hrun.
    destruct (negb (py_eq s (PStr "success"))) eqn:Hsucc.
    + injection Hrun as <- <-. cbv zeta. rewrite (Hlast _ Bf eq_refl).
      left. split; [done|].
      apply negb_true_iff, py_eq_PStr_false in Hsucc.
      destruct (terminal_cases s Hs) as [->|[->|[->| ->]]]; try done; auto.
    + apply negb_false_iff, py_eq_PStr in Hsucc as ->.
      pose proof (get_result_no_polling env MODE_MONITOR_NAME task results_file
                    verbose progress_callback_download
                    (mkWorld (trace w2 ++ final_lines verbose (PStr "success"))
                       (tmpfiles w2) (cached w2))) as (_ & _ & Bg & _).
      destruct (get_result _ _ _ _ _ _ _) as [rg w4] eqn:Hres.
      destruct (get_result_grows _ _ _ _ _ _ _ _ _ Hres) as [tg Eg].
      cbn [snd] in Bg. rewrite (since_app _ _ _ Eg) in Bg.
      assert (last (status task :: map status (built (since w1 w4)))
              = Some (PStr "success")) as Hl.
      { assert (∀ w5, w5 = w' → trace w5 = trace w4 →
                  last (status task :: map status (built (since w1 w5)))
                  = Some (PStr "success")) as Hgen.
        { intros w5 -> E5. apply (Hlast (final_lines verbose (PStr "success") ++ tg)).
          - unfold built in *. by rewrite omap_app, Bf, Bg.
          - rewrite E5, Eg. simpl. by rewrite <- app_assoc. }
        destruct rg; injection Hrun as <- <-; by apply Hgen. }
      destruct rg; injection Hrun as <- <-; cbv zeta.
      * right. by eexists.
      * rewrite Hl. by intros [=].
  - destruct Hend as (Hobs & _). injection Hrun as <- <-. cbv zeta.
    rewrite (since_app _ _ _ E2). intros Hl.
    apply last_Some in Hl as (l' & Hl).
    rewrite Hl in Hobs. apply Forall_app in Hobs as [_ Hobs].
    rewrite Forall_singleton in Hobs. done.
Qed.

End RunResult.

Section Silent.
Variable env : Env.
Variable validate : ftype → pyval → option pyval.
Variable version : string.
Variable enable_caching : pyval.
Variable MODE_MONITOR_NAME : string.

Ltac not_verbose_leaf :=
  split; [reflexivity|split; [discriminate|intros ? ?; discriminate]].

Ltac quiet_console :=
  cbv beta iota delta [when]; repeat emits_step ltac:(not_verbose_leaf).

(** X19. With [verbose=False] the module makes no call of [console.log],
    asks every upload and download with [verbose=False], and writes its
    status lines with [log.log] at the level ["INFO"]; this holds of [run],
    however it ends, and of [upload], [get_result] and [get_modesolver]
    called by hand.  The lines given to the logger are still written: the
    warning about custom mediums, the line of [create], the status lines,
    the message of a [WebError]. *)
Theorem no_console_call_without_verbose (fuel : nat) (solver : obj)
    (task_name mode_solver_name folder_name results_file sim_file : string)
    (progress_callback_upload progress_callback_download : option nat)
    (reduce_simulation : reduce_mode) (self : ModeSolverTask) (w : World) :
  Forall not_verbose
    (since w (world_of
       (run env validate version enable_caching MODE_MONITOR_NAME fuel solver
          task_name mode_solver_name folder_name results_file false
          progress_callback_upload progress_callback_download
          reduce_simulation w)))
  ∧ Forall not_verbose
      (since w (upload env self false progress_callback_upload w).2)
  ∧ Forall not_verbose
      (since w (get_result env MODE_MONITOR_NAME self results_file false
                  progress_callback_download w).2)
  ∧ Forall not_verbose
      (since w (get_modesolver env self results_file sim_file false
                  progress_callback_download w).2).
Proof.
  split; [|split; [|split]]; apply emits_since.
  - apply run_steps with (R := emits not_verbose); try apply _.
    + unfold run_submit, create, upload, submit. quiet_console.
    + intros task _ fuel' w1. apply run_wait_emits; try done.
      intros msg. split; [done|]. split; [done|]. by intros ? ? [= <- _].
    + intros task _ st. apply emits_emit.
      split; [done|]. split; [done|]. by intros ? ? [= <- _].
    + done.
    + intros task _. apply emits_emit. not_verbose_leaf.
    + intros task _. unfold get_result. quiet_console.
  - assert (steps (emits not_verbose)
              (upload env self false progress_callback_upload))
      as Hs by (unfold upload; quiet_console).
    destruct (upload _ _ _ _ _) as [r w'] eqn:H. exact (Hs _ _ _ H).
  - assert (steps (emits not_verbose)
              (get_result env MODE_MONITOR_NAME self results_file false
                 progress_callback_download)) as Hs
      by (unfold get_result; quiet_console).
    destruct (get_result _ _ _ _ _ _ _) as [r w'] eqn:H. exact (Hs _ _ _ H).
  - assert (steps (emits not_verbose)
              (get_modesolver env self results_file sim_file false
                 progress_callback_download)) as Hs
      by (unfold get_modesolver; quiet_console).
    destruct (get_modesolver _ _ _ _ _ _ _) as [r w'] eqn:H. exact (Hs _ _ _ H).
Qed.

End Silent.

(** ** The files of the caller *)

Section CallerFiles.
Variable env : Env.

Ltac step_files :=
  first
    [ rewrite bool_decide_eq_true_2 by apply tmp_added
    | match goal with
      | |- context [env ?T ?h ?c] => destruct (env T h c) as [?|?] eqn:?
      end ]; simpl.

(** X20. What [get_modesolver] does to the files of the caller.  The
    payload is written to [to_file] at most once, as the last act: when
    anything before fails, [to_file] is not touched, and [get_modesolver]
    returns the payload written, or raises what the writing raised.  Every
    download goes to a temporary file, but for the simulation, which goes
    to [sim_file]; and [sim_file] is written only for a record that is
    stored neither as ["Gz"] nor as ["Hdf5"]. *)
Theorem get_modesolver_caller_files (self : ModeSolverTask)
    (to_file sim_file : string) (verbose : bool)
    (progress_callback : option nat) (w : World) :
  match get_modesolver env self to_file sim_file verbose progress_callback w with
  | (r, w') =>
      ((omap stored_of (since w w') = [] ∧ ∃ e, r = Raise e)
       ∨ (∃ ms written,
            omap stored_of (since w w') = [(ms, UserPath to_file)]
            ∧ last (since w w') = Some (Ev (ToFile ms (UserPath to_file)) written)
            ∧ r = match written with Ok _ => Ok ms | Raise e => Raise e end))
      ∧ Forall (λ d, match download_target d with
                     | TmpPath _ _ => True
                     | UserPath file =>
                         file = sim_file
                         ∧ file_type self ≠ PStr "Gz"
                         ∧ file_type self ≠ PStr "Hdf5"
                     end)
          (downloads (since w w'))
  end.
Proof.
  unfold get_modesolver.
  destruct (py_eq (file_type self) (PStr "Gz")) eqn:Hgz;
    [|destruct (py_eq (file_type self) (PStr "Hdf5")) eqn:Hhdf5].
  all: unfold mkstemp, unlink; unfold_M; simpl.
  all: repeat step_files.
  all: norm_since; simpl.
  all: rewrite ?py_eq_PStr_false in *.
  all: split;
    [|repeat first [apply Forall_nil_2 | apply Forall_cons_2; [by simpl|]]].
  all: first [ left; split; [reflexivity|]; eexists; reflexivity
             | right; eexists _, (Ok _); by repeat split
             | right; eexists _, (Raise _); by repeat split ].
Qed.

End CallerFiles.

(** ** The payload that gets the data *)

Lemma bind_Ok_inv {A B} (m : M A) (k : A → M B) (w w' : World) (b : B) :
  (m ≫= k) w = (Ok b, w') → ∃ a w1, m w = (Ok a, w1) ∧ k a w1 = (Ok b, w').
Proof.
  unfold mbind, M_bind, bind. destruct (m w) as [[a|e] w1]; [|done].
  intros H. by exists a, w1.
Qed.

Section PayloadTaken.
Variable env : Env.
Variable validate : ftype → pyval → option pyval.
Variable version : string.
Variable enable_caching : pyval.
Variable MODE_MONITOR_NAME : string.

(** The validation of the field [mode_solver] gives back the payload it
    is given, the same object (the payload classes are not copied on
    validation). *)
Hypothesis validate_payload :
  ∀ ms : obj, validate TModeSolver (PObj ms) = Some (PObj ms).

(** The record that [create] returns holds the payload it was given. *)
Lemma create_holds_payload (ms : obj)
    (task_name mode_solver_name folder_name : string) (w w1 : World)
    (task : ModeSolverTask) :
  create env validate version ms task_name mode_solver_name folder_name w
    = (Ok task, w1) →
  mode_solver task = PObj ms.
Proof.
  unfold create. intros H.
  repeat (apply bind_Ok_inv in H as (? & ? & _ & H)).
  unfold construct_from in H.
  match type of H with
  | context [?resp !! "mode_solver"] => destruct (resp !! "mode_solver") eqn:Hdup
  end; [done|].
  unfold construct in H. rewrite construct_with_payload in H; [|done|apply validate_payload].
  destruct (construct_with validate Extra_allow _); simpl in H; [|done].
  by injection H as <- _.
Qed.

(** The payload the record holds after the submission: the payload
    given, or its reduced copy when one was taken. *)
Lemma run_submit_payload (solver : obj)
    (task_name mode_solver_name folder_name : string) (verbose : bool)
    (progress_callback_upload : option nat) (reduce_simulation : reduce_mode)
    (w w1 : World) (task : ModeSolverTask) :
  run_submit env validate version enable_caching solver task_name
    mode_solver_name folder_name verbose progress_callback_upload
    reduce_simulation w = (Ok task, w1) →
  (omap reduction_of (since w w1) = [] ∧ mode_solver task = PObj solver)
  ∨ (∃ ms', omap reduction_of (since w w1) = [(solver, Ok ms')]
            ∧ mode_solver task = PObj ms').
Proof.
  intros H. unfold run_submit in H.
  apply bind_Ok_inv in H as (reduce & w2 & Hpre & H).
  apply bind_Ok_inv in H as (ms' & w3 & Hred & H).
  assert (∃ t3, trace w1 = trace w3 ++ t3 ∧ omap reduction_of t3 = []
                ∧ mode_solver task = PObj ms') as (t3 & E3 & R3 & Hms).
  { match type of H with
    | ?m _ = _ =>
        assert (steps (emits (λ e, reduction_of e = None)) m) as Hsteps
          by (unfold create, upload, submit; repeat emits_step done)
    end.
    destruct (Hsteps _ _ _ H) as (t3 & E3 & F3).
    exists t3. split; [done|]. split; [by apply omap_none|].
    apply bind_Ok_inv in H as (task' & w4 & Hcreate & H).
    apply create_holds_payload in Hcreate.
    repeat (apply bind_Ok_inv in H as (? & ? & _ & H)).
    injection H as <- _. done. }
  assert (∃ t1, trace w2 = trace w ++ t1 ∧ omap reduction_of t1 = [])
    as (t1 & E1 & R1).
  { destruct reduce_simulation as [|b].
    - apply bind_Ok_inv in Hpre as (mediums & wa & Hm & Hpre).
      unfold call in Hm. injection Hm as _ <-.
      apply bind_Ok_inv in Hpre as ([] & wb & Hwarn & Hpre).
      injection Hpre as _ <-.
      destruct (existsb id mediums); simpl in Hwarn.
      + unfold emit in Hwarn. injection Hwarn as <-.
        eexists [_; _]. split; [simpl; by rewrite <- app_assoc|done].
      + injection Hwarn as <-. by eexists [_].
    - injection Hpre as _ <-. exists []. by rewrite app_nil_r. }
  destruct reduce.
  - right. exists ms'. split; [|done].
    unfold call in Hred. injection Hred as Hreply <-.
    simpl in E3. rewrite Hreply in E3.
    erewrite since_app; [|rewrite E3, E1, <- !app_assoc; reflexivity].
    by rewrite !omap_app, R1, R3.
  - left. injection Hred as <- <-. split; [|done].
    erewrite since_app; [|rewrite E3, E1, <- !app_assoc; reflexivity].
    by rewrite !omap_app, R1, R3.
Qed.

(** X21. The data that [run] fetches is stored in the payload the task
    was created for: every write of [run] to a cache is a write of
    ["data_raw"], to the payload given when nothing was reduced, and to its
    reduced copy when one was taken.  When the reduced copy is another
    object than the payload given, the cache of the payload given is not
    written: no write is on it, and it holds what it held.  The payload
    classes are taken not to be copied when a record is built. *)
Theorem run_data_on_payload_taken (fuel : nat) (solver : obj)
    (task_name mode_solver_name folder_name results_file : string)
    (verbose : bool)
    (progress_callback_upload progress_callback_download : option nat)
    (reduce_simulation : reduce_mode) (w : World) :
  let w' := world_of
              (run env validate version enable_caching MODE_MONITOR_NAME fuel
                 solver task_name mode_solver_name folder_name results_file
                 verbose progress_callback_upload progress_callback_download
                 reduce_simulation w) in
  let t := since w w' in
  (∀ ms key v,
     (ms, key, v) ∈ omap cache_write_of t →
     key = "data_raw"
     ∧ ((omap reduction_of t = [] ∧ ms = solver)
        ∨ (∃ ms', omap reduction_of t = [(solver, Ok ms')] ∧ ms = ms')))
  ∧ (∀ ms', omap reduction_of t = [(solver, Ok ms')] → ms' ≠ solver →
       (∀ key v, (solver, key, v) ∉ omap cache_write_of t)
       ∧ ∀ key, cached w' !! (solver, key) = cached w !! (solver, key)).
Proof.
  intros w' t.
  assert (∀ ms key v,
            (ms, key, v) ∈ omap cache_write_of t →
            key = "data_raw"
            ∧ ((omap reduction_of t = [] ∧ ms = solver)
               ∨ (∃ ms', omap reduction_of t = [(solver, Ok ms')] ∧ ms = ms')))
    as Hwrites.
  { intros ms key v Hin. subst t w'.
    destruct (run_submit env validate version enable_caching solver task_name
                mode_solver_name folder_name verbose progress_callback_upload
                reduce_simulation w) as [[task|e] w1] eqn:Hsubmit.
    - destruct (run_after_submit_emits env validate version enable_caching
                  MODE_MONITOR_NAME solver task_name mode_solver_name folder_name
                  results_file verbose progress_callback_upload
                  progress_callback_download reduce_simulation fuel w w1 task
                  Hsubmit) as (t2 & E2 & F2).
      assert (omap reduction_of t2 = []) as R2.
      { eapply omap_Forall_nil; [|exact F2].
        intros [T c r] [H|H]; by destruct c. }
      destruct (run_submit_emits env validate version enable_caching solver
                  task_name mode_solver_name folder_name verbose
                  progress_callback_upload reduce_simulation _ _ _ Hsubmit)
        as (t1 & E1 & _).
      pose proof (run_submit_payload _ _ _ _ _ _ _ _ _ _ Hsubmit) as Hpayload.
      rewrite (since_app _ _ _ E1) in Hpayload.
      destruct (run_cache_cases env validate version enable_caching
                  MODE_MONITOR_NAME solver task_name mode_solver_name folder_name
                  results_file verbose progress_callback_upload
                  progress_callback_download reduce_simulation fuel w w1 task
                  Hsubmit) as [(_ & Hw & _)|(ms0 & raw & Hms0 & _ & Hw & _)];
        rewrite Hw in Hin.
      { by apply elem_of_nil in Hin. }
      apply list_elem_of_singleton in Hin. injection Hin as -> -> ->.
      split; [done|].
      erewrite since_app; [|rewrite E2, E1, <- app_assoc; reflexivity].
      rewrite omap_app, R2, app_nil_r.
      destruct Hpayload as [[Hr Hms]|(ms' & Hr & Hms)].
      + left. split; [done|]. congruence.
      + right. exists ms'. split; [done|]. congruence.
    - exfalso.
      assert (run env validate version enable_caching MODE_MONITOR_NAME fuel
                solver task_name mode_solver_name folder_name results_file
                verbose progress_callback_upload progress_callback_download
                reduce_simulation w = Done (Raise e) w1) as Hrun.
      { unfold run, mbind, P_bind_inst, P_bind, lift. by rewrite Hsubmit. }
      rewrite Hrun in Hin. cbn [world_of] in Hin.
      destruct (run_submit_emits env validate version enable_caching solver
                  task_name mode_solver_name folder_name verbose
                  progress_callback_upload reduce_simulation _ _ _ Hsubmit)
        as (t1 & E1 & F1).
      rewrite (since_app _ _ _ E1) in Hin.
      rewrite (omap_Forall_nil cache_write_of submit_event t1) in Hin;
        [by apply elem_of_nil in Hin| |done].
      intros [T c r]; by destruct c. }
  split; [exact Hwrites|].
  intros ms' Hred Hne.
  assert (∀ key v, (solver, key, v) ∉ omap cache_write_of t) as Hnot.
  { intros key v Hin.
    destruct (Hwrites _ _ _ Hin) as [_ [[Hr _]|(ms'' & Hr & Heq)]];
      rewrite Hr in Hred; [discriminate Hred|].
    injection Hred as <-. by apply Hne. }
  split; [exact Hnot|].
  intros key. subst t w'.
  destruct (run_submit env validate version enable_caching solver task_name
              mode_solver_name folder_name verbose progress_callback_upload
              reduce_simulation w) as [[task|e] w1] eqn:Hsubmit.
  - destruct (run_cache_cases env validate version enable_caching
                MODE_MONITOR_NAME solver task_name mode_solver_name folder_name
                results_file verbose progress_callback_upload
                progress_callback_download reduce_simulation fuel w w1 task
                Hsubmit) as [(Hc & _)|(ms0 & raw & _ & Hc & Hw & _)].
    + by rewrite Hc.
    + rewrite Hc. apply lookup_insert_ne. intros [= -> ].
      apply (Hnot "data_raw" (PObj raw)). rewrite Hw. by apply list_elem_of_singleton.
  - assert (run env validate version enable_caching MODE_MONITOR_NAME fuel
              solver task_name mode_solver_name folder_name results_file
              verbose progress_callback_upload progress_callback_download
              reduce_simulation w = Done (Raise e) w1) as Hrun.
    { unfold run, mbind, P_bind_inst, P_bind, lift. by rewrite Hsubmit. }
    rewrite Hrun. cbn [world_of].
    destruct (run_submit_quiet _ _ _ _ _ _ _ _ _ _ _ _ _ _ Hsubmit) as [_ Hc].
    by rewrite Hc.
Qed.

End PayloadTaken.

(** ** A submission that fails *)

Section SubmitFails.
Variable env : Env.
Variable validate : ftype → pyval → option pyval.
Variable version : string.
Variable enable_caching : pyval.
Variable MODE_MONITOR_NAME : string.
Variables (fuel : nat) (solver : obj).
Variables (task_name mode_solver_name folder_name results_file : string).
Variables (verbose : bool).
Variables (progress_callback_upload progress_callback_download : option nat).
Variables (reduce_simulation : reduce_mode).

(** X22. When the reduction, the creation, an upload or the submission
    raises, [run] raises the same at once: the task is not polled, [run]
    does not sleep, nothing is downloaded, no cache is written, and the
    temporary files are those that were there before. *)
Theorem run_fails_before_polling (w w1 : World) (e : exn) :
  run_submit env validate version enable_caching solver task_name
    mode_solver_name folder_name verbose progress_callback_upload
    reduce_simulation w = (Raise e, w1) →
  run env validate version enable_caching MODE_MONITOR_NAME fuel solver
    task_name mode_solver_name folder_name results_file verbose
    progress_callback_upload progress_callback_download reduce_simulation w
  = Done (Raise e) w1
  ∧ polls (since w w1) = []
  ∧ omap sleep_of (since w w1) = []
  ∧ downloads (since w w1) = []
  ∧ cached w1 = cached w
  ∧ tmpfiles w1 = tmpfiles w.
Proof.
  intros Hsubmit.
  split; [unfold run, mbind, P_bind_inst, P_bind, lift; by rewrite Hsubmit|].
  destruct (run_submit_emits _ _ _ _ _ _ _ _ _ _ _ _ _ _ Hsubmit)
    as (t1 & E1 & F1).
  rewrite (since_app _ _ _ E1).
  split; [eapply omap_Forall_nil; [|exact F1]; intros [T c r]; by destruct c|].
  split; [eapply omap_Forall_nil; [|exact F1]; intros [T c r]; by destruct c|].
  split; [eapply omap_Forall_nil; [|exact F1]; intros [T c r]; by destruct c|].
  split; [exact (proj2 (run_submit_quiet _ _ _ _ _ _ _ _ _ _ _ _ _ _ Hsubmit))|].
  exact (proj1 (run_submit_scoped _ _ _ _ _ _ _ _ _ _ _ _ _ _ Hsubmit)).
Qed.

End SubmitFails.

(** The payload fails validation: [run] raises the error of the
    validation, the task is never polled. *)
Lemma run_fails_before_polling_witness :
  Failing.invalid_start = (Raise (OtherError "SetupError"), Failing.invalid_start.2)
  ∧ Failing.invalid_run
    = Done (Raise (OtherError "SetupError")) Failing.invalid_start.2
  ∧ polls (since Scenario.w0 Failing.invalid_start.2) = [].
Proof.
  assert (Failing.invalid_start
          = (Raise (OtherError "SetupError"), Failing.invalid_start.2)) as H1
    by (apply pair_eta_fst; vm_compute; reflexivity).
  split; [exact H1|].
  destruct (run_fails_before_polling (Scenario.server false false ["success"])
              Scenario.accept "2.6.0" (PBool true) "mode_solver_data" 10 7
              "Untitled" "mode_solver" "Mode Solver" "mode_solver.hdf5" false
              None None Auto Scenario.w0 _ _ H1) as (R1 & R2 & _).
  split; [exact R1|exact R2].
Defined.

(** ** The scripted runs, once more *)

(** An answer to the creation without ["id"]: a [KeyError], no record. *)
Lemma create_response_witness :
  posts (since Scenario.w0 Runs.created_without_id.2)
  = [([Lit MODESOLVER_API],
      [("projectId", PStr "folder-1"); ("taskName", PStr "Untitled");
       ("protocolVersion", PStr "2.6.0"); ("modeSolverName", PStr "mode_solver");
       ("fileType", PStr "Gz"); ("source", PStr "Python")],
      Ok {[ "refId" := PStr "t1" ]})]
  ∧ Runs.created_without_id.1 = Raise (KeyError "id")
  ∧ built (since Scenario.w0 Runs.created_without_id.2) = [].
Proof.
  assert (posts (since Scenario.w0 Runs.created_without_id.2)
          = [([Lit MODESOLVER_API],
              [("projectId", PStr "folder-1"); ("taskName", PStr "Untitled");
               ("protocolVersion", PStr "2.6.0");
               ("modeSolverName", PStr "mode_solver");
               ("fileType", PStr "Gz"); ("source", PStr "Python")],
              Ok {[ "refId" := PStr "t1" ]})]) as Hp
    by (vm_compute; reflexivity).
  split; [exact Hp|].
  pose proof (create_response
                (Script.answering_post (Ok {[ "refId" := PStr "t1" ]})
                   (Scenario.server true true []))
                Scenario.accept "2.6.0" 7 "Untitled" "mode_solver" "Mode Solver"
                Scenario.w0) as H.
  fold Runs.created_without_id in H.
  destruct Runs.created_without_id as [r w']. simpl in *.
  specialize (H _ _ _ Hp).
  change (({[ "refId" := PStr "t1" ]} : gmap string pyval) !! "refId")
    with (Some (PStr "t1")) in H.
  change (({[ "refId" := PStr "t1" ]} : gmap string pyval) !! "id")
    with (@None pyval) in H.
  destruct H as (H1 & _ & H2). split; assumption.
Defined.

(** A record without payload is not uploaded. *)
Lemma no_payload_witness :
  mode_solver Script.bare = PNone
  ∧ upload (Scenario.server true true []) Script.bare false None Scenario.w0
    = (Raise AttributeError, Scenario.w0).
Proof.
  split; [reflexivity|].
  exact (proj1 (no_payload (Scenario.server true true []) "mode_solver_data"
                  Script.bare "data.hdf5" false None Scenario.w0 eq_refl)).
Defined.

(** Seven polls, all of them to the record ["t1"], ["s1"]. *)
Lemma run_polls_created_task_witness :
  Scenario.start Scenario.five_running
    = (Ok Scenario.task7, (Scenario.start Scenario.five_running).2)
  ∧ Forall (λ url, url = task_url Scenario.task7)
      (omap get_url_of
         (since Scenario.w0 (world_of (Scenario.whole Scenario.five_running)))).
Proof.
  assert (Scenario.start Scenario.five_running
          = (Ok Scenario.task7, (Scenario.start Scenario.five_running).2))
    as H1 by (apply pair_eta_fst; vm_compute; reflexivity).
  split; [exact H1|].
  exact (proj1 (run_polls_created_task (Scenario.server true false Scenario.five_running)
                  Scenario.accept "2.6.0" (PBool true) "mode_solver_data" 10 7
                  "Untitled" "mode_solver" "Mode Solver" "mode_solver.hdf5" false
                  None None Auto Scenario.w0 _ Scenario.task7 H1)).
Defined.


(** The script of the server ends after one poll: the second poll fails,
    and [run] raises what it raised. *)
Lemma run_poll_failure_witness :
  Scenario.start ["running"]
    = (Ok Scenario.task7, (Scenario.start ["running"]).2)
  ∧ Scenario.wait ["running"]
    = Done (Raise (OtherError "ConnectionError"))
        (world_of (Scenario.wait ["running"]))
  ∧ Scenario.whole ["running"]
    = Done (Raise (OtherError "ConnectionError"))
        (world_of (Scenario.wait ["running"])).
Proof.
  assert (Scenario.start ["running"]
          = (Ok Scenario.task7, (Scenario.start ["running"]).2)) as H1
    by (apply pair_eta_fst; vm_compute; reflexivity).
  assert (Scenario.wait ["running"]
          = Done (Raise (OtherError "ConnectionError"))
              (world_of (Scenario.wait ["running"])))
    as H2 by (apply outcome_eta; vm_compute; reflexivity).
  split; [exact H1|]. split; [exact H2|].
  exact (proj1 (run_poll_failure (Scenario.server true false ["running"])
                  Scenario.accept "2.6.0" (PBool true) "mode_solver_data" 7
                  "Untitled" "mode_solver" "Mode Solver" "mode_solver.hdf5" false
                  None None Auto 10 Scenario.w0 _ _ Scenario.task7 _ H1 H2)).
Defined.

(** On a server where the task is running whenever it is asked, [run] is
    still polling after four iterations. *)
Lemma run_no_timeout_witness :
  Runs.start_forever = (Ok Scenario.task7, Runs.start_forever.2)
  ∧ is_terminal (status Scenario.task7) = false
  ∧ never_terminal Runs.forever Scenario.accept Scenario.task7
  ∧ ∃ w',
      run Runs.forever Scenario.accept "2.6.0" (PBool true) "mode_solver_data" 4 7
        "Untitled" "mode_solver" "Mode Solver" "mode_solver.hdf5" false None None
        Auto Scenario.w0 = Running w'
      ∧ length (polls (since Runs.start_forever.2 w')) = 4.
Proof.
  assert (Runs.start_forever = (Ok Scenario.task7, Runs.start_forever.2)) as H1
    by (apply pair_eta_fst; vm_compute; reflexivity).
  assert (is_terminal (status Scenario.task7) = false) as H2
    by (vm_compute; reflexivity).
  assert (never_terminal Runs.forever Scenario.accept Scenario.task7) as H3.
  { intros h. exists (Scenario.info "running").
    exists (mkModeSolverTask (PStr "t1") (PStr "s1") PNone PNone (PStr "running")
              (PStr "Gz") (PObj 7) ∅).
    split; [reflexivity|]. split; [vm_compute; reflexivity|].
    split; vm_compute; reflexivity. }
  split; [exact H1|]. split; [exact H2|]. split; [exact H3|].
  exact (run_no_timeout Runs.forever Scenario.accept "2.6.0" (PBool true)
           "mode_solver_data" 7 "Untitled" "mode_solver" "Mode Solver"
           "mode_solver.hdf5" false None None Auto Scenario.w0 _ Scenario.task7
           H1 H2 H3 4).
Defined.

(** Three iterations for a task that needs seven polls: three requests
    made, [run] still polling. *)
Lemma run_running_witness :
  Scenario.start Scenario.five_running
    = (Ok Scenario.task7, (Scenario.start Scenario.five_running).2)
  ∧ Runs.short_of_fuel = Running (world_of Runs.short_of_fuel)
  ∧ length (polls (since (Scenario.start Scenario.five_running).2
                     (world_of Runs.short_of_fuel))) = 3.
Proof.
  assert (Scenario.start Scenario.five_running
          = (Ok Scenario.task7, (Scenario.start Scenario.five_running).2))
    as H1 by (apply pair_eta_fst; vm_compute; reflexivity).
  assert (Runs.short_of_fuel = Running (world_of Runs.short_of_fuel)) as H2
    by (apply running_eta; vm_compute; reflexivity).
  split; [exact H1|]. split; [exact H2|].
  exact (proj1 (run_running (Scenario.server true false Scenario.five_running)
                  Scenario.accept "2.6.0" (PBool true) "mode_solver_data" 3 7
                  "Untitled" "mode_solver" "Mode Solver" "mode_solver.hdf5" false
                  None None Auto Scenario.w0 _ _ Scenario.task7 H1 H2)).
Defined.

(** The run of the task ["t1"], ["s1"] is asked for after its two files
    went into the store. *)
Lemma run_submit_order_witness :
  (task_url Scenario.task7 ++ [Lit "/run"], [("enableCaching", PBool true)],
   Ok Scenario.created)
    ∈ posts (since Scenario.w0 (Scenario.start Scenario.five_running).2)
  ∧ ∃ task p1 p2,
      uploads (since Scenario.w0 (Scenario.start Scenario.five_running).2)
      = [Upload (task_id task) p1 SIM_FILE_HDF5_GZ (Ok tt);
         Upload (solver_id task) p2 MODESOLVER_GZ (Ok tt)]
      ∧ (Scenario.start Scenario.five_running).1 = Ok task.
Proof.
  assert ((task_url Scenario.task7 ++ [Lit "/run"],
           [("enableCaching", PBool true)], Ok Scenario.created)
            ∈ posts (since Scenario.w0 (Scenario.start Scenario.five_running).2))
    as Hin by (vm_compute; right; left).
  split; [exact Hin|].
  pose proof (run_submit_order (Scenario.server true false Scenario.five_running)
                Scenario.accept "2.6.0" (PBool true) 7 "Untitled" "mode_solver"
                "Mode Solver" false None Auto Scenario.w0) as H.
  fold (Scenario.start Scenario.five_running) in H.
  destruct (Scenario.start Scenario.five_running) as [r w']. simpl in *.
  destruct (H _ _ _ Hin ltac:(discriminate))
    as (task & p1 & p2 & _ & _ & _ & Hu & _ & Hr).
  exists task, p1, p2. split; assumption.
Defined.

(** The record fetched holds the payload that was written to
    [to_file]. *)
Lemma get_builds_record_witness :
  ∃ ms, Runs.got.1 = Ok (with_mode_solver Runs.answered (PObj ms))
        ∧ last (since Scenario.w0 Runs.got.2)
          = Some (Ev (ToFile ms (UserPath "mode_solver.hdf5")) (Ok tt)).
Proof.
  assert (Runs.got.1 = Ok (with_mode_solver Runs.answered (PObj 40))) as Hr
    by (vm_compute; reflexivity).
  assert (polls (since Scenario.w0 Runs.got.2) = [Ok (Scenario.info "success")])
    as Hp by (vm_compute; reflexivity).
  assert (construct_with Scenario.accept Extra_allow (Scenario.info "success")
          = Some Runs.answered) as Hc by (vm_compute; reflexivity).
  pose proof (get_builds_record (Scenario.server true true ["success"])
                Scenario.accept (PStr "t1") (PStr "s1") "mode_solver.hdf5"
                "simulation.hdf5" false None Scenario.w0) as H.
  fold Runs.got in H.
  destruct Runs.got as [r w']. simpl in Hr, Hp.
  destruct H as (reply & _ & Hp' & H).
  rewrite Hp in Hp'. injection Hp' as <-.
  rewrite Hc in H. destruct H as [_ H].
  destruct (H _ Hr) as (ms & Ht & Hl).
  exists ms. split; [by rewrite Hr, Ht|exact Hl].
Defined.

(** The task succeeds and [run] returns data: the last status seen is
    ["success"]. *)
Lemma run_result_by_status_witness :
  Scenario.start Scenario.five_running
    = (Ok Scenario.task7, (Scenario.start Scenario.five_running).2)
  ∧ Scenario.whole Scenario.five_running
    = Done (Ok (PObj 53)) (world_of (Scenario.whole Scenario.five_running))
  ∧ last (status Scenario.task7
          :: map status
               (built (since (Scenario.start Scenario.five_running).2
                         (world_of (Scenario.whole Scenario.five_running)))))
    = Some (PStr "success").
Proof.
  assert (Scenario.start Scenario.five_running
          = (Ok Scenario.task7, (Scenario.start Scenario.five_running).2))
    as H1 by (apply pair_eta_fst; vm_compute; reflexivity).
  assert (Scenario.whole Scenario.five_running
          = Done (Ok (PObj 53)) (world_of (Scenario.whole Scenario.five_running)))
    as H2 by (apply outcome_eta; vm_compute; reflexivity).
  split; [exact H1|]. split; [exact H2|].
  destruct (run_result_by_status (Scenario.server true false Scenario.five_running)
              Scenario.accept "2.6.0" (PBool true) "mode_solver_data" 10 7
              "Untitled" "mode_solver" "Mode Solver" "mode_solver.hdf5" false
              None None Auto Scenario.w0 _ _ Scenario.task7 _ H1 H2)
    as [[Hv _]|(data & _ & Hs)]; [discriminate Hv|exact Hs].
Defined.

(** The payload [7] has a custom medium: the data is stored in its reduced
    copy, the payload [8], and the cache of the payload [7] stays empty. *)
Lemma run_data_on_payload_taken_witness :
  (∀ ms : obj, Scenario.accept TModeSolver (PObj ms) = Some (PObj ms))
  ∧ omap cache_write_of (since Scenario.w0 (world_of Runs.reduced_run))
    = [(8, "data_raw", PObj 52)]
  ∧ omap reduction_of (since Scenario.w0 (world_of Runs.reduced_run))
    = [(7, Ok 8)]
  ∧ 8 ≠ 7
  ∧ cached (world_of Runs.reduced_run) !! (7, "data_raw") = None.
Proof.
  assert (∀ ms : obj, Scenario.accept TModeSolver (PObj ms) = Some (PObj ms))
    as H0 by (intros ms; reflexivity).
  assert (omap cache_write_of (since Scenario.w0 (world_of Runs.reduced_run))
          = [(8, "data_raw", PObj 52)]) as Hw by (vm_compute; reflexivity).
  assert (8 ≠ 7) as Hne by discriminate.
  split; [exact H0|]. split; [exact Hw|].
  pose proof (run_data_on_payload_taken
                (Script.with_custom_medium
                   (Scenario.server true false Scenario.five_running))
                Scenario.accept "2.6.0" (PBool true) "mode_solver_data" H0 10 7
                "Untitled" "mode_solver" "Mode Solver" "mode_solver.hdf5" false
                None None Auto Scenario.w0) as H.
  cbv zeta in H. fold Runs.reduced_run in H. destruct H as [H1 H2].
  assert (omap reduction_of (since Scenario.w0 (world_of Runs.reduced_run))
          = [(7, Ok 8)]) as Hr.
  { destruct (H1 8 "data_raw" (PObj 52)) as (_ & [[_ H]|(ms' & Hr & H)]).
    - rewrite Hw. apply list_elem_of_singleton. reflexivity.
    - discriminate H.
    - rewrite Hr. by rewrite H. }
  split; [exact Hr|]. split; [exact Hne|].
  destruct (H2 8 Hr Hne) as [_ Hc]. rewrite Hc. reflexivity.
Defined.

(** The first [DELETE] fails: the parent task is not asked to be
    deleted. *)
Example delete_stops_at_first_failure :
  delete (Script.failing_delete (Scenario.server true true [])) Scenario.task7
    Scenario.w0
  = (Raise (OtherError "ConnectionError"),
     mkWorld [Ev (HttpDelete (task_url Scenario.task7))
                 (Raise (OtherError "ConnectionError"))] ∅ ∅).
Proof. vm_compute. reflexivity. Qed.

(** The store refuses the mode solver: [upload] raises, the simulation is
    in the store, no temporary file is left. *)
Example upload_refused_mode_solver :
  let run := upload (Script.refusing_upload MODESOLVER_GZ
                       (Scenario.server true true []))
               Scenario.task7 false None Scenario.w0 in
  run.1 = Raise (OtherError "UploadError")
  ∧ uploads (since Scenario.w0 run.2)
    = [Upload (PStr "t1") (TmpPath 0 ".hdf5.gz") SIM_FILE_HDF5_GZ (Ok tt);
       Upload (PStr "s1") (TmpPath 0 ".hdf5.gz") MODESOLVER_GZ
         (Raise (OtherError "UploadError"))]
  ∧ tmpfiles run.2 = ∅.
Proof. repeat split; vm_compute; reflexivity. Qed.
